(** * Football-odds-history: a shallow embedding of [main.py]

    The script fetches a team's fixtures and pre-match 1x2 odds from a remote
    API, tabulates them and writes a summary.  This development embeds the
    functions of [main.py] and proves properties of them.

    Modelling conventions.
    - A JSON object the code reads with [.get] is a record whose fields are
      [option]s: [None] is the key being absent.
    - Python [str] is [string]; [lower] and [strip] act on the ASCII range.
    - A [datetime] is naive or aware and carries an integer, its reading or
      its instant (the instance used on the sample data counts seconds);
      comparing a naive one with an aware one raises [TypeError].
      [datetime.fromisoformat], [float] on strings, [pandas.to_datetime] and
      the order [sort_values] leaves equal dates in belong to the libraries
      and are parameters of the development.
    - A Python [float] is a [spec_float]; its truth value is "not a zero".
    - Exceptions, the environment, the remote service, the opening of the
      workbook and the clock are threaded through a state-and-error monad
      [M]; what pandas does with the sample file is a parameter that may
      raise. *)

From Stdlib Require Import ZArith List Bool Lia Ascii String.
From Stdlib Require Import Permutation Sorting.Sorted.
From Stdlib Require OrderedTypeEx.
From Stdlib Require Import Numbers.DecimalString.
From Stdlib Require Import Floats.SpecFloat.
Import ListNotations.

Local Open Scope string_scope.
Local Open Scope Z_scope.

(** ** Python strings *)

Module PyStr.

Definition lower_char (c : ascii) : ascii :=
  let n := nat_of_ascii c in
  if ((65 <=? n) && (n <=? 90))%nat then ascii_of_nat (n + 32) else c.

(** [str.lower()] *)
Fixpoint lower (s : string) : string :=
  match s with
  | EmptyString => EmptyString
  | String c s' => String (lower_char c) (lower s')
  end.

(** The ASCII characters [str.strip()] removes. *)
Definition is_space (c : ascii) : bool :=
  let n := nat_of_ascii c in
  (((9 <=? n) && (n <=? 13)) || ((28 <=? n) && (n <=? 32)))%nat.

Fixpoint lstrip (s : string) : string :=
  match s with
  | EmptyString => EmptyString
  | String c s' => if is_space c then lstrip s' else s
  end.

Fixpoint rstrip (s : string) : string :=
  match s with
  | EmptyString => EmptyString
  | String c s' =>
      match rstrip s' with
      | EmptyString => if is_space c then EmptyString else String c EmptyString
      | r => String c r
      end
  end.

(** [str.strip()] *)
Definition strip (s : string) : string := rstrip (lstrip s).

(** [sub in s] *)
Fixpoint contains (sub s : string) : bool :=
  prefix sub s ||
  match s with
  | EmptyString => false
  | String _ s' => contains sub s'
  end.

(** [s.replace("Z", "+00:00")] *)
Fixpoint replace_Z (s : string) : string :=
  match s with
  | EmptyString => EmptyString
  | String c s' =>
      if Ascii.eqb c "Z" then "+00:00" ++ replace_Z s' else String c (replace_Z s')
  end.

(** Truth value of a string: non-empty. *)
Definition truthy (s : string) : bool :=
  match s with EmptyString => false | _ => true end.

(** [s[:n]] *)
Definition take (n : nat) (s : string) : string := substring 0 n s.

(** [str(n)] for an integer. *)
Definition of_Z (n : Z) : string := NilZero.string_of_int (Z.to_int n).

(** Lexicographic [<=] on strings, by character code. *)
Definition leb (s t : string) : bool :=
  match String.compare s t with Gt => false | _ => true end.

End PyStr.

(** ** Python floats *)

Definition price := spec_float.

(** [bool(x)] for a float: false exactly on [0.0] and [-0.0]. *)
Definition float_truthy (x : price) : bool :=
  match x with S754_zero _ => false | _ => true end.

(** [bool(x)] for an optional float: [None] and zeros are falsy. *)
Definition opt_truthy (x : option price) : bool :=
  match x with Some p => float_truthy p | None => false end.

(** ** JSON data read by the script *)

(** A JSON scalar as found under ["odd"]: a string or a number. *)
Inductive scalar :=
| JStr (s : string)
| JNum (x : price).

(** One entry of a bet's ["values"]: [{"value": "Home", "odd": "1.85"}]. *)
Record outcome_price := {
  op_value : option string;
  op_odd : option scalar
}.

Record bet := {
  bet_name : option string;
  bet_values : option (list outcome_price)
}.

Record bookmaker := {
  book_update : option string;
  book_bets : option (list bet)
}.

Record team_obj := {
  tm_id : option Z;
  tm_name : option string
}.

Record status_obj := { status_short : option string }.

Record fixture_obj := {
  fx_id : option Z;
  fx_date : option string;
  fx_timestamp : option Z;
  fx_status : option status_obj
}.

Record league_obj := {
  lg_name : option string;
  lg_season : option Z;
  lg_round : option string
}.

Record teams_obj := {
  ts_home : option team_obj;
  ts_away : option team_obj
}.

Record goals_obj := {
  g_home : option Z;
  g_away : option Z
}.

(** One element of a ["response"] array.  The three endpoints return objects
    with different keys; an entry carries every key the script reads. *)
Record entry := {
  e_team : option team_obj;
  e_fixture : option fixture_obj;
  e_league : option league_obj;
  e_teams : option teams_obj;
  e_goals : option goals_obj;
  e_bookmakers : option (list bookmaker)
}.

Record json_body := { response : option (list entry) }.

(** [d.get(k, default)] *)
Definition get_or {A} (o : option A) (default : A) : A :=
  match o with Some a => a | None => default end.

Definition empty_team : team_obj := {| tm_id := None; tm_name := None |}.
Definition empty_fixture : fixture_obj :=
  {| fx_id := None; fx_date := None; fx_timestamp := None; fx_status := None |}.
Definition empty_league : league_obj :=
  {| lg_name := None; lg_season := None; lg_round := None |}.
Definition empty_goals : goals_obj := {| g_home := None; g_away := None |}.
Definition empty_entry : entry :=
  {| e_team := None; e_fixture := None; e_league := None; e_teams := None;
     e_goals := None; e_bookmakers := None |}.

(** ** Exceptions, the world and the monad *)

Inductive exn :=
| APIError (msg : string)
| RetryError
| RequestException
| JSONDecodeError
| ValueError
| AttributeError
| TypeError
| KeyError
| ReError
| OSError.

Inductive result (A : Type) :=
| Ok (a : A)
| Raise (e : exn).
Arguments Ok {A} a.
Arguments Raise {A} e.

(** What pandas, [re] and the file system raise in the parts of the script
    that use them; the script's own [APIError] is not among them. *)
Inductive library_exn :=
| LibValueError
| LibTypeError
| LibKeyError
| LibAttributeError
| LibReError
| LibOSError.

Definition exn_of_library (e : library_exn) : exn :=
  match e with
  | LibValueError => ValueError
  | LibTypeError => TypeError
  | LibKeyError => KeyError
  | LibAttributeError => AttributeError
  | LibReError => ReError
  | LibOSError => OSError
  end.

Record http_response := {
  status_code : Z;
  text : string;
  json : option json_body
}.

(** What one [requests.get] meets: an HTTP response or a network failure. *)
Inductive reply :=
| Reply (r : http_response)
| NetworkFailure.

Inductive event :=
| Requested (path : string) (params : list (string * string))
| Slept (milliseconds : Z)
| Logged (msg : string).

(** The environment variables, the replies the remote service will give to
    the successive requests, what opening [pd.ExcelWriter] on a path raises
    ([None] when it opens), and what the run has done so far (latest
    first). *)
Record world := {
  env_API_FOOTBALL_KEY : option string;
  env_APISPORTS_KEY : option string;
  remote : list reply;
  excel_writer : string -> option library_exn;
  trace : list event
}.

Definition M (A : Type) : Type := world -> result A * world.

Definition ret {A} (a : A) : M A := fun w => (Ok a, w).
Definition raise {A} (e : exn) : M A := fun w => (Raise e, w).
Definition bind {A B} (m : M A) (k : A -> M B) : M B :=
  fun w =>
    match m w with
    | (Ok a, w') => k a w'
    | (Raise e, w') => (Raise e, w')
    end.

Notation "x <- m ;; k" := (bind m (fun x => k))
  (at level 61, m at next level, right associativity).
Notation "m ;;; k" := (bind m (fun _ => k))
  (at level 61, right associativity).

(** The world after one more event. *)
Definition push (ev : event) (w : world) : world :=
  {| env_API_FOOTBALL_KEY := env_API_FOOTBALL_KEY w;
     env_APISPORTS_KEY := env_APISPORTS_KEY w;
     remote := remote w;
     excel_writer := excel_writer w;
     trace := ev :: trace w |}.

(** The world after the remote service has given its next reply. *)
Definition consume (w : world) : world :=
  {| env_API_FOOTBALL_KEY := env_API_FOOTBALL_KEY w;
     env_APISPORTS_KEY := env_APISPORTS_KEY w;
     remote := tl (remote w);
     excel_writer := excel_writer w;
     trace := trace w |}.

Definition emit (ev : event) : M unit := fun w => (Ok tt, push ev w).

(** [time.sleep] *)
Definition sleep (ms : Z) : M unit := emit (Slept ms).

(** [log] (the time stamp of the printed line is left out). *)
Definition log (msg : string) : M unit := emit (Logged msg).

(** [os.getenv(a) or os.getenv(b)] *)
Definition getenv_or (a b : option string) : option string :=
  match a with
  | Some s => if PyStr.truthy s then Some s else b
  | None => b
  end.

(** [get_headers]: the key to send, [None] when none is configured. *)
Definition get_headers (w : world) : option string :=
  match getenv_or (env_API_FOOTBALL_KEY w) (env_APISPORTS_KEY w) with
  | Some key => if PyStr.truthy key then Some key else None
  | None => None
  end.

(** [requests.get]: consumes the next reply of the remote service; a remote
    that has no reply left is a network failure. *)
Definition requests_get (path : string) (params : list (string * string))
    : M http_response :=
  fun w =>
    let w' := push (Requested path params) (consume w) in
    match remote w with
    | Reply r :: _ => (Ok r, w')
    | NetworkFailure :: _ => (Raise RequestException, w')
    | [] => (Raise RequestException, w')
    end.

(** ** tenacity's [retry] *)

(** [retry_if_exception_type(APIError)] *)
Definition retry_if_exception_type_APIError (e : exn) : bool :=
  match e with APIError _ => true | _ => false end.

(** [wait_exponential(multiplier, min, max)] at a given attempt number, in
    seconds: [multiplier * 2 ** (attempt_number - 1)] clamped between
    [max(0, min)] and [max]. *)
Definition wait_exponential (multiplier min max attempt_number : Z) : Z :=
  let exp := 2 ^ (attempt_number - 1) in
  let result := multiplier * exp in
  Z.max (Z.max 0 min) (Z.min result max).

(** The retrying loop: call; return on success; re-raise an exception the
    predicate rejects; otherwise stop with [RetryError] when the attempt
    limit is reached, else sleep and call again. *)
Fixpoint retry_loop {A} (retry_if : exn -> bool) (wait : Z -> Z)
    (attempts_left : nat) (attempt_number : Z) (f : M A) : M A :=
  fun w =>
    match f w with
    | (Ok a, w1) => (Ok a, w1)
    | (Raise e, w1) =>
        if retry_if e then
          match attempts_left with
          | O => (Raise RetryError, w1)
          | S n =>
              match sleep (1000 * wait attempt_number) w1 with
              | (_, w2) => retry_loop retry_if wait n (attempt_number + 1) f w2
              end
          end
        else (Raise e, w1)
    end.

(** [@retry(stop=stop_after_attempt(n), wait=..., retry=...)] *)
Definition retry {A} (stop_after_attempt : nat) (wait : Z -> Z)
    (retry_if : exn -> bool) (f : M A) : M A :=
  retry_loop retry_if wait (stop_after_attempt - 1) 1 f.

(** ** [api_get] *)

(** The body of [api_get], one attempt. *)
Definition api_get_body (path : string) (params : list (string * string))
    : M json_body :=
  fun w =>
    match get_headers w with
    | None => (Raise (APIError "NO_API_KEY"), w)
    | Some _ =>
        (r <- requests_get path params ;;
         if status_code r =? 429 then raise (APIError "RATE_LIMIT")
         else if status_code r >=? 300 then
           raise (APIError ("HTTP_" ++ PyStr.of_Z (status_code r) ++ ": "
                            ++ PyStr.take 200 (text r)))
         else
           match json r with
           | Some data => ret data
           | None => raise JSONDecodeError
           end) w
    end.

Definition api_get (path : string) (params : list (string * string))
    : M json_body :=
  retry 3 (wait_exponential 1 1 8) retry_if_exception_type_APIError
    (api_get_body path params).

(** ** Python datetimes *)

(** A [datetime] without offset is naive and [Naive t] holds its reading;
    one with an offset is aware and [Aware t] holds the instant it
    denotes. *)
Inductive datetime :=
| Naive (reading : Z)
| Aware (utc : Z).

(** The reading of a naive datetime, the instant of an aware one. *)
Definition instant (d : datetime) : Z :=
  match d with Naive t => t | Aware t => t end.

(** Both naive or both aware. *)
Definition same_kind (a b : datetime) : bool :=
  match a, b with
  | Naive _, Naive _ => true
  | Aware _, Aware _ => true
  | _, _ => false
  end.

(** [a <= b]: two naive datetimes compare by their readings, two aware ones
    by their instants, and comparing a naive with an aware one raises
    [TypeError]. *)
Definition dt_le (a b : datetime) : result bool :=
  if same_kind a b then Ok (instant a <=? instant b) else Raise TypeError.

(** [a > b], likewise. *)
Definition dt_gt (a b : datetime) : result bool :=
  if same_kind a b then Ok (instant a >? instant b) else Raise TypeError.

(** A cell of the DateUTC column: the date string of the API, as the loop
    of [build_dataframe] stores it, or the timestamp pandas makes of it;
    the whole cell is [None] for [None] and for [NaT]. *)
Inductive date_cell :=
| DateStr (s : string)
| Timestamp (d : datetime).

(** ** Instances of the library parsers

    The script relies on [datetime.fromisoformat], on [float] applied to a
    string and on [pandas.to_datetime].  The development is parametric in
    them; the functions below are instances on the inputs the API
    produces, used to run the definitions on concrete data. *)

Module Parsers.

Definition digit (c : ascii) : option Z :=
  let n := nat_of_ascii c in
  if ((48 <=? n) && (n <=? 57))%nat then Some (Z.of_nat (n - 48)) else None.

Fixpoint digits_from (acc : Z) (s : string) : option Z :=
  match s with
  | EmptyString => Some acc
  | String c s' =>
      match digit c with
      | Some d => digits_from (10 * acc + d) s'
      | None => None
      end
  end.

(** A non-empty string of decimal digits. *)
Definition natural (s : string) : option Z :=
  match s with
  | EmptyString => None
  | _ => digits_from 0 s
  end.

(** Days from 1970-01-01 to a date of the proleptic Gregorian calendar. *)
Definition days_from_civil (y m d : Z) : Z :=
  let y' := if m <=? 2 then y - 1 else y in
  let era := y' / 400 in
  let yoe := y' - era * 400 in
  let mp := if m >? 2 then m - 3 else m + 9 in
  let doy := (153 * mp + 2) / 5 + d - 1 in
  let doe := yoe * 365 + yoe / 4 - yoe / 100 + doy in
  era * 146097 + doe - 719468.

Definition in_range (lo hi x : Z) : bool := (lo <=? x) && (x <=? hi).

(** The offset suffix [+HH:MM] or [-HH:MM], in seconds. *)
Definition offset_seconds (s : string) : option Z :=
  match natural (substring 1 2 s), natural (substring 4 2 s) with
  | Some h, Some m =>
      if negb (Nat.eqb (String.length s) 6) then None
      else if negb (String.eqb (substring 3 1 s) ":") then None
      else if negb (in_range 0 23 h && in_range 0 59 m) then None
      else if String.eqb (substring 0 1 s) "+" then Some (h * 3600 + m * 60)
      else if String.eqb (substring 0 1 s) "-" then Some (- (h * 3600 + m * 60))
      else None
  | _, _ => None
  end.

(** [YYYY-MM-DDTHH:MM:SS]: the seconds from 1970-01-01T00:00:00 to the
    reading. *)
Definition reading_seconds (s : string) : option Z :=
  match natural (substring 0 4 s), natural (substring 5 2 s),
        natural (substring 8 2 s), natural (substring 11 2 s),
        natural (substring 14 2 s), natural (substring 17 2 s) with
  | Some y, Some mo, Some d, Some h, Some mi, Some sec =>
      if negb (Nat.eqb (String.length s) 19) then None
      else if negb (String.eqb (substring 4 1 s) "-"
                    && String.eqb (substring 7 1 s) "-"
                    && String.eqb (substring 10 1 s) "T"
                    && String.eqb (substring 13 1 s) ":"
                    && String.eqb (substring 16 1 s) ":") then None
      else if negb (in_range 1 12 mo && in_range 1 31 d && in_range 0 23 h
                    && in_range 0 59 mi && in_range 0 59 sec) then None
      else Some (days_from_civil y mo d * 86400 + h * 3600 + mi * 60 + sec)
  | _, _, _, _, _, _ => None
  end.

(** [YYYY-MM-DDTHH:MM:SS] alone is a naive datetime; followed by an offset
    it is an aware one, whose instant is the reading less the offset. *)
Definition iso_datetime (s : string) : option datetime :=
  if Nat.eqb (String.length s) 19 then option_map Naive (reading_seconds s)
  else if Nat.eqb (String.length s) 25 then
    match reading_seconds (substring 0 19 s), offset_seconds (substring 19 6 s) with
    | Some t, Some off => Some (Aware (t - off))
    | _, _ => None
    end
  else None.

(** The timestamp of one cell. *)
Definition cell_datetime (c : date_cell) : option datetime :=
  match c with
  | DateStr s => iso_datetime s
  | Timestamp d => Some d
  end.

(** The kinds met in a column: whether a naive and whether an aware
    timestamp occurs, [None] when a cell does not convert. *)
Fixpoint column_kinds (col : list (option date_cell)) : option (bool * bool) :=
  match col with
  | [] => Some (false, false)
  | None :: col' => column_kinds col'
  | Some c :: col' =>
      match cell_datetime c, column_kinds col' with
      | Some (Naive _), Some (_, aware) => Some (true, aware)
      | Some (Aware _), Some (naive, _) => Some (naive, true)
      | _, _ => None
      end
  end.

(** The conversion of a column: it raises when a cell does not convert and
    when naive and aware timestamps meet. *)
Definition column_datetime (col : list (option date_cell))
    : option (date_cell -> option datetime) :=
  match column_kinds col with
  | Some (true, true) => None
  | Some _ => Some cell_datetime
  | None => None
  end.

Fixpoint split_dot (s : string) : string * option string :=
  match s with
  | EmptyString => (EmptyString, None)
  | String c s' =>
      if Ascii.eqb c "." then (EmptyString, Some s')
      else let (a, b) := split_dot s' in (String c a, b)
  end.

(** The binary64 float nearest to the integer [n] divided by [10 ^ k]; the
    division is correctly rounded and both operands are exact for the
    sizes accepted below. *)
Definition ratio_float (n k : Z) : price :=
  SFdiv 53 1024 (binary_normalize 53 1024 n 0 false)
                (binary_normalize 53 1024 (10 ^ k) 0 false).

(** A plain decimal literal [ddd] or [ddd.ddd]. *)
Definition decimal_float (s : string) : option price :=
  match split_dot s with
  | (ip, None) =>
      match natural ip with
      | Some n => if n <? 2 ^ 53 then Some (ratio_float n 0) else None
      | None => None
      end
  | (ip, Some fp) =>
      match natural ip, natural fp with
      | Some a, Some b =>
          let k := Z.of_nat (String.length fp) in
          let n := a * 10 ^ k + b in
          if (n <? 2 ^ 53) && (k <=? 22) then Some (ratio_float n k) else None
      | _, _ => None
      end
  end.

End Parsers.

(** ** Generic list helpers *)

(** An insertion sort by a comparison: by an order it is stable, as
    [list.sort] is. *)
Fixpoint insert_by {A} (le : A -> A -> bool) (x : A) (l : list A) : list A :=
  match l with
  | [] => [x]
  | y :: l' => if le x y then x :: y :: l' else y :: insert_by le x l'
  end.

Definition sort_by {A} (le : A -> A -> bool) (l : list A) : list A :=
  fold_right (insert_by le) [] l.

Definition count_if {A} (p : A -> bool) (l : list A) : Z :=
  Z.of_nat (List.length (filter p l)).

(** A [for] loop whose body may raise: the first exception ends it. *)
Fixpoint for_each {A S : Type} (body : S -> A -> result S) (l : list A) (st : S)
    : result S :=
  match l with
  | [] => Ok st
  | x :: l' =>
      match body st x with
      | Ok st' => for_each body l' st'
      | Raise e => Raise e
      end
  end.

(** ** Rows and summary *)

Definition triple : Type := option price * option price * option price.

Definition none3 : triple := (None, None, None).

Record row := {
  DateUTC : option date_cell;
  League : option string;
  Season : option Z;
  Round : option string;
  Home : option string;
  Away : option string;
  Kickoff_Timestamp : option Z;
  FixtureID : option Z;
  Status : option string;
  HomeGoals : option Z;
  AwayGoals : option Z;
  Outcome : option string;
  Odds_H : option price;
  Odds_D : option price;
  Odds_A : option price;
  TeamSide : option string;
  TeamOdds : option price
}.

(** The one-row summary sheet; the three counts are keys that may be
    missing. *)
Record summary := {
  s_Team : string;
  s_Period : string;
  s_Matches : Z;
  s_Wins : option Z;
  s_Draws : option Z;
  s_Losses : option Z
}.

Record workbook := {
  sheet_data : list row;
  sheet_summary : summary
}.

(** [x == s] for a cell that may be null. *)
Definition cell_is (x : option string) (s : string) : bool :=
  match x with Some v => String.eqb v s | None => false end.

Definition notna {A} (x : option A) : bool :=
  match x with Some _ => true | None => false end.

(** ** The command line, the end of a run, the fallback source *)

(** The parsed command line (the result of [parse_args]). *)
Record args := {
  a_team : string;
  a_date_from : string;
  a_date_to : string;
  a_market : string;
  a_league : option string;
  a_season : option string;
  a_out : string
}.

(** How a run of [main] that raises nothing ends: the workbook is written,
    or [sys.exit] is called. *)
Inductive run_end :=
| Saved (out_path : string) (book : workbook)
| Exited (code : Z).

(** What a call into pandas gives, or raises. *)
Inductive library_result (A : Type) :=
| Gives (a : A)
| Fails (e : library_exn).
Arguments Gives {A} a.
Arguments Fails {A} e.

(** The fallback data source, outside the script: the path of
    [sample_data.csv] beside it; what [pd.read_csv(sample_path,
    parse_dates=["DateUTC"])] gives or raises, [None] when the file does
    not exist; the two pandas selections of the fallback branch followed by
    the date sort, with what they give or raise: [str.contains] reads the
    team name as a regular expression and raises on one that does not
    compile, and [pd.to_datetime] raises on a bound that is not a date. *)
Record sample_source := {
  sample_path : string;
  sample_file : option (library_result (list row));
  sample_select :
    string -> string -> string -> list row -> library_result (list row)
}.

(** ** Sample data *)

Module Samples.

Definition pair (lbl odd : string) : outcome_price :=
  {| op_value := Some lbl; op_odd := Some (JStr odd) |}.

Definition bet_1x2 (vals : list outcome_price) : bet :=
  {| bet_name := Some "Match Winner"; bet_values := Some vals |}.

Definition book (updated : string) (bets : list bet) : bookmaker :=
  {| book_update := Some updated; book_bets := Some bets |}.

Definition odds_entry (books : list bookmaker) : entry :=
  {| e_team := None; e_fixture := None; e_league := None; e_teams := None;
     e_goals := None; e_bookmakers := Some books |}.

Definition body (l : list entry) : json_body := {| response := Some l |}.

Definition kickoff_iso : string := "2024-08-10T15:00:00+00:00".
Definition kickoff : Z := 1723302000.

Definition bet_a : bet :=
  bet_1x2 [pair "Home" "1.85"; pair "Draw" "3.40"; pair "Away" "4.20"].
Definition bet_b : bet :=
  bet_1x2 [pair "Home" "1.90"; pair "Draw" "3.30"; pair "Away" "4.00"].
Definition bet_zero : bet :=
  bet_1x2 [pair "Home" "0"; pair "Draw" "0.00"; pair "Away" "n/a"].
Definition bet_repeated : bet :=
  bet_1x2 [pair "Home" "1.50"; pair "Over 2.5" "1.70"; pair " HOME " "2.10";
           pair "X" "3.00"; pair "2" "5.00"; pair "Both" "1.95"].

(** The day before kickoff, three hours before it, at kickoff, one second
    after it. *)
Definition T1 : Z := 1723197600.
Definition T2 : Z := 1723291200.
Definition book_T1 : bookmaker := book "2024-08-09T10:00:00+00:00" [bet_a].
Definition book_T2 : bookmaker := book "2024-08-10T12:00:00+00:00" [bet_b].
Definition book_T2_other : bookmaker := book "2024-08-10T12:00:00Z" [bet_a].
Definition book_at_kickoff : bookmaker := book "2024-08-10T15:00:00Z" [bet_a].
Definition book_after : bookmaker := book "2024-08-10T15:00:01+00:00" [bet_b].
Definition book_zero : bookmaker := book "2024-08-10T14:00:00+00:00" [bet_zero].

(** Updates without offset. *)
Definition book_naive : bookmaker := book "2024-08-10T12:00:00" [bet_b].
Definition book_naive_early : bookmaker := book "2024-07-31T10:00:00" [bet_a].

Definition price_of (n k : Z) : option price := Some (Parsers.ratio_float n k).

Definition triple_a : option price * option price * option price :=
  (price_of 185 2, price_of 340 2, price_of 420 2).
Definition triple_b : option price * option price * option price :=
  (price_of 190 2, price_of 330 2, price_of 400 2).

(** A team search answering "Arsenal FC" before "Arsenal". *)
Definition team_entry (id : option Z) (name : string) : entry :=
  {| e_team := Some {| tm_id := id; tm_name := Some name |};
     e_fixture := None; e_league := None; e_teams := None; e_goals := None;
     e_bookmakers := None |}.

Definition arsenal_search : list entry :=
  [team_entry (Some 1) "Arsenal FC"; team_entry (Some 42) "Arsenal"].

(** A candidate whose name is the empty string, after another one. *)
Definition empty_name_search : list entry :=
  [team_entry (Some 1) "Arsenal FC"; team_entry (Some 2) EmptyString].

(** A candidate that carries a name and no identifier. *)
Definition nameless_id_search : list entry := [team_entry None "Arsenal"].

Definition fixture_entry (id : Z) (date league : string) : entry :=
  {| e_team := None;
     e_fixture := Some {| fx_id := Some id; fx_date := Some date;
                          fx_timestamp := None; fx_status := None |};
     e_league := Some {| lg_name := Some league; lg_season := Some 2024;
                         lg_round := None |};
     e_teams := None; e_goals := None; e_bookmakers := None |}.

Definition fixtures_found : list entry :=
  [fixture_entry 11 "2024-08-10T15:00:00+00:00" "Premier League 2";
   fixture_entry 12 "2024-08-01T15:00:00+00:00" "FA Cup";
   fixture_entry 13 "2024-08-20T15:00:00+00:00" "premier league"].

Definition ok_reply (l : list entry) : reply :=
  Reply {| status_code := 200; text := EmptyString; json := Some (body l) |}.

Definition error_reply (status : Z) : reply :=
  Reply {| status_code := status; text := "Internal Server Error"; json := None |}.

Definition world_with (key : option string) (replies : list reply) : world :=
  {| env_API_FOOTBALL_KEY := key; env_APISPORTS_KEY := None;
     remote := replies; excel_writer := fun _ => None; trace := [] |}.

Definition world_no_key : world := world_with None [].

Definition world_500 : world :=
  world_with (Some "secret") [error_reply 500; error_reply 500; error_reply 500].

(** The summary example: two home wins, an away loss, a draw. *)
Definition result_row (outcome side : string) : row :=
  {| DateUTC := None; League := None; Season := None; Round := None;
     Home := None; Away := None; Kickoff_Timestamp := None; FixtureID := None;
     Status := None; HomeGoals := None; AwayGoals := None;
     Outcome := Some outcome; Odds_H := None; Odds_D := None; Odds_A := None;
     TeamSide := Some side; TeamOdds := None |}.

Definition season_rows : list row :=
  [result_row "H" "Home"; result_row "H" "Away"; result_row "D" "Away";
   result_row "H" "Home"].

(** Two fixtures with teams and scores, listed latest first. *)
Definition played_entry (id : Z) (date league home away : string)
    (home_goals away_goals : option Z) : entry :=
  {| e_team := None;
     e_fixture := Some {| fx_id := Some id; fx_date := Some date;
                          fx_timestamp := None; fx_status := None |};
     e_league := Some {| lg_name := Some league; lg_season := Some 2024;
                         lg_round := None |};
     e_teams := Some {| ts_home := Some {| tm_id := None; tm_name := Some home |};
                        ts_away := Some {| tm_id := None; tm_name := Some away |} |};
     e_goals := Some {| g_home := home_goals; g_away := away_goals |};
     e_bookmakers := None |}.

Definition fixture_late : entry :=
  played_entry 21 "2024-08-10T15:00:00+00:00" "Premier League" "Arsenal" "Wolves"
    (Some 2) (Some 0).
Definition fixture_early : entry :=
  played_entry 22 "2024-08-01T15:00:00+00:00" "Premier League" "Chelsea" "ARSENAL"
    (Some 1) (Some 1).
Definition season_fixtures : list entry := [fixture_late; fixture_early].

(** The same two fixtures with dates that carry no offset. *)
Definition fixture_late_naive : entry :=
  played_entry 21 "2024-08-10T15:00:00" "Premier League" "Arsenal" "Wolves"
    (Some 2) (Some 0).
Definition fixture_early_naive : entry :=
  played_entry 22 "2024-08-01T15:00:00" "Premier League" "Chelsea" "ARSENAL"
    (Some 1) (Some 1).
Definition season_fixtures_naive : list entry :=
  [fixture_late_naive; fixture_early_naive].

(** Three fixtures, two of them on the same date string. *)
Definition fixtures_same_day : list entry :=
  [fixture_entry 31 "2024-08-10T15:00:00+00:00" "Cup";
   fixture_entry 32 "2024-08-01T15:00:00+00:00" "Cup";
   fixture_entry 33 "2024-08-10T15:00:00+00:00" "Cup"].

Definition odds_response (books : list bookmaker) : http_response :=
  {| status_code := 200; text := EmptyString;
     json := Some (body [odds_entry books]) |}.

(** A bookmaker without update string. *)
Definition book_no_update : bookmaker :=
  {| book_update := None; book_bets := Some [bet_b] |}.

Definition run_args : args :=
  {| a_team := " Arsenal "; a_date_from := "2024-08-01"; a_date_to := "2025-06-30";
     a_market := "1x2"; a_league := None; a_season := None;
     a_out := "odds_history.xlsx" |}.

(** A selection that keeps every row, and raises on a team name that
    ends on an open parenthesis, which is no regular expression. *)
Definition select_all (team date_from date_to : string) (df : list row)
    : library_result (list row) :=
  if String.eqb team "Arsenal (" then Fails LibReError else Gives df.

Definition csv_source : sample_source :=
  {| sample_path := "sample_data.csv"; sample_file := Some (Gives season_rows);
     sample_select := select_all |}.

Definition no_csv_source : sample_source :=
  {| sample_path := "sample_data.csv"; sample_file := None;
     sample_select := select_all |}.

Definition run_args_pattern : args :=
  {| a_team := "Arsenal ("; a_date_from := "2024-08-01"; a_date_to := "2025-06-30";
     a_market := "1x2"; a_league := None; a_season := None;
     a_out := "odds_history.xlsx" |}.

(** A whole run: the team search, the fixtures, then the odds of the two
    fixtures in date order. *)
Definition world_run : world :=
  world_with (Some "secret")
    [ok_reply arsenal_search; ok_reply season_fixtures;
     Reply (odds_response [book_T1; book_T2]); Reply (odds_response [book_T1])].

(** The same run on dates and updates without offset. *)
Definition world_run_naive : world :=
  world_with (Some "secret")
    [ok_reply arsenal_search; ok_reply season_fixtures_naive;
     Reply (odds_response [book_naive_early]);
     Reply (odds_response [book_naive_early; book_naive])].

(** Rows with equal dates keep the order they have in the frame. *)
Definition ties_keep_order (df : list row) (a b : row) : bool := true.

End Samples.

(** ** The script *)

Section Script.

(** [datetime.fromisoformat]; [None] when it raises. *)
Variable fromisoformat : string -> option datetime.

(** [float] on a string; [None] when it raises. *)
Variable float_of_string : string -> option price.

(** [pandas.to_datetime] on the DateUTC column, which it converts as a
    whole: [None] when it raises, else the timestamp it makes of each cell
    of that column, [None] for [NaT]. *)
Variable to_datetime : list (option date_cell) -> option (date_cell -> option datetime).

(** The order in which [sort_values], whose default algorithm is not stable,
    leaves two rows of the frame given that have equal dates: [true] when
    the first of the two stays before the second. *)
Variable sort_ties : list row -> row -> row -> bool.

(** *** [find_team_id] *)

Definition team_of (item : entry) : team_obj := get_or (e_team item) empty_team.

(** The test of the loop: [name and name.lower() == team_name.lower()]. *)
Definition exact_match (team_name : string) (item : entry) : bool :=
  match tm_name (team_of item) with
  | Some name =>
      PyStr.truthy name && String.eqb (PyStr.lower name) (PyStr.lower team_name)
  | None => false
  end.

Definition find_team_id (team_name : string) : M (option Z) :=
  data <- api_get "/teams" [("search", team_name)] ;;
  let results := get_or (response data) [] in
  match results with
  | [] => ret None
  | first :: _ =>
      match find (exact_match team_name) results with
      | Some item => ret (tm_id (team_of item))
      | None => ret (tm_id (team_of first))
      end
  end.

(** *** [list_fixtures] *)

Definition league_name_of (f : entry) : string :=
  get_or (lg_name (get_or (e_league f) empty_league)) EmptyString.

Definition date_key (x : entry) : string :=
  get_or (fx_date (get_or (e_fixture x) empty_fixture)) EmptyString.

Definition league_matches (league_name : string) (f : entry) : bool :=
  PyStr.contains (PyStr.lower league_name) (PyStr.lower (league_name_of f)).

Definition opt_str_truthy (o : option string) : bool :=
  match o with Some s => PyStr.truthy s | None => false end.

(** The [params] dictionary of [list_fixtures]. *)
Definition fixtures_params (team_id : Z) (date_from date_to : string)
    (season : option string) : list (string * string) :=
  ([("team", PyStr.of_Z team_id); ("from", date_from); ("to", date_to);
    ("status", "FT,NS,1H,2H,ET,P")]
   ++ (if opt_str_truthy season
       then [("season", get_or season EmptyString)]
       else []))%list.

Definition list_fixtures (team_id : Z) (date_from date_to : string)
    (league_name season : option string) : M (list entry) :=
  data <- api_get "/fixtures" (fixtures_params team_id date_from date_to season) ;;
  let fixtures := get_or (response data) [] in
  let fixtures :=
    if opt_str_truthy league_name
    then filter (league_matches (get_or league_name EmptyString)) fixtures
    else fixtures in
  ret (sort_by (fun x y => PyStr.leb (date_key x) (date_key y)) fixtures).

(** *** [extract_score], [safe_get], [outcome_from_score] *)

Definition extract_score (ft : entry) : option Z * option Z :=
  let goals := get_or (e_goals ft) empty_goals in
  (g_home goals, g_away goals).

(** [safe_get(f, ["teams", side, "name"])] *)
Definition safe_get_team_name (side : teams_obj -> option team_obj) (f : entry)
    : option string :=
  match e_teams f with
  | Some ts => match side ts with Some t => tm_name t | None => None end
  | None => None
  end.

(** [safe_get(f, ["fixture", "status", "short"])] *)
Definition safe_get_status_short (f : entry) : option string :=
  match e_fixture f with
  | Some fx => match fx_status fx with Some s => status_short s | None => None end
  | None => None
  end.

Definition outcome_from_score (home_goals away_goals : option Z) : option string :=
  match home_goals, away_goals with
  | Some h, Some a =>
      if h >? a then Some "H" else if h <? a then Some "A" else Some "D"
  | _, _ => None
  end.

(** *** [pick_prematch_1x2] *)

(** [float(val.get("odd"))] under its [try]. *)
Definition float_of (o : option scalar) : option price :=
  match o with
  | Some (JStr s) => float_of_string s
  | Some (JNum x) => Some x
  | None => None
  end.

(** [(val.get("value") or '').strip().lower()] *)
Definition label (val : outcome_price) : string :=
  PyStr.lower (PyStr.strip (get_or (op_value val) EmptyString)).

Definition is_home (name : string) : bool := String.eqb name "home" || String.eqb name "1".
Definition is_draw (name : string) : bool := String.eqb name "draw" || String.eqb name "x".
Definition is_away (name : string) : bool := String.eqb name "away" || String.eqb name "2".

(** One turn of the loop over [bet["values"]]. *)
Definition set_price (t : triple) (val : outcome_price) : triple :=
  let '(H, D, A) := t in
  let name := label val in
  let odd := float_of (op_odd val) in
  if is_home name then (odd, D, A)
  else if is_draw name then (H, odd, A)
  else if is_away name then (H, D, odd)
  else t.

Definition extract_prices (b : bet) : triple :=
  fold_left set_price (get_or (bet_values b) []) none3.

(** [H or D or A] as a truth value. *)
Definition any_truthy (t : triple) : bool :=
  let '(H, D, A) := t in opt_truthy H || opt_truthy D || opt_truthy A.

Definition is_match_winner (b : bet) : bool :=
  let n := PyStr.lower (get_or (bet_name b) EmptyString) in
  String.eqb n "match winner" || String.eqb n "1x2".

(** [datetime.fromisoformat(updated.replace("Z","+00:00")) if updated else
    None], [None] also when parsing raises. *)
Definition parse_update (updated : option string) : option datetime :=
  match updated with
  | Some s => if PyStr.truthy s then fromisoformat (PyStr.replace_Z s) else None
  | None => None
  end.

(** The loop state: [best_dt] and [best_triple]. *)
Definition best : Type := option datetime * triple.

(** The body of the innermost loop, for one bet of one bookmaker.  The
    comparison with [kickoff] stands outside the [try] and precedes the
    extraction of the prices: its [TypeError] ends the loop. *)
Definition visit_bet (kickoff : datetime) (book : bookmaker) (st : best) (b : bet)
    : result best :=
  if is_match_winner b then
    match parse_update (book_update book) with
    | Some updated_dt =>
        match dt_le updated_dt kickoff with
        | Raise e => Raise e
        | Ok false => Ok st
        | Ok true =>
            let t := extract_prices b in
            if any_truthy t then
              match fst st with
              | None => Ok (Some updated_dt, t)
              | Some best_dt =>
                  match dt_gt updated_dt best_dt with
                  | Raise e => Raise e
                  | Ok true => Ok (Some updated_dt, t)
                  | Ok false => Ok st
                  end
              end
            else Ok st
        end
    | None => Ok st
    end
  else Ok st.

Definition visit_book (kickoff : datetime) (st : best) (book : bookmaker)
    : result best :=
  for_each (visit_bet kickoff book) (get_or (book_bets book) []) st.

Definition visit_fixture (kickoff : datetime) (st : best) (fixture : entry)
    : result best :=
  for_each (visit_book kickoff) (get_or (e_bookmakers fixture) []) st.

(** [kickoff_iso] is [None] when the fixture carries no date: the call of
    [replace] on it then raises. *)
Definition pick_prematch_1x2 (odds_resp : json_body) (kickoff_iso : option string)
    : result triple :=
  match get_or (response odds_resp) [] with
  | [] => Ok none3
  | resp =>
      match kickoff_iso with
      | None => Raise AttributeError
      | Some iso =>
          match fromisoformat (PyStr.replace_Z iso) with
          | None => Raise ValueError
          | Some kickoff =>
              match for_each (visit_fixture kickoff) resp (None, none3) with
              | Ok st => Ok (snd st)
              | Raise e => Raise e
              end
          end
      end
  end.

Definition lift {A} (r : result A) : M A := fun w => (r, w).

Definition lift_library {A} (r : library_result A) : M A :=
  fun w =>
    match r with
    | Gives a => (Ok a, w)
    | Fails e => (Raise (exn_of_library e), w)
    end.

(** The [params] dictionary of [get_fixture_odds_1x2]; a [None] value is
    not sent. *)
Definition odds_params (fixture_id : option Z) : list (string * string) :=
  (match fixture_id with Some i => [("fixture", PyStr.of_Z i)] | None => [] end
   ++ [("type", "prematch")])%list.

Definition get_fixture_odds_1x2 (fixture_id : option Z) (kickoff_iso : option string)
    : M triple :=
  data <- api_get "/odds" (odds_params fixture_id) ;;
  lift (pick_prematch_1x2 data kickoff_iso).

(** *** [build_dataframe] *)

(** [try: ... except APIError as e: ...]; [str(e)] is the message. *)
Definition try_except_APIError {A} (body : M A) (handler : string -> M A) : M A :=
  fun w =>
    match body w with
    | (Raise (APIError msg), w') => handler msg w'
    | r => r
    end.

Definition same_team (name : option string) (team_name : string) : bool :=
  match name with
  | Some n => PyStr.truthy n && String.eqb (PyStr.lower n) (PyStr.lower team_name)
  | None => false
  end.

(** The dictionary appended to [rows] for one fixture. *)
Definition make_row (f : entry) (team_name : string) (t : triple) : row :=
  let '(H, D, A) := t in
  let fixture := get_or (e_fixture f) empty_fixture in
  let league := get_or (e_league f) empty_league in
  let home := safe_get_team_name ts_home f in
  let away := safe_get_team_name ts_away f in
  let '(home_goals, away_goals) := extract_score f in
  let side :=
    if same_team home team_name then (Some "Home", H)
    else if same_team away team_name then (Some "Away", A)
    else (None, None) in
  {| DateUTC := option_map DateStr (fx_date fixture);
     League := lg_name league;
     Season := lg_season league;
     Round := lg_round league;
     Home := home;
     Away := away;
     Kickoff_Timestamp := fx_timestamp fixture;
     FixtureID := fx_id fixture;
     Status := safe_get_status_short f;
     HomeGoals := home_goals;
     AwayGoals := away_goals;
     Outcome := outcome_from_score home_goals away_goals;
     Odds_H := H;
     Odds_D := D;
     Odds_A := A;
     TeamSide := fst side;
     TeamOdds := snd side |}.

Definition str_of_id (fixture_id : option Z) : string :=
  match fixture_id with Some i => PyStr.of_Z i | None => "None" end.

(** The [except APIError as e] branch: on [NO_API_KEY] odds fetching is
    switched off for the rest of the loop, any other message is logged; in
    both cases the row gets no odds. *)
Definition odds_handler (fixture_id : option Z) (msg : string) : M (triple * bool) :=
  if String.eqb msg "NO_API_KEY" then ret (none3, false)
  else
    log ("Warning: odds for fixture " ++ str_of_id fixture_id
         ++ " not fetched: " ++ msg) ;;;
    ret (none3, true).

(** The odds part of one turn of the loop: the triple for the row and the
    value of [fetch_odds] for the next turn. *)
Definition odds_step (f : entry) (fetch_odds : bool) : M (triple * bool) :=
  let fixture := get_or (e_fixture f) empty_fixture in
  let date_iso := fx_date fixture in
  let fixture_id := fx_id fixture in
  if fetch_odds then
    try_except_APIError
      (t <- get_fixture_odds_1x2 fixture_id date_iso ;;
       sleep 250 ;;;
       ret (t, true))
      (odds_handler fixture_id)
  else ret (none3, false).

(** The loop over [fixtures], [rows] being the rows built so far. *)
Fixpoint build_rows (fixtures : list entry) (team_name : string)
    (fetch_odds : bool) (rows : list row) : M (list row) :=
  match fixtures with
  | [] => ret rows
  | f :: rest =>
      r <- odds_step f fetch_odds ;;
      build_rows rest team_name (snd r) (rows ++ [make_row f team_name (fst r)])%list
  end.

(** The timestamp in the date cell of a row, [None] for [NaT]. *)
Definition date_of (r : row) : option datetime :=
  match DateUTC r with
  | Some (Timestamp d) => Some d
  | _ => None
  end.

(** Ascending, [NaT] last. *)
Definition date_le (a b : row) : bool :=
  match date_of a, date_of b with
  | Some x, Some y => instant x <=? instant y
  | Some _, None => true
  | None, Some _ => false
  | None, None => true
  end.

(** The row with another date cell. *)
Definition set_DateUTC (c : option date_cell) (r : row) : row :=
  {| DateUTC := c;
     League := League r;
     Season := Season r;
     Round := Round r;
     Home := Home r;
     Away := Away r;
     Kickoff_Timestamp := Kickoff_Timestamp r;
     FixtureID := FixtureID r;
     Status := Status r;
     HomeGoals := HomeGoals r;
     AwayGoals := AwayGoals r;
     Outcome := Outcome r;
     Odds_H := Odds_H r;
     Odds_D := Odds_D r;
     Odds_A := Odds_A r;
     TeamSide := TeamSide r;
     TeamOdds := TeamOdds r |}.

(** The cell the conversion puts in the place of a cell. *)
Definition converted (stamp : date_cell -> option datetime) (c : option date_cell)
    : option date_cell :=
  match c with
  | Some x => option_map Timestamp (stamp x)
  | None => None
  end.

(** [df["DateUTC"] = pd.to_datetime(df["DateUTC"])] when the conversion
    gave [stamp]. *)
Definition convert_dates (stamp : date_cell -> option datetime) (rows : list row)
    : list row :=
  map (fun r => set_DateUTC (converted stamp (DateUTC r)) r) rows.

(** The timestamps of a column, [NaT] left out. *)
Definition dates_of (df : list row) : list datetime :=
  flat_map (fun r => match date_of r with Some d => [d] | None => [] end) df.

(** The timestamps of a column can be ordered: all naive or all aware. *)
Definition one_kind (df : list row) : bool :=
  match dates_of df with
  | [] => true
  | d :: ds => forallb (same_kind d) ds
  end.

(** The order [sort_values("DateUTC")] sorts the frame [df] by: ascending
    dates, [NaT] last, rows with equal dates as [sort_ties] has them. *)
Definition sort_le (df : list row) (a b : row) : bool :=
  if date_le a b then (if date_le b a then sort_ties df a b else true) else false.

(** [df = pd.DataFrame(rows)] and the two statements under
    [if not df.empty]; the frame is the list of its rows.  An empty frame
    is left as it is; otherwise the date column is converted as a whole,
    which may raise, and the frame is sorted by it, which raises when naive
    and aware timestamps meet. *)
Definition sorted_frame (rows : list row) : result (list row) :=
  match rows with
  | [] => Ok []
  | _ =>
      match to_datetime (map DateUTC rows) with
      | None => Raise ValueError
      | Some stamp =>
          let df := convert_dates stamp rows in
          if one_kind df then Ok (sort_by (sort_le df) df) else Raise TypeError
      end
  end.

Definition build_dataframe (fixtures : list entry) (team_name : string)
    (fetch_odds : bool) : M (list row) :=
  rows <- build_rows fixtures team_name fetch_odds [] ;;
  lift (sorted_frame rows).

(** *** [export_excel] *)

(** The four masks of the summary, [(Outcome == o) & (TeamSide == side)]. *)
Definition is_win (r : row) : bool :=
  cell_is (Outcome r) "H" && cell_is (TeamSide r) "Home".
Definition is_win_away (r : row) : bool :=
  cell_is (Outcome r) "A" && cell_is (TeamSide r) "Away".
Definition is_draw_row (r : row) : bool := cell_is (Outcome r) "D".
Definition is_loss (r : row) : bool :=
  cell_is (Outcome r) "A" && cell_is (TeamSide r) "Home".
Definition is_loss_away (r : row) : bool :=
  cell_is (Outcome r) "H" && cell_is (TeamSide r) "Away".

(** ["Outcome" in df.columns and not df["Outcome"].isna().all()] *)
Definition has_outcome (df : list row) : bool :=
  existsb (fun r => notna (Outcome r)) df.

Definition make_summary (df : list row) (team_name date_from date_to : string)
    : summary :=
  let decided := has_outcome df in
  {| s_Team := team_name;
     s_Period := date_from ++ " → " ++ date_to;
     s_Matches := Z.of_nat (List.length df);
     s_Wins :=
       if decided then Some (count_if is_win df + count_if is_win_away df) else None;
     s_Draws := if decided then Some (count_if is_draw_row df) else None;
     s_Losses :=
       if decided then Some (count_if is_loss df + count_if is_loss_away df) else None |}.

(** A row whose date carries a timezone. *)
Definition tz_aware (r : row) : bool :=
  match DateUTC r with
  | Some (Timestamp (Aware _)) => true
  | _ => false
  end.

(** [df.to_excel(writer, sheet_name="data", index=False)]: Excel holds no
    date with a timezone, and the call raises [ValueError] on a frame that
    has one. *)
Definition to_excel (df : list row) : result (list row) :=
  if existsb tz_aware df then Raise ValueError else Ok df.

(** [pd.ExcelWriter(out_path, engine="openpyxl")] *)
Definition open_writer (out_path : string) : M unit :=
  fun w =>
    match excel_writer w out_path with
    | Some e => (Raise (exn_of_library e), w)
    | None => (Ok tt, w)
    end.

(** The workbook written to [out_path] when nothing raises: the two
    sheets. *)
Definition export_excel (df : list row) (out_path team_name date_from date_to : string)
    : workbook :=
  {| sheet_data := df;
     sheet_summary := make_summary df team_name date_from date_to |}.

(** *** [main] *)

(** The end of the [try] block: [export_excel], which opens the writer and
    writes the data sheet before the summary, and the last log line. *)
Definition save (df : list row) (a : args) (team : string) : M run_end :=
  open_writer (a_out a) ;;;
  lift (to_excel df) ;;;
  let book := export_excel df (a_out a) team (a_date_from a) (a_date_to a) in
  log ("Saved Excel to " ++ a_out a) ;;;
  ret (Saved (a_out a) book).

(** The [except APIError as e] branch of [main]. *)
Definition main_handler (msg : string) : M run_end :=
  (if String.eqb msg "NO_API_KEY"
   then log "No API key configured. Please set API_FOOTBALL_KEY in .env"
   else log ("API error: " ++ msg)) ;;;
  ret (Exited 1).

(** The branch of [main] taken when a key is configured. *)
Definition main_api (a : args) (team : string) : M run_end :=
  log ("Finding team id for '" ++ team ++ "' ...") ;;;
  team_id <- find_team_id team ;;
  match team_id with
  | None =>
      log "Team not found via API search. Exiting." ;;;
      ret (Exited 2)
  | Some id =>
      log ("Team ID: " ++ PyStr.of_Z id) ;;;
      log "Fetching fixtures ..." ;;;
      fixtures <- list_fixtures id (a_date_from a) (a_date_to a)
                    (a_league a) (a_season a) ;;
      log ("Found fixtures: " ++ PyStr.of_Z (Z.of_nat (List.length fixtures))) ;;;
      log "Fetching odds (prematch 1x2) ..." ;;;
      df <- build_dataframe fixtures team true ;;
      save df a team
  end.

(** The branch of [main] taken when no key is configured. *)
Definition main_sample (src : sample_source) (a : args) (team : string) : M run_end :=
  log "No API key found – using sample data (set API_FOOTBALL_KEY in .env for live data)." ;;;
  match sample_file src with
  | None =>
      log ("Sample file not found at " ++ sample_path src) ;;;
      ret (Exited 3)
  | Some csv =>
      df <- lift_library csv ;;
      df <- lift_library (sample_select src team (a_date_from a) (a_date_to a) df) ;;
      save df a team
  end.

(** [main], after [parse_args] and [load_dotenv]: the environment of the
    world is the one [load_dotenv] leaves.  [sys.exit] inside the [try]
    raises [SystemExit], which the [except APIError] clause lets through. *)
Definition main (src : sample_source) (a : args) : M run_end :=
  fun w =>
    let team := PyStr.strip (a_team a) in
    let use_api := notna (get_headers w) in
    try_except_APIError
      (if use_api then main_api a team else main_sample src a team)
      main_handler w.

(** *** Vocabulary of the properties *)

(** The (bookmaker, bet) pairs of a response, in the order the three
    nested loops of [pick_prematch_1x2] visit them. *)
Definition records (resp : list entry) : list (bookmaker * bet) :=
  flat_map
    (fun fixture =>
       flat_map
         (fun book => map (fun b => (book, b)) (get_or (book_bets book) []))
         (get_or (e_bookmakers fixture) []))
    resp.

(** A price that is absent or a zero. *)
Definition absent_or_zero (x : option price) : Prop :=
  x = None \/ exists s, x = Some (S754_zero s).

(** A price that is present and not a zero. *)
Definition nonzero (x : option price) : Prop :=
  exists p, x = Some p /\ forall s, p <> S754_zero s.

Definition price_H (t : triple) : option price := fst (fst t).
Definition price_D (t : triple) : option price := snd (fst t).
Definition price_A (t : triple) : option price := snd t.

(** The price a bet quotes for an outcome, in the words of the
    specification: the price of the last pair of the bet whose label names
    the outcome, absent when no pair does (and when that price does not
    parse). *)
Definition quoted (names : string -> bool) (b : bet) : option price :=
  match find (fun val => names (label val)) (rev (get_or (bet_values b) [])) with
  | Some val => float_of (op_odd val)
  | None => None
  end.

(** The Home, Draw and Away prices a bet quotes. *)
Definition quoted_triple (b : bet) : triple :=
  (quoted is_home b, quoted is_draw b, quoted is_away b).

(** A record qualifies, with update instant [dt]: it is of the match-winner
    market, its update parses to a datetime that is not after kickoff and
    stands at [dt], and one of the three prices it quotes is present and
    not a zero. *)
Definition qualifies (kickoff : datetime) (r : bookmaker * bet) (dt : Z) : Prop :=
  is_match_winner (snd r) = true /\
  (exists u, parse_update (book_update (fst r)) = Some u /\
             dt_le u kickoff = Ok true /\ instant u = dt) /\
  (nonzero (quoted is_home (snd r)) \/ nonzero (quoted is_draw (snd r)) \/
   nonzero (quoted is_away (snd r))).

(** A record updated after kickoff: its update parses to a datetime that
    the comparison finds later than kickoff. *)
Definition late (kickoff : datetime) (r : bookmaker * bet) : Prop :=
  exists u, parse_update (book_update (fst r)) = Some u /\
            dt_le u kickoff = Ok false.

(** A record whose update cannot be compared with kickoff: it is of the
    match-winner market, its update parses, and one of the two datetimes
    carries an offset while the other carries none. *)
Definition clashes (kickoff : datetime) (r : bookmaker * bet) : bool :=
  is_match_winner (snd r) &&
  match parse_update (book_update (fst r)) with
  | Some u => match dt_le u kickoff with Raise _ => true | Ok _ => false end
  | None => false
  end.

(** What a record offers to the selection when it qualifies: its instant
    and the triple extracted from it. *)
Definition candidate (kickoff : datetime) (r : bookmaker * bet) : option (Z * triple) :=
  if is_match_winner (snd r) then
    match parse_update (book_update (fst r)) with
    | Some u =>
        match dt_le u kickoff with
        | Ok true =>
            if any_truthy (extract_prices (snd r))
            then Some (instant u, extract_prices (snd r))
            else None
        | _ => None
        end
    | None => None
    end
  else None.

(** One turn of the loop of [pick_prematch_1x2] over the flattened
    records. *)
Definition visit_record (kickoff : datetime) (st : best) (r : bookmaker * bet)
    : result best :=
  visit_bet kickoff (fst r) st (snd r).

(** The instant and the triple the loop holds. *)
Definition held : Type := option Z * triple.

(** One turn of the loop on what it holds, when nothing raises. *)
Definition visit_held (kickoff : datetime) (h : held) (r : bookmaker * bet) : held :=
  match candidate kickoff r with
  | None => h
  | Some (dt, t) =>
      match fst h with
      | None => (Some dt, t)
      | Some best_dt => if dt >? best_dt then (Some dt, t) else h
      end
  end.

(** The loop state [st] holds [h]: the same triple, and a datetime of the
    kind of kickoff that stands at the instant held. *)
Definition holds (kickoff : datetime) (st : best) (h : held) : Prop :=
  snd st = snd h /\
  match fst st with
  | Some d => same_kind d kickoff = true /\ fst h = Some (instant d)
  | None => fst h = None
  end.

(** The capital letters and their small forms, paired. *)
Definition letters : list (ascii * ascii) :=
  combine (list_ascii_of_string "ABCDEFGHIJKLMNOPQRSTUVWXYZ")
          (list_ascii_of_string "abcdefghijklmnopqrstuvwxyz").

(** The small form of a capital letter, the capital of a small one. *)
Definition small_of (c : ascii) : option ascii :=
  option_map snd (find (fun p => Ascii.eqb c (fst p)) letters).


(** Two characters are the same up to letter case: they are equal, or one
    is a capital letter and the other its small form. *)
Definition same_letter (c d : ascii) : bool :=
  Ascii.eqb c d
  || match small_of c with Some s => Ascii.eqb s d | None => false end
  || match small_of d with Some s => Ascii.eqb s c | None => false end.

(** Two strings are equal up to letter case. *)
Fixpoint eq_nocase (s t : string) : bool :=
  match s, t with
  | EmptyString, EmptyString => true
  | String c s', String d t' => same_letter c d && eq_nocase s' t'
  | _, _ => false
  end.


(** A candidate's name matches in the words of the specification: it is
    the query up to letter case. *)
Definition name_matches (team_name : string) (item : entry) : Prop :=
  exists name,
    tm_name (team_of item) = Some name /\ eq_nocase name team_name = true.

(** The resolver as the specification states it, for the candidates
    [results] and the value [answer] returned. *)
Definition find_team_id_as_stated (team_name : string) (results : list entry)
    (answer : option Z) : Prop :=
  (forall l1 item l2,
     results = (l1 ++ item :: l2)%list -> name_matches team_name item ->
     (forall x, In x l1 -> ~ name_matches team_name x) ->
     answer = tm_id (team_of item))
  /\ (forall first rest,
       results = first :: rest ->
       (forall x, In x results -> ~ name_matches team_name x) ->
       answer = tm_id (team_of first))
  /\ (answer = None <-> results = []).

(** The rows the team won, drew and lost, in the words of the
    specification. *)
Definition won (r : row) : bool :=
  (cell_is (Outcome r) "H" && cell_is (TeamSide r) "Home")
  || (cell_is (Outcome r) "A" && cell_is (TeamSide r) "Away").

Definition drawn (r : row) : bool := cell_is (Outcome r) "D".

Definition lost (r : row) : bool :=
  (cell_is (Outcome r) "A" && cell_is (TeamSide r) "Home")
  || (cell_is (Outcome r) "H" && cell_is (TeamSide r) "Away").

(** What the loop holds after the records [l]: nothing when none
    qualified, else the first of the qualifying records with the greatest
    instant. *)
Inductive selected (kickoff : datetime) : list (bookmaker * bet) -> held -> Prop :=
| selected_none : forall l,
    (forall r, In r l -> candidate kickoff r = None) ->
    selected kickoff l (None, none3)
| selected_some : forall l1 r l2 dt t,
    candidate kickoff r = Some (dt, t) ->
    (forall r' dt' t', In r' l1 -> candidate kickoff r' = Some (dt', t') -> dt' < dt) ->
    (forall r' dt' t', In r' l2 -> candidate kickoff r' = Some (dt', t') -> dt' <= dt) ->
    selected kickoff (l1 ++ r :: l2) (Some dt, t).

(** **** Vocabulary of the further properties *)

(** A string made of the characters [strip] removes. *)
Fixpoint all_space (s : string) : bool :=
  match s with
  | EmptyString => true
  | String c s' => PyStr.is_space c && all_space s'
  end.

(** The fixture identifier of a response entry. *)
Definition fixture_id_of (f : entry) : option Z :=
  fx_id (get_or (e_fixture f) empty_fixture).

(** The date string of a response entry, as [build_dataframe] reads it. *)
Definition date_iso_of (f : entry) : option string :=
  fx_date (get_or (e_fixture f) empty_fixture).

(** The triple [pick_prematch_1x2] selects for fixture [f] in the body of
    the reply [r]. *)
Definition odds_of (f : entry) (r : http_response) : triple :=
  match json r with
  | Some data =>
      match pick_prematch_1x2 data (date_iso_of f) with
      | Ok t => t
      | Raise _ => none3
      end
  | None => none3
  end.

(** A reply that [api_get] accepts: a status below 300 and a body that
    decodes. *)
Definition accepted (r : http_response) : Prop :=
  status_code r < 300 /\ json r <> None.

(** The events one fixture leaves when its odds are fetched at the first
    attempt, latest first. *)
Definition odds_events (f : entry) : list event :=
  [Slept 250; Requested "/odds" (odds_params (fixture_id_of f))].

Definition is_request (ev : event) : bool :=
  match ev with Requested _ _ => true | _ => false end.

Definition is_sleep (ev : event) : bool :=
  match ev with Slept _ => true | _ => false end.

(** A falsy environment value: unset or empty. *)
Definition unset (v : option string) : Prop := v = None \/ v = Some EmptyString.

(** The league filter of [list_fixtures]: applied when the name given is
    not empty. *)
Definition league_filter (league_name : option string) (fixtures : list entry)
    : list entry :=
  if opt_str_truthy league_name
  then filter (league_matches (get_or league_name EmptyString)) fixtures
  else fixtures.

(** The order of [list_fixtures]: by date string, a missing date being the
    empty string. *)
Definition date_key_le (x y : entry) : Prop :=
  PyStr.leb (date_key x) (date_key y) = true.

(** The order of [build_dataframe]: by converted date, [NaT] last. *)
Definition date_le_prop (a b : row) : Prop := date_le a b = true.

(** The date of a row went through the conversion: its cell is a timestamp
    or [NaT], and no longer a date string. *)
Definition convertible (r : row) : bool :=
  match DateUTC r with
  | Some (DateStr _) => false
  | _ => true
  end.

(** The rows [build_dataframe] makes of fixtures and their triples, before
    the sort. *)
Definition rows_of (team_name : string) (fixtures : list entry) (ts : list triple)
    : list row :=
  map (fun p => make_row (fst p) team_name (snd p)) (combine fixtures ts).

(** The invariants of a row: the outcome is the one of its goals and the
    team's price is the one of its side. *)
Definition row_consistent (r : row) : Prop :=
  Outcome r = outcome_from_score (HomeGoals r) (AwayGoals r) /\
  (TeamSide r = Some "Home" /\ TeamOdds r = Odds_H r \/
   TeamSide r = Some "Away" /\ TeamOdds r = Odds_A r \/
   TeamSide r = None /\ TeamOdds r = None).

(** The reply [r] serves the odds of fixture [f]: [api_get] accepts it and
    [pick_prematch_1x2] raises nothing on its body. *)
Definition served (f : entry) (r : http_response) : Prop :=
  status_code r < 300 /\
  exists data t,
    json r = Some data /\ pick_prematch_1x2 data (date_iso_of f) = Ok t.

(** A computation that never ends on an [APIError]. *)
Definition never_APIError {A : Type} (m : M A) : Prop :=
  forall w msg, fst (m w) <> Raise (APIError msg).

(** A run that never ends through the [sys.exit(1)] of the handler. *)
Definition never_exit_1 (m : M run_end) : Prop :=
  forall w, fst (m w) <> Ok (Exited 1).

(** A row that counts as a win, a draw or a loss. *)
Definition decided_with_side (r : row) : Prop :=
  cell_is (Outcome r) "D" = true \/
  ((cell_is (Outcome r) "H" = true \/ cell_is (Outcome r) "A" = true) /\
   (cell_is (TeamSide r) "Home" = true \/ cell_is (TeamSide r) "Away" = true)).

(** *** The price extraction *)

(** A label accepted for one outcome is rejected for another. *)
Ltac label_clash :=
  let name := fresh "name" in
  let H := fresh "H" in
  unfold is_home, is_draw, is_away; intros name H;
  apply orb_true_iff in H; destruct H as [H | H];
  apply String.eqb_eq in H; subst; reflexivity.

Lemma labels_home_draw : forall name, is_home name = true -> is_draw name = false.
Proof. label_clash. Qed.

Lemma labels_home_away : forall name, is_home name = true -> is_away name = false.
Proof. label_clash. Qed.

Lemma labels_draw_away : forall name, is_draw name = true -> is_away name = false.
Proof. label_clash. Qed.

Lemma set_price_H : forall t val,
  price_H (set_price t val) =
  if is_home (label val) then float_of (op_odd val) else price_H t.
Proof.
  intros [[H D] A] val. unfold set_price, price_H.
  destruct (is_home (label val)); [reflexivity |].
  destruct (is_draw (label val)); [reflexivity |].
  destruct (is_away (label val)); reflexivity.
Qed.

Lemma set_price_D : forall t val,
  price_D (set_price t val) =
  if is_draw (label val) then float_of (op_odd val) else price_D t.
Proof.
  intros [[H D] A] val. unfold set_price, price_D.
  destruct (is_home (label val)) eqn:Eh.
  - rewrite (labels_home_draw _ Eh). reflexivity.
  - destruct (is_draw (label val)); [reflexivity |].
    destruct (is_away (label val)); reflexivity.
Qed.

Lemma set_price_A : forall t val,
  price_A (set_price t val) =
  if is_away (label val) then float_of (op_odd val) else price_A t.
Proof.
  intros [[H D] A] val. unfold set_price, price_A.
  destruct (is_home (label val)) eqn:Eh.
  - rewrite (labels_home_away _ Eh). reflexivity.
  - destruct (is_draw (label val)) eqn:Ed.
    + rewrite (labels_draw_away _ Ed). reflexivity.
    + destruct (is_away (label val)); reflexivity.
Qed.

Lemma set_price_unrecognized : forall t val,
  is_home (label val) = false -> is_draw (label val) = false ->
  is_away (label val) = false -> set_price t val = t.
Proof.
  intros [[H D] A] val Eh Ed Ea. unfold set_price.
  rewrite Eh, Ed, Ea. reflexivity.
Qed.

(** A component of the extracted triple is decided by the last pair whose
    label selects it. *)
Lemma fold_component_last :
  forall (proj : triple -> option price) (sel : string -> bool),
    (forall t val, proj (set_price t val) =
                   if sel (label val) then float_of (op_odd val) else proj t) ->
    forall l2 l1 val t0,
      sel (label val) = true ->
      (forall v, In v l2 -> sel (label v) = false) ->
      proj (fold_left set_price (l1 ++ val :: l2) t0) = float_of (op_odd val).
Proof.
  intros proj sel Hstep l2.
  induction l2 as [| x l2 IH] using rev_ind; intros l1 val t0 Hsel Hnone.
  - rewrite fold_left_app. simpl. rewrite Hstep, Hsel. reflexivity.
  - replace (l1 ++ val :: l2 ++ [x])%list with ((l1 ++ val :: l2) ++ [x])%list
      by (rewrite <- app_assoc; reflexivity).
    rewrite fold_left_app. simpl. rewrite Hstep.
    rewrite (Hnone x) by (apply in_or_app; right; left; reflexivity).
    apply IH; [assumption |].
    intros v Hv. apply Hnone. apply in_or_app. left. assumption.
Qed.

Lemma fold_component_none :
  forall (proj : triple -> option price) (sel : string -> bool),
    (forall t val, proj (set_price t val) =
                   if sel (label val) then float_of (op_odd val) else proj t) ->
    forall l t0,
      (forall v, In v l -> sel (label v) = false) ->
      proj (fold_left set_price l t0) = proj t0.
Proof.
  intros proj sel Hstep l.
  induction l as [| x l IH] using rev_ind; intros t0 Hnone.
  - reflexivity.
  - rewrite fold_left_app. simpl. rewrite Hstep.
    rewrite (Hnone x) by (apply in_or_app; right; left; reflexivity).
    apply IH. intros v Hv. apply Hnone. apply in_or_app. left. assumption.
Qed.

Lemma fold_skip_unrecognized : forall l1 val l2 t0,
  is_home (label val) = false -> is_draw (label val) = false ->
  is_away (label val) = false ->
  fold_left set_price (l1 ++ val :: l2) t0 = fold_left set_price (l1 ++ l2) t0.
Proof.
  intros l1 val l2 t0 Eh Ed Ea.
  rewrite !fold_left_app. simpl.
  rewrite set_price_unrecognized by assumption. reflexivity.
Qed.

(** A component of the extracted triple is the price of the last pair whose
    label selects it. *)
Lemma fold_component_find :
  forall (proj : triple -> option price) (sel : string -> bool),
    (forall t val, proj (set_price t val) =
                   if sel (label val) then float_of (op_odd val) else proj t) ->
    forall l t0,
      proj (fold_left set_price l t0) =
      match find (fun val => sel (label val)) (rev l) with
      | Some val => float_of (op_odd val)
      | None => proj t0
      end.
Proof.
  intros proj sel Hstep l.
  induction l as [| x l IH] using rev_ind; intros t0.
  - reflexivity.
  - rewrite fold_left_app, rev_app_distr. simpl. rewrite Hstep.
    destruct (sel (label x)); [reflexivity | apply IH].
Qed.

(** The triple the code extracts from a bet is the triple the bet quotes. *)
Lemma extract_prices_quoted : forall b, extract_prices b = quoted_triple b.
Proof.
  intros b. unfold extract_prices, quoted_triple, quoted.
  pose proof (fold_component_find price_H is_home set_price_H
                (get_or (bet_values b) []) none3) as EH.
  pose proof (fold_component_find price_D is_draw set_price_D
                (get_or (bet_values b) []) none3) as ED.
  pose proof (fold_component_find price_A is_away set_price_A
                (get_or (bet_values b) []) none3) as EA.
  destruct (fold_left set_price (get_or (bet_values b) []) none3) as [[H D] A].
  unfold price_H, price_D, price_A in EH, ED, EA. simpl in EH, ED, EA.
  rewrite EH, ED, EA.
  destruct (find (fun val => is_home (label val)) (rev (get_or (bet_values b) [])));
    destruct (find (fun val => is_draw (label val)) (rev (get_or (bet_values b) [])));
    destruct (find (fun val => is_away (label val)) (rev (get_or (bet_values b) [])));
    reflexivity.
Qed.

Lemma any_truthy_false : forall t,
  any_truthy t = false <->
  absent_or_zero (price_H t) /\ absent_or_zero (price_D t) /\
  absent_or_zero (price_A t).
Proof.
  assert (Hone : forall x, opt_truthy x = false <-> absent_or_zero x).
  { intros [p |]; unfold absent_or_zero; simpl.
    - destruct p; simpl; split; intros H;
        try discriminate; try reflexivity;
        try (right; eexists; reflexivity);
        destruct H as [H | [sg H]]; discriminate.
    - split; auto. }
  intros [[H D] A]. unfold any_truthy, price_H, price_D, price_A. simpl.
  rewrite <- !Hone.
  destruct (opt_truthy H), (opt_truthy D), (opt_truthy A); simpl;
    split; intros; try discriminate; try tauto;
    repeat match goal with X : _ /\ _ |- _ => destruct X end; discriminate.
Qed.

Lemma nonzero_truthy : forall x, nonzero x <-> opt_truthy x = true.
Proof.
  intros x. split.
  - intros (p & -> & Hp). destruct p; try reflexivity.
    elim (Hp s). reflexivity.
  - destruct x as [p |]; [| discriminate]. intros Hx.
    exists p. split; [reflexivity |]. intros sg ->. discriminate.
Qed.

Lemma any_truthy_nonzero : forall t,
  any_truthy t = true <->
  nonzero (price_H t) \/ nonzero (price_D t) \/ nonzero (price_A t).
Proof.
  intros [[H D] A]. unfold any_truthy, price_H, price_D, price_A. simpl.
  rewrite !orb_true_iff, !nonzero_truthy.
  split; [intros [[X | X] | X] | intros [X | [X | X]]]; auto.
Qed.

(** One of the prices a bet quotes is present and not a zero exactly when
    the test [H or D or A] of the code passes. *)
Lemma quoted_nonzero : forall b,
  any_truthy (extract_prices b) = true <->
  nonzero (quoted is_home b) \/ nonzero (quoted is_draw b) \/
  nonzero (quoted is_away b).
Proof.
  intros b. rewrite any_truthy_nonzero, extract_prices_quoted. reflexivity.
Qed.

Lemma nonzero_not_absent : forall x, nonzero x -> absent_or_zero x -> False.
Proof.
  intros x (p & -> & Hp) [E | [sg E]]; [discriminate |].
  inversion E. apply (Hp sg). assumption.
Qed.

(** *** Datetimes *)

Lemma same_kind_refl : forall a, same_kind a a = true.
Proof. intros [t | t]; reflexivity. Qed.

Lemma same_kind_sym : forall a b, same_kind a b = same_kind b a.
Proof. intros [t | t] [u | u]; reflexivity. Qed.

Lemma same_kind_trans : forall a b c,
  same_kind a b = true -> same_kind b c = true -> same_kind a c = true.
Proof. intros [t | t] [u | u] [v | v]; simpl; congruence. Qed.

Lemma dt_le_true : forall a b,
  dt_le a b = Ok true <-> same_kind a b = true /\ instant a <= instant b.
Proof.
  intros a b. unfold dt_le. destruct (same_kind a b).
  - rewrite <- Z.leb_le. split; [intros E; inversion E; auto | intros [_ ->]; reflexivity].
  - split; [discriminate | intros [E _]; discriminate].
Qed.

Lemma dt_le_raise : forall a b e,
  dt_le a b = Raise e <-> same_kind a b = false /\ e = TypeError.
Proof.
  intros a b e. unfold dt_le. destruct (same_kind a b).
  - split; [discriminate | intros [E _]; discriminate].
  - split; [intros E; inversion E; auto | intros [_ ->]; reflexivity].
Qed.

(** *** The selection loop *)

Lemma qualifies_instant : forall kickoff r dt dt',
  qualifies kickoff r dt -> qualifies kickoff r dt' -> dt = dt'.
Proof.
  intros kickoff r dt dt' (_ & (u & Hu & _ & <-) & _) (_ & (u' & Hu' & _ & <-) & _).
  rewrite Hu in Hu'. inversion Hu'. reflexivity.
Qed.

Lemma qualifies_not_after : forall kickoff r dt,
  qualifies kickoff r dt -> dt <= instant kickoff.
Proof.
  intros kickoff r dt (_ & (u & _ & Hle & <-) & _).
  apply dt_le_true in Hle. apply Hle.
Qed.

Lemma qualifies_no_clash : forall kickoff r dt,
  qualifies kickoff r dt -> clashes kickoff r = false.
Proof.
  intros kickoff r dt (Hm & (u & Hu & Hle & _) & _).
  unfold clashes. rewrite Hm, Hu, Hle. reflexivity.
Qed.

Lemma late_no_clash : forall kickoff r, late kickoff r -> clashes kickoff r = false.
Proof.
  intros kickoff r (u & Hu & Hle). unfold clashes. rewrite Hu, Hle.
  apply andb_false_r.
Qed.

Lemma candidate_qualifies : forall kickoff r dt t,
  candidate kickoff r = Some (dt, t) <->
  qualifies kickoff r dt /\ t = quoted_triple (snd r).
Proof.
  intros kickoff r dt t. unfold candidate, qualifies.
  rewrite <- quoted_nonzero, <- extract_prices_quoted. split.
  - destruct (is_match_winner (snd r)); [| discriminate].
    destruct (parse_update (book_update (fst r))) as [u |]; [| discriminate].
    destruct (dt_le u kickoff) as [[|] | e] eqn:Ele; try discriminate.
    destruct (any_truthy (extract_prices (snd r))) eqn:Et; [| discriminate].
    intros E. inversion E; subst.
    split; [split; [reflexivity | split; [| reflexivity]] | reflexivity].
    exists u. split; [reflexivity | split; [assumption | reflexivity]].
  - intros [(Hm & (u & Hu & Hle & <-) & Ht) ->].
    rewrite Hm, Hu, Hle, Ht. reflexivity.
Qed.

Lemma candidate_none : forall kickoff r,
  candidate kickoff r = None <-> forall dt, ~ qualifies kickoff r dt.
Proof.
  intros kickoff r. split.
  - intros E dt Hq.
    assert (H : candidate kickoff r = Some (dt, quoted_triple (snd r)))
      by (apply candidate_qualifies; auto).
    congruence.
  - intros Hno. destruct (candidate kickoff r) as [[dt t] |] eqn:E; [| reflexivity].
    apply candidate_qualifies in E. destruct E as [Hq _]. elim (Hno dt Hq).
Qed.

Lemma late_candidate : forall kickoff r, late kickoff r -> candidate kickoff r = None.
Proof.
  intros kickoff r (u & Hu & Hle). unfold candidate. rewrite Hu, Hle.
  destruct (is_match_winner (snd r)); reflexivity.
Qed.

(** A record whose update cannot be compared with kickoff ends the loop. *)
Lemma visit_record_clash : forall kickoff st r,
  clashes kickoff r = true -> visit_record kickoff st r = Raise TypeError.
Proof.
  intros kickoff st r Hc. unfold clashes in Hc. unfold visit_record, visit_bet.
  destruct (is_match_winner (snd r)); [| discriminate].
  destruct (parse_update (book_update (fst r))) as [u |]; [| discriminate].
  destruct (dt_le u kickoff) as [v | e] eqn:Ele; [discriminate |].
  apply dt_le_raise in Ele. destruct Ele as [_ ->]. reflexivity.
Qed.

(** Any other record is one turn of the loop on what it holds. *)
Lemma visit_record_holds : forall kickoff st h r,
  holds kickoff st h -> clashes kickoff r = false ->
  exists st',
    visit_record kickoff st r = Ok st' /\ holds kickoff st' (visit_held kickoff h r).
Proof.
  intros kickoff [bd bt] [hd ht] r [Ht Hd] Hc. simpl in Ht, Hd. subst ht.
  unfold clashes in Hc. unfold visit_record, visit_bet, visit_held, candidate.
  assert (Hsame : exists st', Ok (bd, bt) = Ok st' /\ holds kickoff st' (hd, bt))
    by (exists (bd, bt); split; [reflexivity | split; [reflexivity | exact Hd]]).
  destruct (is_match_winner (snd r)); [| exact Hsame].
  destruct (parse_update (book_update (fst r))) as [u |]; [| exact Hsame].
  simpl in Hc.
  destruct (dt_le u kickoff) as [[|] | e] eqn:Ele; [| exact Hsame | discriminate].
  apply dt_le_true in Ele. destruct Ele as [Hk _].
  destruct (any_truthy (extract_prices (snd r))); [| exact Hsame].
  simpl. destruct bd as [d |].
  - destruct Hd as [Hkd ->]. simpl. unfold dt_gt.
    rewrite (same_kind_trans u kickoff d Hk)
      by (rewrite same_kind_sym; assumption).
    destruct (instant u >? instant d).
    + eexists. split; [reflexivity |]. split; [reflexivity |]. simpl. auto.
    + eexists. split; [reflexivity |]. split; [reflexivity |]. simpl. auto.
  - simpl in Hd. subst hd. simpl.
    eexists. split; [reflexivity |]. split; [reflexivity |]. simpl. auto.
Qed.

Lemma for_each_app : forall (A S : Type) (body : S -> A -> result S) l1 l2 st,
  for_each body (l1 ++ l2) st =
  match for_each body l1 st with
  | Ok st' => for_each body l2 st'
  | Raise e => Raise e
  end.
Proof.
  intros A S body l1 l2. induction l1 as [| x l1 IH]; intros st; simpl.
  - reflexivity.
  - destruct (body st x); [apply IH | reflexivity].
Qed.

Lemma visit_book_records : forall kickoff book st,
  visit_book kickoff st book =
  for_each (visit_record kickoff)
    (map (fun b => (book, b)) (get_or (book_bets book) [])) st.
Proof.
  intros kickoff book st. unfold visit_book.
  generalize dependent st.
  induction (get_or (book_bets book) []) as [| b bs IH]; intros st.
  - reflexivity.
  - simpl. unfold visit_record at 1. simpl.
    destruct (visit_bet kickoff book st b); [apply IH | reflexivity].
Qed.

Lemma visit_fixture_records : forall kickoff fixture st,
  visit_fixture kickoff st fixture =
  for_each (visit_record kickoff) (records [fixture]) st.
Proof.
  intros kickoff fixture st. unfold visit_fixture, records. simpl.
  rewrite app_nil_r.
  generalize dependent st.
  induction (get_or (e_bookmakers fixture) []) as [| book books IH]; intros st.
  - reflexivity.
  - simpl. rewrite for_each_app, <- visit_book_records.
    destruct (visit_book kickoff st book); [apply IH | reflexivity].
Qed.

Lemma fold_fixtures_records : forall kickoff resp st,
  for_each (visit_fixture kickoff) resp st =
  for_each (visit_record kickoff) (records resp) st.
Proof.
  intros kickoff resp. induction resp as [| fixture resp IH]; intros st.
  - reflexivity.
  - replace (records (fixture :: resp))
      with (records [fixture] ++ records resp)%list
      by (unfold records; simpl; rewrite app_nil_r; reflexivity).
    simpl for_each at 1. rewrite for_each_app, <- visit_fixture_records.
    destruct (visit_fixture kickoff st fixture); [apply IH | reflexivity].
Qed.

(** The loop over the records raises [TypeError] when one of them cannot be
    compared with kickoff, and otherwise ends on what the turns hold. *)
Lemma loop_records : forall kickoff l st h,
  holds kickoff st h ->
  if existsb (clashes kickoff) l
  then for_each (visit_record kickoff) l st = Raise TypeError
  else exists st',
         for_each (visit_record kickoff) l st = Ok st' /\
         holds kickoff st' (fold_left (visit_held kickoff) l h).
Proof.
  intros kickoff l. induction l as [| x l IH]; intros st h Hh; simpl.
  - exists st. split; [reflexivity | assumption].
  - destruct (clashes kickoff x) eqn:Ex; simpl.
    + rewrite (visit_record_clash kickoff st x Ex). reflexivity.
    + destruct (visit_record_holds kickoff st h x Hh Ex) as (st' & E & Hh').
      rewrite E. apply (IH st' _ Hh').
Qed.

(** [pick_prematch_1x2] is the loop over the flattened records. *)
Lemma pick_records : forall odds_resp iso kickoff,
  fromisoformat (PyStr.replace_Z iso) = Some kickoff ->
  pick_prematch_1x2 odds_resp (Some iso) =
  if existsb (clashes kickoff) (records (get_or (response odds_resp) []))
  then Raise TypeError
  else Ok (snd (fold_left (visit_held kickoff)
                  (records (get_or (response odds_resp) [])) (None, none3))).
Proof.
  intros odds_resp iso kickoff Hk. unfold pick_prematch_1x2.
  destruct (get_or (response odds_resp) []) as [| fixture resp] eqn:E.
  - reflexivity.
  - rewrite Hk, fold_fixtures_records.
    assert (H0 : holds kickoff (None, none3) (None, none3))
      by (split; reflexivity).
    pose proof (loop_records kickoff (records (fixture :: resp)) _ _ H0) as Hl.
    destruct (existsb (clashes kickoff) (records (fixture :: resp))).
    + rewrite Hl. reflexivity.
    + destruct Hl as (st' & -> & Hs & _). rewrite Hs. reflexivity.
Qed.

(** The exceptions of [pick_prematch_1x2]. *)
Lemma for_each_raises :
  forall (A S : Type) (body : S -> A -> result S) (P : exn -> Prop),
    (forall st x e, body st x = Raise e -> P e) ->
    forall l st e, for_each body l st = Raise e -> P e.
Proof.
  intros A S body P Hbody l. induction l as [| x l IH]; intros st e E; simpl in E.
  - discriminate.
  - destruct (body st x) as [st' | e'] eqn:Eb.
    + apply (IH st' e E).
    + inversion E; subst. apply (Hbody st x e Eb).
Qed.

Lemma visit_bet_raises : forall kickoff book st b e,
  visit_bet kickoff book st b = Raise e -> e = TypeError.
Proof.
  intros kickoff book st b e. unfold visit_bet, dt_le, dt_gt.
  destruct (is_match_winner b); [| discriminate].
  destruct (parse_update (book_update book)) as [u |]; [| discriminate].
  destruct (same_kind u kickoff); [| intros E; inversion E; reflexivity].
  destruct (instant u <=? instant kickoff); [| discriminate].
  destruct (any_truthy (extract_prices b)); [| discriminate].
  destruct (fst st) as [d |]; [| discriminate].
  destruct (same_kind u d); [| intros E; inversion E; reflexivity].
  destruct (instant u >? instant d); discriminate.
Qed.

Lemma pick_raises : forall odds_resp kickoff_iso e,
  pick_prematch_1x2 odds_resp kickoff_iso = Raise e ->
  e = AttributeError \/ e = ValueError \/ e = TypeError.
Proof.
  intros odds_resp kickoff_iso e. unfold pick_prematch_1x2.
  destruct (get_or (response odds_resp) []) as [| fixture resp]; [discriminate |].
  destruct kickoff_iso as [iso |]; [| intros E; inversion E; auto].
  destruct (fromisoformat (PyStr.replace_Z iso)) as [kickoff |];
    [| intros E; inversion E; auto].
  destruct (for_each (visit_fixture kickoff) (fixture :: resp) (None, none3))
    as [st | e'] eqn:El; [discriminate |].
  intros E. inversion E; subst e'. right. right.
  revert El. apply (for_each_raises _ _ _ (fun x => x = TypeError)).
  intros st x e0. unfold visit_fixture.
  apply (for_each_raises _ _ _ (fun x => x = TypeError)).
  intros st' book e1. unfold visit_book.
  apply (for_each_raises _ _ _ (fun x => x = TypeError)).
  intros st'' b e2. apply visit_bet_raises.
Qed.

Lemma no_clash : forall kickoff l,
  (forall r, In r l -> clashes kickoff r = false) ->
  existsb (clashes kickoff) l = false.
Proof.
  intros kickoff l Hall. induction l as [| x l IH]; simpl.
  - reflexivity.
  - rewrite (Hall x) by (left; reflexivity). apply IH.
    intros r Hin. apply Hall. right. assumption.
Qed.

Lemma pick_comparable : forall odds_resp iso kickoff,
  fromisoformat (PyStr.replace_Z iso) = Some kickoff ->
  (forall r, In r (records (get_or (response odds_resp) [])) ->
             clashes kickoff r = false) ->
  pick_prematch_1x2 odds_resp (Some iso) =
  Ok (snd (fold_left (visit_held kickoff)
             (records (get_or (response odds_resp) [])) (None, none3))).
Proof.
  intros odds_resp iso kickoff Hk Hall.
  rewrite (pick_records odds_resp iso kickoff Hk), (no_clash kickoff _ Hall).
  reflexivity.
Qed.

Lemma existsb_delete : forall (A : Type) (p : A -> bool) l1 x l2,
  p x = false -> existsb p (l1 ++ x :: l2) = existsb p (l1 ++ l2).
Proof.
  intros A p l1 x l2 Hx. rewrite !existsb_app. simpl. rewrite Hx. reflexivity.
Qed.

Lemma selected_step : forall kickoff l st x,
  selected kickoff l st ->
  selected kickoff (l ++ [x]) (visit_held kickoff st x).
Proof.
  intros kickoff l st x Hsel. unfold visit_held.
  inversion Hsel as [l' Hnone | l1 r l2 dt t Hr Hbefore Hafter]; subst; simpl.
  - destruct (candidate kickoff x) as [[dx tx] |] eqn:Ex.
    + apply (selected_some kickoff l x [] dx tx Ex).
      * intros r' dt' t' Hin E. rewrite (Hnone r' Hin) in E. discriminate.
      * intros r' dt' t' [].
    + apply selected_none. intros r Hin.
      apply in_app_or in Hin. destruct Hin as [Hin | [<- | []]]; auto.
  - destruct (candidate kickoff x) as [[dx tx] |] eqn:Ex.
    + destruct (dx >? dt) eqn:Egt.
      * apply Z.gtb_lt in Egt.
        apply (selected_some kickoff (l1 ++ r :: l2) x [] dx tx Ex).
        -- intros r' dt' t' Hin E.
           apply in_app_or in Hin. destruct Hin as [Hin | [<- | Hin]].
           ++ specialize (Hbefore r' dt' t' Hin E). lia.
           ++ rewrite Hr in E. inversion E; subst. lia.
           ++ specialize (Hafter r' dt' t' Hin E). lia.
        -- intros r' dt' t' [].
      * rewrite <- app_assoc. simpl.
        apply (selected_some kickoff l1 r (l2 ++ [x]) dt t Hr Hbefore).
        intros r' dt' t' Hin E.
        apply in_app_or in Hin. destruct Hin as [Hin | [<- | []]].
        -- apply (Hafter r' dt' t' Hin E).
        -- rewrite Ex in E. inversion E; subst.
           destruct (Z.gtb_spec dt' dt); [discriminate | lia].
    + rewrite <- app_assoc. simpl.
      apply (selected_some kickoff l1 r (l2 ++ [x]) dt t Hr Hbefore).
      intros r' dt' t' Hin E.
      apply in_app_or in Hin. destruct Hin as [Hin | [<- | []]].
      * apply (Hafter r' dt' t' Hin E).
      * rewrite Ex in E. discriminate.
Qed.

Lemma selected_fold : forall kickoff l,
  selected kickoff l (fold_left (visit_held kickoff) l (None, none3)).
Proof.
  intros kickoff l. induction l as [| x l IH] using rev_ind.
  - apply selected_none. intros r [].
  - rewrite fold_left_app. simpl. apply selected_step. assumption.
Qed.

(** Case analysis on what the loop holds after the records [l]. *)
Ltac selected_cases kickoff l Hsel :=
  let st := fresh "st" in
  let Est := fresh "Est" in
  pose proof (selected_fold kickoff l) as Hsel;
  remember (fold_left (visit_held kickoff) l (None, none3)) as st eqn:Est;
  clear Est.

(** Records that come after the holder and are not later leave it. *)
Lemma fold_keeps : forall kickoff l dt t,
  (forall r' dt' t', In r' l -> candidate kickoff r' = Some (dt', t') -> dt' <= dt) ->
  fold_left (visit_held kickoff) l (Some dt, t) = (Some dt, t).
Proof.
  intros kickoff l dt t. induction l as [| x l IH]; intros Hafter.
  - reflexivity.
  - simpl. unfold visit_held at 2. simpl.
    destruct (candidate kickoff x) as [[dx tx] |] eqn:Ex.
    + assert (Hle : dx <= dt) by (apply (Hafter x dx tx); [left; reflexivity | assumption]).
      destruct (Z.gtb_spec dx dt); [lia |].
      apply IH. intros r' dt' t' Hin. apply Hafter. right. assumption.
    + apply IH. intros r' dt' t' Hin. apply Hafter. right. assumption.
Qed.

(** The first of the qualifying records with the greatest instant wins. *)
Lemma fold_first_latest : forall kickoff l1 r l2 dt t,
  candidate kickoff r = Some (dt, t) ->
  (forall r' dt' t', In r' l1 -> candidate kickoff r' = Some (dt', t') -> dt' < dt) ->
  (forall r' dt' t', In r' l2 -> candidate kickoff r' = Some (dt', t') -> dt' <= dt) ->
  fold_left (visit_held kickoff) (l1 ++ r :: l2) (None, none3) = (Some dt, t).
Proof.
  intros kickoff l1 r l2 dt t Hr Hbefore Hafter.
  rewrite fold_left_app. simpl.
  assert (Hst : visit_held kickoff
                  (fold_left (visit_held kickoff) l1 (None, none3)) r = (Some dt, t)).
  { unfold visit_held at 1. rewrite Hr.
    selected_cases kickoff l1 Hsel.
    destruct Hsel as [l1 _ | la ra lb da ta Hra _ _].
    - reflexivity.
    - simpl.
      assert (Hlt : da < dt).
      { apply (Hbefore ra da ta); [| assumption].
        apply in_or_app. right. left. reflexivity. }
      destruct (Z.gtb_spec dt da); [reflexivity | lia]. }
  rewrite Hst. apply fold_keeps. assumption.
Qed.

(** A record that does not qualify changes nothing. *)
Lemma fold_skip : forall kickoff l1 r l2 st,
  candidate kickoff r = None ->
  fold_left (visit_held kickoff) (l1 ++ r :: l2) st =
  fold_left (visit_held kickoff) (l1 ++ l2) st.
Proof.
  intros kickoff l1 r l2 st Hr. rewrite !fold_left_app. simpl.
  unfold visit_held at 2. rewrite Hr. reflexivity.
Qed.

Lemma fold_none : forall kickoff l,
  (forall r, In r l -> candidate kickoff r = None) ->
  fold_left (visit_held kickoff) l (None, none3) = (None, none3).
Proof.
  intros kickoff l Hnone.
  selected_cases kickoff l Hsel.
  destruct Hsel as [l _ | l1 r l2 dt t Hr _ _].
  - reflexivity.
  - rewrite (Hnone r) in Hr; [discriminate |].
    apply in_or_app. right. left. reflexivity.
Qed.

(** When a record qualifies, the loop ends on a qualifying record whose
    instant no qualifying record exceeds. *)
Lemma fold_latest : forall kickoff l r dt,
  In r l -> qualifies kickoff r dt ->
  exists r' dt',
    In r' l /\ qualifies kickoff r' dt' /\
    (forall r'' dt'', In r'' l -> qualifies kickoff r'' dt'' -> dt'' <= dt') /\
    fold_left (visit_held kickoff) l (None, none3)
    = (Some dt', quoted_triple (snd r')).
Proof.
  intros kickoff l r dt Hin Hq.
  selected_cases kickoff l Hsel.
  destruct Hsel as [l Hnone | l1 r' l2 dt' t' Hr Hbefore Hafter].
  - elim (proj1 (candidate_none kickoff r) (Hnone r Hin) dt Hq).
  - apply candidate_qualifies in Hr. destruct Hr as [Hq' ->].
    exists r', dt'. split; [| split; [assumption | split; [| reflexivity]]].
    + apply in_or_app. right. left. reflexivity.
    + intros r'' dt'' Hin'' Hq''.
      assert (Hc : candidate kickoff r'' = Some (dt'', quoted_triple (snd r'')))
        by (apply candidate_qualifies; auto).
      apply in_app_or in Hin''. destruct Hin'' as [Hin'' | [<- | Hin'']].
      * specialize (Hbefore _ _ _ Hin'' Hc). lia.
      * rewrite (qualifies_instant kickoff r' dt' dt'' Hq' Hq''). lia.
      * apply (Hafter _ _ _ Hin'' Hc).
Qed.

Lemma fold_first_latest_qualifies : forall kickoff l1 r l2 dt,
  qualifies kickoff r dt ->
  (forall r' dt', In r' l1 -> qualifies kickoff r' dt' -> dt' < dt) ->
  (forall r' dt', In r' l2 -> qualifies kickoff r' dt' -> dt' <= dt) ->
  fold_left (visit_held kickoff) (l1 ++ r :: l2) (None, none3)
  = (Some dt, quoted_triple (snd r)).
Proof.
  intros kickoff l1 r l2 dt Hq Hbefore Hafter.
  apply fold_first_latest.
  - apply candidate_qualifies. auto.
  - intros r' dt' t' Hin Hc. apply candidate_qualifies in Hc.
    apply (Hbefore r' dt' Hin). apply Hc.
  - intros r' dt' t' Hin Hc. apply candidate_qualifies in Hc.
    apply (Hafter r' dt' Hin). apply Hc.
Qed.

(** *** Properties of [pick_prematch_1x2] *)

(** C1: on a response whose updates can all be compared with kickoff, among
    the qualifying records (match-winner market, parsable update instant
    not after kickoff, a quoted price that is present and not a zero)
    [pick_prematch_1x2] returns the Home, Draw and Away prices quoted by a
    record with the latest update instant, and the all-absent triple when
    none qualifies; a qualifying record that is strictly later than every
    other one is the one returned, wherever it stands, and in particular
    for two records with instants T1 < T2 <= kickoff the prices of the T2
    record are returned. *)
Theorem pick_prematch_returns_latest : forall odds_resp iso kickoff,
  fromisoformat (PyStr.replace_Z iso) = Some kickoff ->
  let recs := records (get_or (response odds_resp) []) in
  let result := pick_prematch_1x2 odds_resp (Some iso) in
  (forall r, In r recs -> clashes kickoff r = false) ->
  ((forall r dt, In r recs -> ~ qualifies kickoff r dt) -> result = Ok none3)
  /\ (forall r dt, In r recs -> qualifies kickoff r dt ->
       exists r' dt',
         In r' recs /\ qualifies kickoff r' dt' /\
         (forall r'' dt'', In r'' recs -> qualifies kickoff r'' dt'' -> dt'' <= dt') /\
         result = Ok (quoted_triple (snd r')))
  /\ (forall l1 r l2 dt,
       recs = (l1 ++ r :: l2)%list -> qualifies kickoff r dt ->
       (forall r' dt', In r' (l1 ++ l2)%list -> qualifies kickoff r' dt' -> dt' < dt) ->
       result = Ok (quoted_triple (snd r)))
  /\ (forall r1 r2 T1 T2,
       recs = [r1; r2] \/ recs = [r2; r1] ->
       qualifies kickoff r1 T1 -> qualifies kickoff r2 T2 -> T1 < T2 ->
       result = Ok (quoted is_home (snd r2), quoted is_draw (snd r2),
                    quoted is_away (snd r2))).
Proof.
  intros odds_resp iso kickoff Hk recs result Hcmp.
  assert (Hres : result = Ok (snd (fold_left (visit_held kickoff) recs (None, none3))))
    by (apply pick_comparable; assumption).
  assert (Hunique : forall l1 r l2 dt,
             recs = (l1 ++ r :: l2)%list -> qualifies kickoff r dt ->
             (forall r' dt', In r' (l1 ++ l2)%list -> qualifies kickoff r' dt' -> dt' < dt) ->
             result = Ok (quoted_triple (snd r))).
  { intros l1 r l2 dt Hl Hq Hothers. rewrite Hres, Hl.
    rewrite (fold_first_latest_qualifies kickoff l1 r l2 dt Hq); [reflexivity | |].
    - intros r' dt' Hin. apply Hothers. apply in_or_app. left. assumption.
    - intros r' dt' Hin Hq'.
      assert (dt' < dt); [| lia].
      apply (Hothers r' dt'); [apply in_or_app; right |]; assumption. }
  split; [| split; [| split]].
  - intros Hnone. rewrite Hres, fold_none; [reflexivity |].
    intros r Hin. apply candidate_none. intros dt. apply Hnone. assumption.
  - intros r dt Hin Hq.
    destruct (fold_latest kickoff recs r dt Hin Hq) as (r' & dt' & Hin' & Hq' & Hmax & E).
    exists r', dt'. split; [assumption | split; [assumption | split; [assumption |]]].
    rewrite Hres, E. reflexivity.
  - exact Hunique.
  - intros r1 r2 T1 T2 [Hl | Hl] Hq1 Hq2 Hlt.
    + apply (Hunique [r1] r2 [] T2 Hl Hq2).
      intros r' dt' [<- | []] Hq'.
      rewrite (qualifies_instant kickoff r1 dt' T1 Hq' Hq1). assumption.
    + apply (Hunique [] r2 [r1] T2 Hl Hq2).
      intros r' dt' [<- | []] Hq'.
      rewrite (qualifies_instant kickoff r1 dt' T1 Hq' Hq1). assumption.
Qed.

(** C2: on a response whose updates can all be compared with kickoff, a
    record whose update instant is strictly after kickoff is never the
    source of the result: the result is all-absent or the prices quoted by
    a qualifying record, which is not late and whose instant is not after
    kickoff; deleting a late record from the response leaves the result
    unchanged; when every record is late the result is all-absent; a
    single record updated exactly at kickoff, of the right market and with
    a nonzero price, qualifies and is returned. *)
Theorem pick_prematch_never_after_kickoff : forall odds_resp iso kickoff,
  fromisoformat (PyStr.replace_Z iso) = Some kickoff ->
  let recs := records (get_or (response odds_resp) []) in
  let result := pick_prematch_1x2 odds_resp (Some iso) in
  (forall r, In r recs -> clashes kickoff r = false) ->
  (result = Ok none3 \/
   exists r dt,
     In r recs /\ qualifies kickoff r dt /\ ~ late kickoff r /\
     dt <= instant kickoff /\ result = Ok (quoted_triple (snd r)))
  /\ (forall l1 r l2 odds_resp',
       recs = (l1 ++ r :: l2)%list -> late kickoff r ->
       records (get_or (response odds_resp') []) = (l1 ++ l2)%list ->
       pick_prematch_1x2 odds_resp' (Some iso) = result)
  /\ ((forall r, In r recs -> late kickoff r) -> result = Ok none3)
  /\ (forall r,
       recs = [r] -> is_match_winner (snd r) = true ->
       parse_update (book_update (fst r)) = Some kickoff ->
       nonzero (quoted is_home (snd r)) \/ nonzero (quoted is_draw (snd r)) \/
       nonzero (quoted is_away (snd r)) ->
       qualifies kickoff r (instant kickoff) /\
       result = Ok (quoted_triple (snd r))).
Proof.
  intros odds_resp iso kickoff Hk recs result Hcmp.
  assert (Hres : result = Ok (snd (fold_left (visit_held kickoff) recs (None, none3))))
    by (apply pick_comparable; assumption).
  split; [| split; [| split]].
  - selected_cases kickoff recs Hsel.
    destruct Hsel as [l _ | l1 r l2 dt t Hr _ _].
    + left. assumption.
    + right. apply candidate_qualifies in Hr. destruct Hr as [Hq ->].
      exists r, dt. split; [apply in_or_app; right; left; reflexivity |].
      split; [exact Hq | split; [| split; [| exact Hres]]].
      * intros Hlate. apply late_candidate in Hlate.
        apply (proj1 (candidate_none kickoff r) Hlate dt Hq).
      * apply (qualifies_not_after kickoff r dt Hq).
  - intros l1 r l2 odds_resp' Hl Hlate Hl'.
    rewrite Hres, (pick_comparable odds_resp' iso kickoff Hk).
    + rewrite Hl, Hl'.
      rewrite (fold_skip kickoff l1 r l2 _ (late_candidate kickoff r Hlate)).
      reflexivity.
    + rewrite Hl'. intros x Hin. apply Hcmp. rewrite Hl.
      apply in_app_or in Hin. apply in_or_app.
      destruct Hin as [Hin | Hin]; [left | right; right]; assumption.
  - intros Hall. rewrite Hres, fold_none; [reflexivity |].
    intros r Hin. apply late_candidate. apply Hall. assumption.
  - intros r Hl Hm Hu Ht.
    assert (Hq : qualifies kickoff r (instant kickoff)).
    { split; [assumption | split; [| assumption]].
      exists kickoff. split; [assumption | split; [| reflexivity]].
      apply dt_le_true. split; [apply same_kind_refl | lia]. }
    split; [assumption |].
    rewrite Hres, Hl.
    change [r] with ([] ++ r :: [])%list.
    rewrite (fold_first_latest_qualifies kickoff [] r [] (instant kickoff) Hq);
      [reflexivity | intros ? ? [] | intros ? ? []].
Qed.

(** C3: on a response whose updates can all be compared with kickoff, the
    comparison that replaces the held record is strict, so among the
    qualifying records that share the latest update instant the first one
    in iteration order is the one whose prices are returned; in particular
    for two qualifying records with the same instant the first is
    returned; and a turn of the loop on a qualifying record that is not
    later than the record held leaves the state as it is. *)
Theorem pick_prematch_tie_first_seen : forall odds_resp iso kickoff,
  fromisoformat (PyStr.replace_Z iso) = Some kickoff ->
  let recs := records (get_or (response odds_resp) []) in
  let result := pick_prematch_1x2 odds_resp (Some iso) in
  (forall r, In r recs -> clashes kickoff r = false) ->
  (forall l1 r l2 dt,
     recs = (l1 ++ r :: l2)%list -> qualifies kickoff r dt ->
     (forall r' dt', In r' l1 -> qualifies kickoff r' dt' -> dt' < dt) ->
     (forall r' dt', In r' l2 -> qualifies kickoff r' dt' -> dt' <= dt) ->
     result = Ok (quoted_triple (snd r)))
  /\ (forall r1 r2 dt,
       recs = [r1; r2] -> qualifies kickoff r1 dt -> qualifies kickoff r2 dt ->
       result = Ok (quoted is_home (snd r1), quoted is_draw (snd r1),
                    quoted is_away (snd r1)))
  /\ (forall st r dt best_dt,
       qualifies kickoff r dt -> fst st = Some best_dt ->
       same_kind best_dt kickoff = true -> dt <= instant best_dt ->
       visit_record kickoff st r = Ok st).
Proof.
  intros odds_resp iso kickoff Hk recs result Hcmp.
  assert (Hres : result = Ok (snd (fold_left (visit_held kickoff) recs (None, none3))))
    by (apply pick_comparable; assumption).
  assert (Hfirst : forall l1 r l2 dt,
             recs = (l1 ++ r :: l2)%list -> qualifies kickoff r dt ->
             (forall r' dt', In r' l1 -> qualifies kickoff r' dt' -> dt' < dt) ->
             (forall r' dt', In r' l2 -> qualifies kickoff r' dt' -> dt' <= dt) ->
             result = Ok (quoted_triple (snd r))).
  { intros l1 r l2 dt Hl Hq Hbefore Hafter. rewrite Hres, Hl.
    rewrite (fold_first_latest_qualifies kickoff l1 r l2 dt Hq Hbefore Hafter).
    reflexivity. }
  split; [exact Hfirst | split].
  - intros r1 r2 dt Hl Hq1 Hq2.
    apply (Hfirst [] r1 [r2] dt Hl Hq1).
    + intros ? ? [].
    + intros r' dt' [<- | []] Hq'.
      rewrite (qualifies_instant kickoff r2 dt' dt Hq' Hq2). lia.
  - intros st r dt best_dt (Hm & (u & Hu & Hle & <-) & Ht) Hst Hkind Hnot.
    apply quoted_nonzero in Ht.
    unfold visit_record, visit_bet. rewrite Hm, Hu, Hle, Ht, Hst.
    apply dt_le_true in Hle. destruct Hle as [Hk' _].
    unfold dt_gt.
    rewrite (same_kind_trans u kickoff best_dt Hk')
      by (rewrite same_kind_sym; assumption).
    destruct (Z.gtb_spec (instant u) (instant best_dt)); [lia | reflexivity].
Qed.

(** C4: on a response whose updates can all be compared with kickoff, a
    record each of whose three quoted prices is absent (an unparsable price
    string is absent) or a zero is discarded whatever its timestamp:
    deleting it leaves the result unchanged, and when every record is such
    the result is all-absent; a record of the market, not after kickoff,
    with at least one nonzero price qualifies and the result is then the
    prices of a qualifying record that is not earlier than it; a bet whose
    price strings all fail to parse quotes nothing. *)
Theorem pick_prematch_discards_all_falsy : forall odds_resp iso kickoff,
  fromisoformat (PyStr.replace_Z iso) = Some kickoff ->
  let recs := records (get_or (response odds_resp) []) in
  let result := pick_prematch_1x2 odds_resp (Some iso) in
  let all_absent_or_zero (r : bookmaker * bet) :=
    absent_or_zero (quoted is_home (snd r)) /\
    absent_or_zero (quoted is_draw (snd r)) /\
    absent_or_zero (quoted is_away (snd r)) in
  (forall r, In r recs -> clashes kickoff r = false) ->
  (forall l1 r l2 odds_resp',
     recs = (l1 ++ r :: l2)%list -> all_absent_or_zero r ->
     records (get_or (response odds_resp') []) = (l1 ++ l2)%list ->
     pick_prematch_1x2 odds_resp' (Some iso) = result)
  /\ ((forall r, In r recs -> all_absent_or_zero r) -> result = Ok none3)
  /\ (forall r u,
       In r recs -> is_match_winner (snd r) = true ->
       parse_update (book_update (fst r)) = Some u ->
       dt_le u kickoff = Ok true ->
       nonzero (quoted is_home (snd r)) \/ nonzero (quoted is_draw (snd r)) \/
       nonzero (quoted is_away (snd r)) ->
       qualifies kickoff r (instant u) /\
       exists r' dt',
         In r' recs /\ qualifies kickoff r' dt' /\ instant u <= dt' /\
         result = Ok (quoted_triple (snd r')))
  /\ (forall b names,
       (forall v, In v (get_or (bet_values b) []) ->
                  exists s, op_odd v = Some (JStr s) /\ float_of_string s = None) ->
       quoted names b = None)
  /\ (forall r dt, all_absent_or_zero r -> ~ qualifies kickoff r dt).
Proof.
  intros odds_resp iso kickoff Hk recs result all_absent_or_zero Hcmp.
  assert (Hres : result = Ok (snd (fold_left (visit_held kickoff) recs (None, none3))))
    by (apply pick_comparable; assumption).
  assert (Hno : forall r dt, all_absent_or_zero r -> ~ qualifies kickoff r dt).
  { intros r dt (Zh & Zd & Za) (_ & _ & [Hn | [Hn | Hn]]);
      eapply nonzero_not_absent; eassumption. }
  split; [| split; [| split; [| split]]].
  - intros l1 r l2 odds_resp' Hl Hz Hl'.
    rewrite Hres, (pick_comparable odds_resp' iso kickoff Hk).
    + rewrite Hl, Hl'.
      rewrite (fold_skip kickoff l1 r l2); [reflexivity |].
      apply candidate_none. intros dt. apply Hno. assumption.
    + rewrite Hl'. intros x Hin. apply Hcmp. rewrite Hl.
      apply in_app_or in Hin. apply in_or_app.
      destruct Hin as [Hin | Hin]; [left | right; right]; assumption.
  - intros Hall. rewrite Hres, fold_none; [reflexivity |].
    intros r Hin. apply candidate_none. intros dt. apply Hno. auto.
  - intros r u Hin Hm Hu Hle Hnz.
    assert (Hq : qualifies kickoff r (instant u)).
    { split; [assumption | split; [| assumption]].
      exists u. split; [assumption | split; [assumption | reflexivity]]. }
    split; [assumption |].
    destruct (fold_latest kickoff recs r (instant u) Hin Hq)
      as (r' & dt' & Hin' & Hq' & Hmax & E).
    exists r', dt'. split; [assumption | split; [assumption | split]].
    + apply (Hmax r (instant u) Hin Hq).
    + rewrite Hres, E. reflexivity.
  - intros b names Hall. unfold quoted.
    destruct (find (fun val => names (label val)) (rev (get_or (bet_values b) [])))
      as [val |] eqn:Ef; [| reflexivity].
    apply find_some in Ef. destruct Ef as [Hin _]. apply in_rev in Hin.
    destruct (Hall val Hin) as (s & -> & Hs). exact Hs.
  - exact Hno.
Qed.

(** C10: within one bet, the Home (Draw, Away) component of the extracted
    triple is the price of the last pair of the list whose trimmed,
    lowercased label is "home" or "1" ("draw" or "x", "away" or "2"), the
    later pairs overwriting the earlier ones; it is absent when no pair
    has such a label; a pair whose label is none of the six leaves the
    triple unchanged. *)
Theorem extract_prices_last_label_wins : forall b l1 val l2,
  get_or (bet_values b) [] = (l1 ++ val :: l2)%list ->
  (is_home (label val) = true ->
   (forall v, In v l2 -> is_home (label v) = false) ->
   price_H (extract_prices b) = float_of (op_odd val))
  /\ (is_draw (label val) = true ->
      (forall v, In v l2 -> is_draw (label v) = false) ->
      price_D (extract_prices b) = float_of (op_odd val))
  /\ (is_away (label val) = true ->
      (forall v, In v l2 -> is_away (label v) = false) ->
      price_A (extract_prices b) = float_of (op_odd val))
  /\ (is_home (label val) = false -> is_draw (label val) = false ->
      is_away (label val) = false ->
      set_price (fold_left set_price l1 none3) val = fold_left set_price l1 none3 /\
      forall b', get_or (bet_values b') [] = (l1 ++ l2)%list ->
                 extract_prices b = extract_prices b')
  /\ ((forall v, In v (l1 ++ val :: l2)%list -> is_home (label v) = false) ->
      price_H (extract_prices b) = None)
  /\ ((forall v, In v (l1 ++ val :: l2)%list -> is_draw (label v) = false) ->
      price_D (extract_prices b) = None)
  /\ ((forall v, In v (l1 ++ val :: l2)%list -> is_away (label v) = false) ->
      price_A (extract_prices b) = None).
Proof.
  intros b l1 val l2 Hl. unfold extract_prices. rewrite Hl.
  repeat split.
  - apply (fold_component_last price_H is_home set_price_H).
  - apply (fold_component_last price_D is_draw set_price_D).
  - apply (fold_component_last price_A is_away set_price_A).
  - apply set_price_unrecognized; assumption.
  - intros b' Hl'. rewrite Hl'. apply fold_skip_unrecognized; assumption.
  - apply (fold_component_none price_H is_home set_price_H).
  - apply (fold_component_none price_D is_draw set_price_D).
  - apply (fold_component_none price_A is_away set_price_A).
Qed.

(** *** [api_get] under its [retry] decorator *)

Lemma get_headers_push : forall ev w, get_headers (push ev w) = get_headers w.
Proof. reflexivity. Qed.

Lemma get_headers_consume : forall w, get_headers (consume w) = get_headers w.
Proof. reflexivity. Qed.

Lemma wait_exponential_value : forall n,
  1 <= n -> wait_exponential 1 1 8 n = Z.min (2 ^ (n - 1)) 8.
Proof.
  intros n Hn. unfold wait_exponential.
  assert (0 < 2 ^ (n - 1)) by (apply Z.pow_pos_nonneg; lia). lia.
Qed.

(** An attempt without a configured key raises [APIError("NO_API_KEY")]
    and touches nothing. *)
Lemma api_get_body_no_key : forall path params w,
  get_headers w = None ->
  api_get_body path params w = (Raise (APIError "NO_API_KEY"), w).
Proof. intros path params w H. unfold api_get_body. rewrite H. reflexivity. Qed.

(** An attempt answered by a status of 300 or more raises an [APIError]. *)
Lemma api_get_body_failure : forall path params w key r more,
  get_headers w = Some key -> remote w = Reply r :: more ->
  300 <= status_code r ->
  exists msg,
    api_get_body path params w
    = (Raise (APIError msg), push (Requested path params) (consume w)).
Proof.
  intros path params w key r more Hkey Hrem Hst.
  unfold api_get_body, bind, requests_get, raise. rewrite Hkey, Hrem.
  destruct (status_code r =? 429); [eexists; reflexivity |].
  destruct (Z.geb_spec (status_code r) 300); [eexists; reflexivity | lia].
Qed.

(** Whatever the attempts do, the decorated function never ends on an
    [APIError]: such an exception is retried or turned into
    [RetryError]. *)
Lemma retry_loop_never_APIError :
  forall (A : Type) (wait : Z -> Z) (f : M A) n attempt w msg,
    fst (retry_loop retry_if_exception_type_APIError wait n attempt f w)
    <> Raise (APIError msg).
Proof.
  intros A wait f n. induction n as [| n IH]; intros attempt w msg; simpl.
  - destruct (f w) as [[a | e] w1]; simpl; [discriminate |].
    destruct e; simpl; discriminate.
  - destruct (f w) as [[a | e] w1]; simpl; [discriminate |].
    destruct e; simpl; try discriminate. apply IH.
Qed.

Lemma api_get_never_APIError : forall path params w msg,
  fst (api_get path params w) <> Raise (APIError msg).
Proof. intros. apply retry_loop_never_APIError. Qed.

Lemma retry_loop_again :
  forall (A : Type) (wait : Z -> Z) (f : M A) n attempt w msg w1,
    f w = (Raise (APIError msg), w1) ->
    retry_loop retry_if_exception_type_APIError wait (S n) attempt f w
    = retry_loop retry_if_exception_type_APIError wait n (attempt + 1) f
        (push (Slept (1000 * wait attempt)) w1).
Proof. intros A wait f n attempt w msg w1 E. simpl. rewrite E. reflexivity. Qed.

Lemma retry_loop_stop :
  forall (A : Type) (wait : Z -> Z) (f : M A) attempt w msg w1,
    f w = (Raise (APIError msg), w1) ->
    retry_loop retry_if_exception_type_APIError wait 0 attempt f w
    = (Raise RetryError, w1).
Proof. intros A wait f attempt w msg w1 E. simpl. rewrite E. reflexivity. Qed.

Lemma api_get_unfold : forall path params w,
  api_get path params w
  = retry_loop retry_if_exception_type_APIError (wait_exponential 1 1 8) 2 1
      (api_get_body path params) w.
Proof. reflexivity. Qed.

Lemma api_get_no_key : forall path params w,
  get_headers w = None ->
  api_get path params w
  = (Raise RetryError, push (Slept 2000) (push (Slept 1000) w)).
Proof.
  intros path params w H. rewrite api_get_unfold.
  rewrite (retry_loop_again _ _ _ _ _ _ _ _ (api_get_body_no_key path params w H)).
  assert (H1 : get_headers (push (Slept (1000 * wait_exponential 1 1 8 1)) w) = None)
    by exact H.
  rewrite (retry_loop_again _ _ _ _ _ _ _ _ (api_get_body_no_key path params _ H1)).
  assert (H2 : get_headers
                 (push (Slept (1000 * wait_exponential 1 1 8 (1 + 1)))
                    (push (Slept (1000 * wait_exponential 1 1 8 1)) w)) = None)
    by exact H.
  rewrite (retry_loop_stop _ _ _ _ _ _ _ (api_get_body_no_key path params _ H2)).
  reflexivity.
Qed.

Lemma api_get_three_failures : forall path params w key r1 r2 r3 more,
  get_headers w = Some key ->
  remote w = Reply r1 :: Reply r2 :: Reply r3 :: more ->
  300 <= status_code r1 -> 300 <= status_code r2 -> 300 <= status_code r3 ->
  api_get path params w
  = (Raise RetryError,
     push (Requested path params)
       (consume (push (Slept 2000)
          (push (Requested path params)
             (consume (push (Slept 1000)
                (push (Requested path params) (consume w)))))))).
Proof.
  intros path params w key r1 r2 r3 more Hkey Hrem H1 H2 H3.
  rewrite api_get_unfold.
  destruct (api_get_body_failure path params w key r1 _ Hkey Hrem H1) as [m1 E1].
  rewrite (retry_loop_again _ _ _ _ _ _ _ _ E1).
  set (w1 := push (Slept (1000 * wait_exponential 1 1 8 1))
               (push (Requested path params) (consume w))).
  assert (Hkey1 : get_headers w1 = Some key) by exact Hkey.
  assert (Hrem1 : remote w1 = Reply r2 :: Reply r3 :: more)
    by (unfold w1; simpl; rewrite Hrem; reflexivity).
  destruct (api_get_body_failure path params w1 key r2 _ Hkey1 Hrem1 H2) as [m2 E2].
  rewrite (retry_loop_again _ _ _ _ _ _ _ _ E2).
  set (w2 := push (Slept (1000 * wait_exponential 1 1 8 (1 + 1)))
               (push (Requested path params) (consume w1))).
  assert (Hkey2 : get_headers w2 = Some key) by exact Hkey.
  assert (Hrem2 : remote w2 = Reply r3 :: more)
    by (unfold w2, w1; simpl; rewrite Hrem; reflexivity).
  destruct (api_get_body_failure path params w2 key r3 _ Hkey2 Hrem2 H3) as [m3 E3].
  rewrite (retry_loop_stop _ _ _ _ _ _ _ E3).
  reflexivity.
Qed.

(** C5: [api_get] makes at most three attempts, waiting 1 then 2 seconds
    (the schedule starts at 1, doubles and never exceeds 8), but it
    retries on every [APIError] and not only on the rate limit: without a
    configured key it tries three times and ends on [RetryError]; three
    answers with a status of 300 or more, whatever they are, end on
    [RetryError] after three requests; the caller never sees an
    [APIError]. *)
Theorem api_get_retries_every_APIError : forall path params w,
  (get_headers w = None ->
   api_get path params w
   = (Raise RetryError, push (Slept 2000) (push (Slept 1000) w)))
  /\ (forall key r1 r2 r3 more,
       get_headers w = Some key ->
       remote w = Reply r1 :: Reply r2 :: Reply r3 :: more ->
       300 <= status_code r1 -> 300 <= status_code r2 -> 300 <= status_code r3 ->
       fst (api_get path params w) = Raise RetryError /\
       remote (snd (api_get path params w)) = more /\
       trace (snd (api_get path params w))
       = [Requested path params; Slept 2000; Requested path params;
          Slept 1000; Requested path params] ++ trace w)%list
  /\ (forall msg, fst (api_get path params w) <> Raise (APIError msg))
  /\ (wait_exponential 1 1 8 1 = 1 /\
      forall n, 1 <= n ->
        wait_exponential 1 1 8 (n + 1) = Z.min 8 (2 * wait_exponential 1 1 8 n) /\
        wait_exponential 1 1 8 n <= 8).
Proof.
  intros path params w. split; [| split; [| split; [| split]]].
  - apply api_get_no_key.
  - intros key r1 r2 r3 more Hkey Hrem H1 H2 H3.
    rewrite (api_get_three_failures path params w key r1 r2 r3 more Hkey Hrem H1 H2 H3).
    simpl. rewrite Hrem. auto.
  - apply api_get_never_APIError.
  - reflexivity.
  - intros n Hn.
    rewrite !wait_exponential_value by lia.
    replace (n + 1 - 1) with (Z.succ (n - 1)) by lia.
    rewrite Z.pow_succ_r by lia.
    assert (0 < 2 ^ (n - 1)) by (apply Z.pow_pos_nonneg; lia). lia.
Qed.

(** *** [build_dataframe] *)

(** An exception of the odds request that is not an [APIError] leaves the
    loop and the function. *)
Lemma build_dataframe_propagates : forall f rest team_name w e w',
  (forall msg, e <> APIError msg) ->
  api_get "/odds" (odds_params (fx_id (get_or (e_fixture f) empty_fixture))) w
  = (Raise e, w') ->
  build_dataframe (f :: rest) team_name true w = (Raise e, w').
Proof.
  intros f rest team_name w e w' He Hapi.
  unfold build_dataframe, bind. simpl build_rows. unfold bind.
  unfold odds_step, try_except_APIError, get_fixture_odds_1x2, bind.
  rewrite Hapi. destruct e; try reflexivity. elim (He msg). reflexivity.
Qed.

(** What the handler would do with an [APIError], were one to reach it. *)
Lemma odds_handler_no_key : forall fixture_id w,
  odds_handler fixture_id "NO_API_KEY" w = (Ok (none3, false), w).
Proof. reflexivity. Qed.

Lemma odds_handler_other : forall fixture_id msg w,
  msg <> "NO_API_KEY" ->
  odds_handler fixture_id msg w
  = (Ok (none3, true),
     push (Logged ("Warning: odds for fixture " ++ str_of_id fixture_id
                   ++ " not fetched: " ++ msg)) w).
Proof.
  intros fixture_id msg w Hne. unfold odds_handler.
  apply String.eqb_neq in Hne. rewrite Hne. reflexivity.
Qed.

(** C6: the handler of [build_dataframe] that would disable odds fetching
    on [NO_API_KEY], or log any other odds error and go on, is never
    reached: [get_fixture_odds_1x2] never raises an [APIError]; without a
    configured key, and likewise when the odds requests are answered by
    three statuses of 300 or more, [build_dataframe] ends on [RetryError]
    at the first fixture and builds no row. *)
Theorem build_dataframe_aborts_on_odds_failure : forall f rest team_name w,
  (get_headers w = None ->
   build_dataframe (f :: rest) team_name true w
   = (Raise RetryError, push (Slept 2000) (push (Slept 1000) w)))
  /\ (forall key r1 r2 r3 more,
       get_headers w = Some key ->
       remote w = Reply r1 :: Reply r2 :: Reply r3 :: more ->
       300 <= status_code r1 -> 300 <= status_code r2 -> 300 <= status_code r3 ->
       fst (build_dataframe (f :: rest) team_name true w) = Raise RetryError)
  /\ (forall fixture_id kickoff_iso msg,
       fst (get_fixture_odds_1x2 fixture_id kickoff_iso w) <> Raise (APIError msg)).
Proof.
  intros f rest team_name w. split; [| split].
  - intros H. apply build_dataframe_propagates; [discriminate |].
    apply api_get_no_key. assumption.
  - intros key r1 r2 r3 more Hkey Hrem H1 H2 H3.
    erewrite build_dataframe_propagates; [reflexivity | discriminate |].
    apply (api_get_three_failures _ _ w key r1 r2 r3 more); assumption.
  - intros fixture_id kickoff_iso msg. unfold get_fixture_odds_1x2, bind.
    pose proof (api_get_never_APIError "/odds" (odds_params fixture_id) w) as Hn.
    destruct (api_get "/odds" (odds_params fixture_id) w) as [[data | e] w1].
    + unfold lift. simpl. intros E. apply pick_raises in E.
      destruct E as [E | [E | E]]; discriminate.
    + simpl in *. intros E. inversion E; subst. apply (Hn msg). reflexivity.
Qed.

(** *** [find_team_id] *)


Lemma find_nothing : forall (A : Type) (p : A -> bool) l,
  (forall y, In y l -> p y = false) -> find p l = None.
Proof.
  intros A p l. induction l as [| y l IH]; intros Hl; simpl.
  - reflexivity.
  - rewrite (Hl y) by (left; reflexivity).
    apply IH. intros z Hz. apply Hl. right. assumption.
Qed.


(** *** Letter case *)





Lemma eq_nocase_empty : forall s, eq_nocase s EmptyString = true -> s = EmptyString.
Proof. intros [| c s]; [reflexivity | discriminate]. Qed.





(** *** [list_fixtures] *)




Lemma insert_by_perm : forall (A : Type) (le : A -> A -> bool) x l,
  Permutation (insert_by le x l) (x :: l).
Proof.
  intros A le x l. induction l as [| y l IH]; simpl.
  - apply Permutation_refl.
  - destruct (le x y).
    + apply Permutation_refl.
    + apply perm_trans with (y :: x :: l).
      * apply perm_skip. exact IH.
      * apply perm_swap.
Qed.

Lemma sort_by_perm : forall (A : Type) (le : A -> A -> bool) l,
  Permutation (sort_by le l) l.
Proof.
  intros A le l. induction l as [| x l IH]; simpl.
  - apply perm_nil.
  - apply perm_trans with (x :: sort_by le l).
    + apply insert_by_perm.
    + apply perm_skip. exact IH.
Qed.





(** *** [export_excel] *)

Lemma count_if_split : forall (A : Type) (p q : A -> bool) l,
  (forall x, p x = true -> q x = false) ->
  count_if p l + count_if q l = count_if (fun x => p x || q x) l.
Proof.
  intros A p q l Hdisj. unfold count_if.
  rewrite <- Nat2Z.inj_add. f_equal.
  induction l as [| x l IH]; simpl; [reflexivity |].
  destruct (p x) eqn:Ep; simpl.
  - rewrite (Hdisj x Ep). simpl. rewrite <- IH. reflexivity.
  - destruct (q x); simpl; rewrite <- IH; lia.
Qed.

Lemma count_if_perm : forall (A : Type) (p : A -> bool) l l',
  Permutation l l' -> count_if p l = count_if p l'.
Proof.
  intros A p l l' H. unfold count_if. f_equal.
  induction H; simpl.
  - reflexivity.
  - destruct (p x); simpl; congruence.
  - destruct (p x), (p y); reflexivity.
  - congruence.
Qed.

Lemma has_outcome_perm : forall l l',
  Permutation l l' -> has_outcome l = has_outcome l'.
Proof.
  intros l l' H. unfold has_outcome.
  induction H; simpl.
  - reflexivity.
  - rewrite IHPermutation. reflexivity.
  - destruct (notna (Outcome x)), (notna (Outcome y)); reflexivity.
  - congruence.
Qed.

Lemma cell_is_exclusive : forall x s t,
  s <> t -> cell_is x s = true -> cell_is x t = false.
Proof.
  intros [v |] s t Hne; simpl; [| discriminate].
  intros E. apply String.eqb_eq in E. subst v.
  apply String.eqb_neq. assumption.
Qed.

(** C9: the summary sheet holds the team name, the period string and the
    number of rows; the three counts are present exactly when some row has
    a non-null Outcome, and then Wins counts the rows (H, Home) or
    (A, Away), Draws the rows with Outcome D, Losses the rows (A, Home) or
    (H, Away); two home wins, an away loss and a draw, in any order, give
    Matches 4, Wins 2, Draws 1, Losses 1. *)
Theorem summary_sheet_counts : forall df out_path team_name date_from date_to,
  let s := sheet_summary (export_excel df out_path team_name date_from date_to) in
  s_Team s = team_name
  /\ s_Period s = date_from ++ " → " ++ date_to
  /\ s_Matches s = Z.of_nat (List.length df)
  /\ (has_outcome df = true <-> exists r, In r df /\ Outcome r <> None)
  /\ (has_outcome df = false ->
      s_Wins s = None /\ s_Draws s = None /\ s_Losses s = None)
  /\ (has_outcome df = true ->
      s_Wins s = Some (count_if won df) /\
      s_Draws s = Some (count_if drawn df) /\
      s_Losses s = Some (count_if lost df))
  /\ (forall r1 r2 r3 r4,
       Outcome r1 = Some "H" -> TeamSide r1 = Some "Home" ->
       Outcome r2 = Some "H" -> TeamSide r2 = Some "Home" ->
       Outcome r3 = Some "H" -> TeamSide r3 = Some "Away" ->
       Outcome r4 = Some "D" ->
       Permutation df [r1; r2; r3; r4] ->
       s_Matches s = 4 /\ s_Wins s = Some 2 /\ s_Draws s = Some 1 /\
       s_Losses s = Some 1).
Proof.
  intros df out_path team_name date_from date_to s.
  assert (Hw : count_if is_win df + count_if is_win_away df = count_if won df).
  { apply count_if_split. intros x H. unfold is_win, is_win_away in *.
    apply andb_true_iff in H. destruct H as [H _].
    rewrite (cell_is_exclusive _ "H" "A"); [reflexivity | discriminate | assumption]. }
  assert (Hl : count_if is_loss df + count_if is_loss_away df = count_if lost df).
  { apply count_if_split. intros x H. unfold is_loss, is_loss_away in *.
    apply andb_true_iff in H. destruct H as [H _].
    rewrite (cell_is_exclusive _ "A" "H"); [reflexivity | discriminate | assumption]. }
  assert (Hdecided : has_outcome df = true ->
             s_Wins s = Some (count_if won df) /\
             s_Draws s = Some (count_if drawn df) /\
             s_Losses s = Some (count_if lost df)).
  { intros Hd. unfold s. simpl. rewrite Hd, Hw, Hl. auto. }
  split; [reflexivity | split; [reflexivity | split; [reflexivity |]]].
  split; [| split; [| split]].
  - unfold has_outcome. rewrite existsb_exists. split.
    + intros [r [Hin Hn]]. exists r. split; [assumption |].
      destruct (Outcome r); [discriminate | discriminate].
    + intros [r [Hin Hn]]. exists r. split; [assumption |].
      destruct (Outcome r); [reflexivity | elim Hn; reflexivity].
  - intros Hd. unfold s. simpl. rewrite Hd. auto.
  - exact Hdecided.
  - intros r1 r2 r3 r4 O1 S1 O2 S2 O3 S3 O4 Hperm.
    assert (Hd : has_outcome df = true).
    { rewrite (has_outcome_perm _ _ Hperm). unfold has_outcome. simpl.
      rewrite O1. reflexivity. }
    destruct (Hdecided Hd) as (Ew & Ed & El).
    rewrite Ew, Ed, El.
    rewrite (count_if_perm _ won _ _ Hperm), (count_if_perm _ drawn _ _ Hperm),
      (count_if_perm _ lost _ _ Hperm).
    split.
    + unfold s. simpl. rewrite (Permutation_length Hperm). reflexivity.
    + unfold count_if, won, drawn, lost. simpl.
      rewrite O1, S1, O2, S2, O3, S3, O4. simpl.
      destruct (cell_is (TeamSide r4) "Home"), (cell_is (TeamSide r4) "Away");
        simpl; auto.
Qed.

(** *** Further properties: sorting *)

Lemma pystr_leb_iff : forall a b,
  PyStr.leb a b = true <-> a = b \/ OrderedTypeEx.String_as_OT.lt a b.
Proof.
  intros a b. unfold PyStr.leb.
  pose proof (OrderedTypeEx.String_as_OT.cmp_eq a b) as He.
  pose proof (OrderedTypeEx.String_as_OT.cmp_lt a b) as Hl.
  unfold OrderedTypeEx.String_as_OT.cmp in *.
  destruct (String.compare a b) eqn:E.
  - split; [intros _; left; apply He; reflexivity | reflexivity].
  - split; [intros _; right; apply Hl; reflexivity | reflexivity].
  - split; [discriminate |]. intros [H | H].
    + apply He in H. discriminate.
    + apply Hl in H. discriminate.
Qed.

Lemma pystr_leb_refl : forall a, PyStr.leb a a = true.
Proof. intros a. apply pystr_leb_iff. left. reflexivity. Qed.

Lemma pystr_leb_trans : forall a b c,
  PyStr.leb a b = true -> PyStr.leb b c = true -> PyStr.leb a c = true.
Proof.
  intros a b c Hab Hbc. apply pystr_leb_iff in Hab, Hbc. apply pystr_leb_iff.
  destruct Hab as [-> | Hab]; [assumption |].
  destruct Hbc as [<- | Hbc]; [right; assumption |].
  right. apply (OrderedTypeEx.String_as_OT.lt_trans _ _ _ Hab Hbc).
Qed.

Lemma pystr_leb_total : forall a b, PyStr.leb a b = false -> PyStr.leb b a = true.
Proof.
  intros a b H. destruct (String.leb_total a b) as [H' | H'].
  - change (PyStr.leb a b = true) in H'. congruence.
  - exact H'.
Qed.

(** The insertion sort sorts, for a total and transitive order. *)
Lemma insert_by_sorted : forall (A : Type) (le : A -> A -> bool),
  (forall x y, le x y = false -> le y x = true) ->
  (forall x y z, le x y = true -> le y z = true -> le x z = true) ->
  forall x l,
    StronglySorted (fun a b => le a b = true) l ->
    StronglySorted (fun a b => le a b = true) (insert_by le x l).
Proof.
  intros A le Htotal Htrans x l Hs.
  induction Hs as [| y l Hs IH Hy]; simpl.
  - repeat constructor.
  - destruct (le x y) eqn:E.
    + constructor; [constructor; assumption |].
      constructor; [assumption |].
      rewrite Forall_forall in *. intros z Hz. apply (Htrans x y z E). auto.
    + constructor; [assumption |].
      rewrite Forall_forall in *. intros z Hz.
      apply (Permutation_in _ (insert_by_perm A le x l)) in Hz.
      destruct Hz as [<- | Hz]; [apply Htotal; assumption | auto].
Qed.

Lemma sort_by_sorted : forall (A : Type) (le : A -> A -> bool),
  (forall x y, le x y = false -> le y x = true) ->
  (forall x y z, le x y = true -> le y z = true -> le x z = true) ->
  forall l, StronglySorted (fun a b => le a b = true) (sort_by le l).
Proof.
  intros A le Htotal Htrans l. induction l as [| x l IH]; simpl.
  - constructor.
  - apply insert_by_sorted; assumption.
Qed.

(** The insertion sort is stable: elements that the order does not
    separate keep their relative order. *)
Lemma insert_by_filter : forall (A : Type) (le : A -> A -> bool) (p : A -> bool),
  (forall x y, p x = true -> p y = true -> le x y = true) ->
  forall x l,
    filter p (insert_by le x l) = if p x then x :: filter p l else filter p l.
Proof.
  intros A le p Hp x l. induction l as [| y l IH]; simpl.
  - destruct (p x); reflexivity.
  - destruct (le x y) eqn:E; simpl.
    + destruct (p x); reflexivity.
    + rewrite IH. destruct (p x) eqn:Ex, (p y) eqn:Ey; try reflexivity.
      rewrite (Hp x y Ex Ey) in E. discriminate.
Qed.

Lemma sort_by_stable : forall (A : Type) (le : A -> A -> bool) (p : A -> bool),
  (forall x y, p x = true -> p y = true -> le x y = true) ->
  forall l, filter p (sort_by le l) = filter p l.
Proof.
  intros A le p Hp l. induction l as [| x l IH]; simpl.
  - reflexivity.
  - rewrite (insert_by_filter A le p Hp), IH. reflexivity.
Qed.

Lemma list_fixtures_result :
  forall team_id date_from date_to league_name season w data w',
    api_get "/fixtures" (fixtures_params team_id date_from date_to season) w
    = (Ok data, w') ->
    list_fixtures team_id date_from date_to league_name season w
    = (Ok (sort_by (fun x y => PyStr.leb (date_key x) (date_key y))
             (league_filter league_name (get_or (response data) []))), w').
Proof.
  intros team_id date_from date_to league_name season w data w' Hapi.
  unfold list_fixtures, bind, league_filter. rewrite Hapi. reflexivity.
Qed.

(** X1: when the request succeeds, the fixtures [list_fixtures] returns are
    in ascending order of their date strings (every earlier one is below
    every later one, a missing date counting as the empty string), and
    without a league filter (none given, or an empty one) they are a
    rearrangement of the whole response: none is dropped or repeated. *)
Theorem list_fixtures_sorted :
  forall team_id date_from date_to league_name season w data w',
    api_get "/fixtures" (fixtures_params team_id date_from date_to season) w
    = (Ok data, w') ->
    exists kept,
      list_fixtures team_id date_from date_to league_name season w = (Ok kept, w')
      /\ StronglySorted date_key_le kept
      /\ (league_name = None \/ league_name = Some EmptyString ->
          Permutation kept (get_or (response data) [])).
Proof.
  intros team_id date_from date_to league_name season w data w' Hapi.
  eexists. split; [apply (list_fixtures_result _ _ _ _ _ _ _ _ Hapi) |].
  split.
  - apply (sort_by_sorted entry (fun x y => PyStr.leb (date_key x) (date_key y))).
    + intros x y. apply pystr_leb_total.
    + intros x y z. apply pystr_leb_trans.
  - intros Hnone.
    replace (league_filter league_name (get_or (response data) []))
      with (get_or (response data) [])
      by (destruct Hnone as [-> | ->]; reflexivity).
    apply sort_by_perm.
Qed.

(** X2: the sort of [list_fixtures] is stable: the fixtures that share a
    date string come out in the order the (filtered) response has them. *)
Theorem list_fixtures_stable :
  forall team_id date_from date_to league_name season w data w',
    api_get "/fixtures" (fixtures_params team_id date_from date_to season) w
    = (Ok data, w') ->
    exists kept,
      list_fixtures team_id date_from date_to league_name season w = (Ok kept, w')
      /\ forall d,
           filter (fun x => String.eqb (date_key x) d) kept
           = filter (fun x => String.eqb (date_key x) d)
               (league_filter league_name (get_or (response data) [])).
Proof.
  intros team_id date_from date_to league_name season w data w' Hapi.
  eexists. split; [apply (list_fixtures_result _ _ _ _ _ _ _ _ Hapi) |].
  intros d. apply sort_by_stable.
  intros x y Hx Hy. apply String.eqb_eq in Hx, Hy. rewrite Hx, Hy.
  apply pystr_leb_refl.
Qed.

(** *** Further properties: scores and keys *)

(** X3: the outcome is absent exactly when a goal count is absent, and
    otherwise it is "H" exactly when the home side scored more, "A" exactly
    when it scored less and "D" exactly when the counts are equal. *)
Theorem outcome_from_score_spec : forall home_goals away_goals,
  (outcome_from_score home_goals away_goals = None <->
   home_goals = None \/ away_goals = None)
  /\ (forall h a,
       home_goals = Some h -> away_goals = Some a ->
       (outcome_from_score home_goals away_goals = Some "H" <-> h > a) /\
       (outcome_from_score home_goals away_goals = Some "A" <-> h < a) /\
       (outcome_from_score home_goals away_goals = Some "D" <-> h = a)).
Proof.
  intros home_goals away_goals. split.
  - destruct home_goals as [h |], away_goals as [a |]; simpl;
      try (split; [auto | reflexivity]).
    destruct (h >? a), (h <? a); split; try discriminate;
      intros [H | H]; discriminate.
  - intros h a -> ->. simpl.
    destruct (Z.gtb_spec h a) as [Hgt | Hle].
    + repeat split; intros; try discriminate; try lia; reflexivity.
    + destruct (Z.ltb_spec h a) as [Hlt | Hge].
      * repeat split; intros; try discriminate; try lia; reflexivity.
      * repeat split; intros; try discriminate; try lia; reflexivity.
Qed.

(** X4: [get_headers] uses API_FOOTBALL_KEY when it is set and not empty,
    else APISPORTS_KEY when that one is set and not empty; it gives no
    headers exactly when both are unset or empty, and the key it gives is
    never empty. *)
Theorem get_headers_spec : forall w,
  (get_headers w = None <->
   unset (env_API_FOOTBALL_KEY w) /\ unset (env_APISPORTS_KEY w))
  /\ (forall k, env_API_FOOTBALL_KEY w = Some k -> k <> EmptyString ->
       get_headers w = Some k)
  /\ (forall k, unset (env_API_FOOTBALL_KEY w) ->
       env_APISPORTS_KEY w = Some k -> k <> EmptyString ->
       get_headers w = Some k)
  /\ (forall k, get_headers w = Some k -> k <> EmptyString).
Proof.
  intros w. unfold get_headers, getenv_or, unset.
  destruct (env_API_FOOTBALL_KEY w) as [[| c1 s1] |],
           (env_APISPORTS_KEY w) as [[| c2 s2] |]; simpl;
    (split; [split; [intros H; try discriminate; split; auto
                    | intros [[H1 | H1] [H2 | H2]]; try discriminate; reflexivity]
            | split; [intros k E Hne; inversion E; subst;
                      try (elim Hne; reflexivity); reflexivity
                     | split; [intros k [H1 | H1] E Hne; try discriminate;
                               inversion E; subst;
                               try (elim Hne; reflexivity); reflexivity
                              | intros k E; inversion E; discriminate]]]).
Qed.

(** *** Further properties: [api_get] *)

(** One attempt answered by an accepted reply. *)
Lemma api_get_body_success : forall path params w key r more data,
  get_headers w = Some key -> remote w = Reply r :: more ->
  status_code r < 300 -> json r = Some data ->
  api_get_body path params w
  = (Ok data, push (Requested path params) (consume w)).
Proof.
  intros path params w key r more data Hkey Hrem Hst Hjson.
  unfold api_get_body, bind, requests_get, raise, ret. rewrite Hkey, Hrem.
  destruct (Z.eqb_spec (status_code r) 429); [lia |].
  destruct (Z.geb_spec (status_code r) 300); [lia |].
  rewrite Hjson. reflexivity.
Qed.

Lemma retry_loop_success :
  forall (A : Type) (wait : Z -> Z) (f : M A) n attempt w a w1,
    f w = (Ok a, w1) ->
    retry_loop retry_if_exception_type_APIError wait n attempt f w = (Ok a, w1).
Proof. intros A wait f n attempt w a w1 E. destruct n; simpl; rewrite E; reflexivity. Qed.

Lemma retry_loop_other :
  forall (A : Type) (wait : Z -> Z) (f : M A) n attempt w e w1,
    f w = (Raise e, w1) -> retry_if_exception_type_APIError e = false ->
    retry_loop retry_if_exception_type_APIError wait n attempt f w = (Raise e, w1).
Proof.
  intros A wait f n attempt w e w1 E He.
  destruct n; simpl; rewrite E, He; reflexivity.
Qed.

Lemma api_get_success : forall path params w key r more data,
  get_headers w = Some key -> remote w = Reply r :: more ->
  status_code r < 300 -> json r = Some data ->
  api_get path params w = (Ok data, push (Requested path params) (consume w)).
Proof.
  intros path params w key r more data Hkey Hrem Hst Hjson.
  rewrite api_get_unfold. apply retry_loop_success.
  apply (api_get_body_success path params w key r more data); assumption.
Qed.

(** X5: with a key configured, [api_get] returns the body of the first
    accepted reply (status below 300, decodable body) provided at most two
    replies with a status of 300 or more come before it: at once and
    without sleeping when it is the first reply, after sleeping 1 second
    when one failure precedes it, after sleeping 1 then 2 seconds when two
    do; it sends one request per reply consumed. *)
Theorem api_get_recovers : forall path params w key r data more,
  get_headers w = Some key -> status_code r < 300 -> json r = Some data ->
  (remote w = Reply r :: more ->
   api_get path params w = (Ok data, push (Requested path params) (consume w)))
  /\ (forall f1,
       remote w = Reply f1 :: Reply r :: more -> 300 <= status_code f1 ->
       fst (api_get path params w) = Ok data /\
       remote (snd (api_get path params w)) = more /\
       trace (snd (api_get path params w))
       = [Requested path params; Slept 1000; Requested path params] ++ trace w)%list
  /\ (forall f1 f2,
       remote w = Reply f1 :: Reply f2 :: Reply r :: more ->
       300 <= status_code f1 -> 300 <= status_code f2 ->
       fst (api_get path params w) = Ok data /\
       remote (snd (api_get path params w)) = more /\
       trace (snd (api_get path params w))
       = [Requested path params; Slept 2000; Requested path params;
          Slept 1000; Requested path params] ++ trace w)%list.
Proof.
  intros path params w key r data more Hkey Hst Hjson.
  split; [| split].
  - intros Hrem. apply (api_get_success path params w key r more data); assumption.
  - intros f1 Hrem H1. rewrite api_get_unfold.
    destruct (api_get_body_failure path params w key f1 _ Hkey Hrem H1) as [m1 E1].
    rewrite (retry_loop_again _ _ _ _ _ _ _ _ E1).
    set (w1 := push (Slept (1000 * wait_exponential 1 1 8 1))
                 (push (Requested path params) (consume w))).
    assert (Hkey1 : get_headers w1 = Some key) by exact Hkey.
    assert (Hrem1 : remote w1 = Reply r :: more)
      by (unfold w1; simpl; rewrite Hrem; reflexivity).
    rewrite (retry_loop_success _ _ _ _ _ _ _ _
               (api_get_body_success path params w1 key r more data
                  Hkey1 Hrem1 Hst Hjson)).
    unfold w1. simpl. rewrite Hrem. auto.
  - intros f1 f2 Hrem H1 H2. rewrite api_get_unfold.
    destruct (api_get_body_failure path params w key f1 _ Hkey Hrem H1) as [m1 E1].
    rewrite (retry_loop_again _ _ _ _ _ _ _ _ E1).
    set (w1 := push (Slept (1000 * wait_exponential 1 1 8 1))
                 (push (Requested path params) (consume w))).
    assert (Hkey1 : get_headers w1 = Some key) by exact Hkey.
    assert (Hrem1 : remote w1 = Reply f2 :: Reply r :: more)
      by (unfold w1; simpl; rewrite Hrem; reflexivity).
    destruct (api_get_body_failure path params w1 key f2 _ Hkey1 Hrem1 H2) as [m2 E2].
    rewrite (retry_loop_again _ _ _ _ _ _ _ _ E2).
    set (w2 := push (Slept (1000 * wait_exponential 1 1 8 (1 + 1)))
                 (push (Requested path params) (consume w1))).
    assert (Hkey2 : get_headers w2 = Some key) by exact Hkey.
    assert (Hrem2 : remote w2 = Reply r :: more)
      by (unfold w2, w1; simpl; rewrite Hrem; reflexivity).
    rewrite (retry_loop_success _ _ _ _ _ _ _ _
               (api_get_body_success path params w2 key r more data
                  Hkey2 Hrem2 Hst Hjson)).
    unfold w2, w1. simpl. rewrite Hrem. auto.
Qed.

(** X6: a failure that is not an [APIError] is not retried: with a key
    configured, a network failure on the first request, a remote that
    gives no reply, or a reply below 300 whose body does not decode makes
    [api_get] raise that exception after one request and no sleep. *)
Theorem api_get_no_retry_on_other_errors : forall path params w key,
  get_headers w = Some key ->
  (forall more, remote w = NetworkFailure :: more ->
     api_get path params w
     = (Raise RequestException, push (Requested path params) (consume w)))
  /\ (remote w = [] ->
      api_get path params w
      = (Raise RequestException, push (Requested path params) (consume w)))
  /\ (forall r more,
       remote w = Reply r :: more -> status_code r < 300 -> json r = None ->
       api_get path params w
       = (Raise JSONDecodeError, push (Requested path params) (consume w))).
Proof.
  intros path params w key Hkey. split; [| split].
  - intros more Hrem. rewrite api_get_unfold.
    apply retry_loop_other; [| reflexivity].
    unfold api_get_body, bind, requests_get. rewrite Hkey, Hrem. reflexivity.
  - intros Hrem. rewrite api_get_unfold.
    apply retry_loop_other; [| reflexivity].
    unfold api_get_body, bind, requests_get. rewrite Hkey, Hrem. reflexivity.
  - intros r more Hrem Hst Hjson. rewrite api_get_unfold.
    apply retry_loop_other; [| reflexivity].
    unfold api_get_body, bind, requests_get, raise. rewrite Hkey, Hrem.
    destruct (Z.eqb_spec (status_code r) 429); [lia |].
    destruct (Z.geb_spec (status_code r) 300); [lia |].
    rewrite Hjson. reflexivity.
Qed.

(** *** Further properties: [pick_prematch_1x2] *)

(** X7: on a missing or empty response [pick_prematch_1x2] returns the
    all-absent triple without looking at the kickoff string, even a
    missing or unparsable one; on a non-empty response a missing kickoff
    raises [AttributeError] and an unparsable one [ValueError], whatever
    the records are; with a kickoff that parses, a triple is returned when
    every update of the market that parses can be compared with kickoff,
    and [TypeError] is raised as soon as one cannot (one of the two carries
    an offset and the other none). *)
Theorem pick_prematch_kickoff_errors : forall odds_resp kickoff_iso,
  (get_or (response odds_resp) [] = [] ->
   pick_prematch_1x2 odds_resp kickoff_iso = Ok none3)
  /\ (get_or (response odds_resp) [] <> [] ->
      (kickoff_iso = None ->
       pick_prematch_1x2 odds_resp kickoff_iso = Raise AttributeError) /\
      (forall iso, kickoff_iso = Some iso ->
         fromisoformat (PyStr.replace_Z iso) = None ->
         pick_prematch_1x2 odds_resp kickoff_iso = Raise ValueError) /\
      (forall iso kickoff, kickoff_iso = Some iso ->
         fromisoformat (PyStr.replace_Z iso) = Some kickoff ->
         ((forall r, In r (records (get_or (response odds_resp) [])) ->
                     clashes kickoff r = false) ->
          exists t, pick_prematch_1x2 odds_resp kickoff_iso = Ok t) /\
         ((exists r, In r (records (get_or (response odds_resp) [])) /\
                     clashes kickoff r = true) ->
          pick_prematch_1x2 odds_resp kickoff_iso = Raise TypeError))).
Proof.
  intros odds_resp kickoff_iso. split.
  - intros E. unfold pick_prematch_1x2. rewrite E. reflexivity.
  - intros Hne. split; [| split].
    + intros ->. unfold pick_prematch_1x2.
      destruct (get_or (response odds_resp) []) as [| fx resp];
        [elim Hne; reflexivity | reflexivity].
    + intros iso -> E. unfold pick_prematch_1x2.
      destruct (get_or (response odds_resp) []) as [| fx resp];
        [elim Hne; reflexivity |].
      rewrite E. reflexivity.
    + intros iso kickoff -> E. split.
      * intros Hall. rewrite (pick_comparable odds_resp iso kickoff E Hall).
        eexists. reflexivity.
      * intros (r & Hin & Hc). rewrite (pick_records odds_resp iso kickoff E).
        assert (Hex : existsb (clashes kickoff)
                        (records (get_or (response odds_resp) [])) = true)
          by (apply existsb_exists; exists r; split; assumption).
        rewrite Hex. reflexivity.
Qed.

(** X8: the triple returned is the all-absent one or carries at least one
    price that is present and not a zero: a triple of zeros only, or of
    zeros and absent prices, is never returned. *)
Theorem pick_prematch_result_truthy : forall odds_resp kickoff_iso t,
  pick_prematch_1x2 odds_resp kickoff_iso = Ok t ->
  t = none3 \/
  nonzero (price_H t) \/ nonzero (price_D t) \/ nonzero (price_A t).
Proof.
  intros odds_resp kickoff_iso t E.
  destruct (get_or (response odds_resp) []) as [| fx resp] eqn:Er.
  - left. unfold pick_prematch_1x2 in E. rewrite Er in E. congruence.
  - destruct kickoff_iso as [iso |];
      [| unfold pick_prematch_1x2 in E; rewrite Er in E; discriminate].
    destruct (fromisoformat (PyStr.replace_Z iso)) as [kickoff |] eqn:Ek;
      [| unfold pick_prematch_1x2 in E; rewrite Er, Ek in E; discriminate].
    rewrite (pick_records odds_resp iso kickoff Ek) in E.
    destruct (existsb (clashes kickoff) (records (get_or (response odds_resp) [])));
      [discriminate |].
    selected_cases kickoff (records (get_or (response odds_resp) [])) Hsel.
    destruct Hsel as [l _ | l1 r l2 dt t' Hr _ _].
    + left. simpl in E. congruence.
    + right. simpl in E. inversion E; subst t'.
      apply candidate_qualifies in Hr. destruct Hr as [(_ & _ & Ht) ->].
      exact Ht.
Qed.

(** What the loop holds is a candidate of the list that no candidate
    exceeds. *)
Lemma selected_is_latest : forall kickoff l dt t,
  selected kickoff l (Some dt, t) ->
  (exists r, In r l /\ candidate kickoff r = Some (dt, t)) /\
  (forall r' dt' t', In r' l -> candidate kickoff r' = Some (dt', t') -> dt' <= dt).
Proof.
  intros kickoff l dt t Hsel.
  inversion Hsel as [| l1 r l2 dt0 t0 Hr Hbefore Hafter]; subst.
  split.
  - exists r. split; [apply in_or_app; right; left; reflexivity | assumption].
  - intros r' dt' t' Hin Hc.
    apply in_app_or in Hin. destruct Hin as [Hin | [<- | Hin]].
    + specialize (Hbefore _ _ _ Hin Hc). lia.
    + rewrite Hr in Hc. inversion Hc. lia.
    + apply (Hafter _ _ _ Hin Hc).
Qed.

Lemma selected_nothing : forall kickoff l t,
  selected kickoff l (None, t) ->
  t = none3 /\ forall r, In r l -> candidate kickoff r = None.
Proof.
  intros kickoff l t Hsel. inversion Hsel; subst. split; [reflexivity | assumption].
Qed.

Lemma existsb_perm : forall (A : Type) (p : A -> bool) l l',
  Permutation l l' -> existsb p l = existsb p l'.
Proof.
  intros A p l l' Hperm. induction Hperm; simpl.
  - reflexivity.
  - rewrite IHHperm. reflexivity.
  - destruct (p x), (p y); reflexivity.
  - congruence.
Qed.

(** X9: the order of the records matters only through ties: for two
    responses whose records are a rearrangement of each other (bookmakers
    or fixtures listed in another order), and in which qualifying records
    with the same update instant carry the same prices, the same triple is
    returned. *)
Theorem pick_prematch_order_independent : forall odds_resp odds_resp' iso kickoff,
  fromisoformat (PyStr.replace_Z iso) = Some kickoff ->
  Permutation (records (get_or (response odds_resp) []))
              (records (get_or (response odds_resp') [])) ->
  (forall r1 r2 dt,
     In r1 (records (get_or (response odds_resp) [])) ->
     In r2 (records (get_or (response odds_resp) [])) ->
     qualifies kickoff r1 dt -> qualifies kickoff r2 dt ->
     extract_prices (snd r1) = extract_prices (snd r2)) ->
  pick_prematch_1x2 odds_resp (Some iso) = pick_prematch_1x2 odds_resp' (Some iso).
Proof.
  intros odds_resp odds_resp' iso kickoff Hk Hperm Hties.
  rewrite (pick_records odds_resp iso kickoff Hk).
  rewrite (pick_records odds_resp' iso kickoff Hk).
  set (l := records (get_or (response odds_resp) [])) in *.
  set (l' := records (get_or (response odds_resp') [])) in *.
  rewrite <- (existsb_perm _ (clashes kickoff) l l' Hperm).
  destruct (existsb (clashes kickoff) l); [reflexivity |].
  pose proof (selected_fold kickoff l) as Hs.
  pose proof (selected_fold kickoff l') as Hs'.
  destruct (fold_left (visit_held kickoff) l (None, none3)) as [[dt |] t];
    destruct (fold_left (visit_held kickoff) l' (None, none3)) as [[dt' |] t'];
    simpl.
  - destruct (selected_is_latest _ _ _ _ Hs) as [(r & Hin & Hr) Hmax].
    destruct (selected_is_latest _ _ _ _ Hs') as [(r' & Hin' & Hr') Hmax'].
    assert (Hin2 : In r' l) by (apply (Permutation_in _ (Permutation_sym Hperm)); assumption).
    assert (Hin3 : In r l') by (apply (Permutation_in _ Hperm); assumption).
    assert (Hle : dt' <= dt) by (apply (Hmax r' dt' t' Hin2 Hr')).
    assert (Hge : dt <= dt') by (apply (Hmax' r dt t Hin3 Hr)).
    assert (dt' = dt) by lia. subst dt'.
    apply candidate_qualifies in Hr, Hr'.
    destruct Hr as [Hq ->], Hr' as [Hq' ->].
    rewrite <- !extract_prices_quoted.
    rewrite (Hties r r' dt Hin Hin2 Hq Hq'). reflexivity.
  - destruct (selected_is_latest _ _ _ _ Hs) as [(r & Hin & Hr) _].
    destruct (selected_nothing _ _ _ Hs') as [_ Hnone].
    rewrite (Hnone r (Permutation_in _ Hperm Hin)) in Hr. discriminate.
  - destruct (selected_is_latest _ _ _ _ Hs') as [(r' & Hin' & Hr') _].
    destruct (selected_nothing _ _ _ Hs) as [_ Hnone].
    rewrite (Hnone r' (Permutation_in _ (Permutation_sym Hperm) Hin')) in Hr'.
    discriminate.
  - destruct (selected_nothing _ _ _ Hs) as [-> _].
    destruct (selected_nothing _ _ _ Hs') as [-> _]. reflexivity.
Qed.

(** X10: a bet of another market, and a record whose bookmaker has no
    update string, an empty one or one that does not parse, never
    influence the result: deleting such a record from the response leaves
    the triple returned unchanged, and a response made of such records
    only gives the all-absent triple. *)
Theorem pick_prematch_ignores_unusable : forall odds_resp iso kickoff,
  fromisoformat (PyStr.replace_Z iso) = Some kickoff ->
  let recs := records (get_or (response odds_resp) []) in
  let unusable (r : bookmaker * bet) :=
    is_match_winner (snd r) = false \/
    book_update (fst r) = None \/
    book_update (fst r) = Some EmptyString \/
    (exists s, book_update (fst r) = Some s /\
               fromisoformat (PyStr.replace_Z s) = None) in
  (forall l1 r l2 odds_resp',
     recs = (l1 ++ r :: l2)%list -> unusable r ->
     records (get_or (response odds_resp') []) = (l1 ++ l2)%list ->
     pick_prematch_1x2 odds_resp' (Some iso) = pick_prematch_1x2 odds_resp (Some iso))
  /\ ((forall r, In r recs -> unusable r) ->
      pick_prematch_1x2 odds_resp (Some iso) = Ok none3).
Proof.
  intros odds_resp iso kickoff Hk recs unusable.
  assert (Hparse : forall r, unusable r ->
            is_match_winner (snd r) = false \/
            parse_update (book_update (fst r)) = None).
  { intros r [Hm | [Hu | [Hu | (s & Hu & Hp)]]]; [left; assumption | | |];
      right; unfold parse_update; rewrite Hu; try reflexivity.
    destruct (PyStr.truthy s); [exact Hp | reflexivity]. }
  assert (Hskip : forall r, unusable r -> candidate kickoff r = None).
  { intros r Hu. unfold candidate.
    destruct (Hparse r Hu) as [-> | ->]; [reflexivity |].
    destruct (is_match_winner (snd r)); reflexivity. }
  assert (Hcalm : forall r, unusable r -> clashes kickoff r = false).
  { intros r Hu. unfold clashes.
    destruct (Hparse r Hu) as [-> | ->]; [reflexivity | apply andb_false_r]. }
  split.
  - intros l1 r l2 odds_resp' Hl Hu Hl'.
    rewrite (pick_records odds_resp iso kickoff Hk).
    rewrite (pick_records odds_resp' iso kickoff Hk).
    fold recs. rewrite Hl, Hl'.
    rewrite (existsb_delete _ (clashes kickoff) l1 r l2 (Hcalm r Hu)).
    rewrite (fold_skip kickoff l1 r l2 _ (Hskip r Hu)). reflexivity.
  - intros Hall. rewrite (pick_comparable odds_resp iso kickoff Hk).
    + fold recs. rewrite fold_none; [reflexivity |].
      intros r Hin. apply Hskip. auto.
    + intros r Hin. apply Hcalm. apply Hall. assumption.
Qed.

(** *** Further properties: labels *)

Lemma lower_char_space : forall c,
  PyStr.is_space (PyStr.lower_char c) = PyStr.is_space c.
Proof.
  intros [[] [] [] [] [] [] [] []]; reflexivity.
Qed.

Lemma lower_empty : forall s, PyStr.lower s = EmptyString <-> s = EmptyString.
Proof. intros [| c s]; simpl; split; intros H; try reflexivity; discriminate. Qed.

Lemma lstrip_lower : forall s, PyStr.lstrip (PyStr.lower s) = PyStr.lower (PyStr.lstrip s).
Proof.
  induction s as [| c s IH]; simpl; [reflexivity |].
  rewrite lower_char_space. destruct (PyStr.is_space c); [exact IH | reflexivity].
Qed.

Lemma rstrip_lower : forall s, PyStr.rstrip (PyStr.lower s) = PyStr.lower (PyStr.rstrip s).
Proof.
  induction s as [| c s IH]; simpl; [reflexivity |].
  rewrite IH, lower_char_space.
  destruct (PyStr.rstrip s) as [| c' s']; simpl.
  - destruct (PyStr.is_space c); reflexivity.
  - reflexivity.
Qed.

Lemma strip_lower : forall s, PyStr.strip (PyStr.lower s) = PyStr.lower (PyStr.strip s).
Proof. intros s. unfold PyStr.strip. rewrite lstrip_lower, rstrip_lower. reflexivity. Qed.

Lemma lstrip_spaces : forall pre s,
  all_space pre = true -> PyStr.lstrip (pre ++ s) = PyStr.lstrip s.
Proof.
  induction pre as [| c pre IH]; intros s H; simpl in *; [reflexivity |].
  apply andb_true_iff in H. destruct H as [Hc Hpre].
  rewrite Hc. apply IH. assumption.
Qed.

Lemma rstrip_spaces_only : forall post,
  all_space post = true -> PyStr.rstrip post = EmptyString.
Proof.
  induction post as [| c post IH]; intros H; simpl in *; [reflexivity |].
  apply andb_true_iff in H. destruct H as [Hc Hpost].
  rewrite (IH Hpost), Hc. reflexivity.
Qed.

Lemma rstrip_spaces : forall s post,
  all_space post = true -> PyStr.rstrip (s ++ post) = PyStr.rstrip s.
Proof.
  induction s as [| c s IH]; intros post H; simpl.
  - apply rstrip_spaces_only. assumption.
  - rewrite (IH post H). reflexivity.
Qed.

Lemma lstrip_append : forall s post,
  all_space post = true ->
  PyStr.rstrip (PyStr.lstrip (s ++ post)) = PyStr.rstrip (PyStr.lstrip s).
Proof.
  induction s as [| c s IH]; intros post H; simpl.
  - assert (E : PyStr.lstrip post = EmptyString).
    { induction post as [| c post IHp]; simpl in *; [reflexivity |].
      apply andb_true_iff in H. destruct H as [Hc Hpost].
      rewrite Hc. apply IHp. assumption. }
    rewrite E. reflexivity.
  - destruct (PyStr.is_space c).
    + apply IH. assumption.
    + change (String c s ++ post) with (String c (s ++ post)).
      change (PyStr.rstrip (String c (s ++ post)) = PyStr.rstrip (String c s)).
      simpl. rewrite (rstrip_spaces s post H). reflexivity.
Qed.

Lemma strip_padding : forall pre s post,
  all_space pre = true -> all_space post = true ->
  PyStr.strip (pre ++ s ++ post) = PyStr.strip s.
Proof.
  intros pre s post Hpre Hpost. unfold PyStr.strip.
  rewrite (lstrip_spaces pre _ Hpre). apply lstrip_append. assumption.
Qed.

(** X11: an outcome label is read up to surrounding whitespace and letter
    case: two pairs with the same price whose labels differ only by
    whitespace added around one of them and by the case of letters update
    the triple in the same way. *)
Theorem set_price_label_normalised : forall t val val' s s' pre post,
  op_value val = Some s ->
  op_value val' = Some (pre ++ s' ++ post) ->
  all_space pre = true -> all_space post = true ->
  PyStr.lower s = PyStr.lower s' ->
  op_odd val = op_odd val' ->
  label val' = label val /\ set_price t val' = set_price t val.
Proof.
  intros t val val' s s' pre post Hv Hv' Hpre Hpost Hcase Hodd.
  assert (Hlabel : label val' = label val).
  { unfold label. rewrite Hv, Hv'. simpl.
    rewrite (strip_padding pre s' post Hpre Hpost).
    rewrite <- !strip_lower, Hcase. reflexivity. }
  split; [exact Hlabel |].
  unfold set_price. rewrite Hlabel, Hodd. reflexivity.
Qed.

(** *** Further properties: rows *)

Lemma same_team_spec : forall name team_name,
  same_team name team_name = true <->
  exists n, name = Some n /\ n <> EmptyString /\
            PyStr.lower n = PyStr.lower team_name.
Proof.
  intros [n |] team_name; unfold same_team.
  - rewrite andb_true_iff, String.eqb_eq. split.
    + intros [Ht El]. exists n. repeat split; try assumption.
      intros ->. discriminate.
    + intros (m & Em & Hne & El). inversion Em; subst m. split; [| assumption].
      destruct n; [elim Hne; reflexivity | reflexivity].
  - split; [discriminate |]. intros (m & Em & _). discriminate.
Qed.

Lemma make_row_fields : forall f team_name t,
  let r := make_row f team_name t in
  Odds_H r = price_H t /\ Odds_D r = price_D t /\ Odds_A r = price_A t /\
  FixtureID r = fixture_id_of f /\
  DateUTC r = option_map DateStr (date_iso_of f) /\
  Home r = safe_get_team_name ts_home f /\ Away r = safe_get_team_name ts_away f /\
  HomeGoals r = fst (extract_score f) /\ AwayGoals r = snd (extract_score f) /\
  Outcome r = outcome_from_score (HomeGoals r) (AwayGoals r) /\
  TeamSide r =
    (if same_team (Home r) team_name then Some "Home"
     else if same_team (Away r) team_name then Some "Away" else None) /\
  TeamOdds r =
    (if same_team (Home r) team_name then price_H t
     else if same_team (Away r) team_name then price_A t else None).
Proof.
  intros f team_name [[H D] A]. unfold make_row. simpl.
  destruct (same_team (safe_get_team_name ts_home f) team_name);
    [| destruct (same_team (safe_get_team_name ts_away f) team_name)];
    repeat split; reflexivity.
Qed.

(** X12: the side of the subject team in a row is Home when the fixture's
    home name is present, not empty and equal to the team name up to letter
    case (also when the away name matches too), Away when only the away
    name is, and absent otherwise; the team's price is then the Home price,
    the Away price, or absent; the three prices of the row are those of the
    triple and its outcome is the one of its goal counts. *)
Theorem make_row_team_side : forall f team_name t,
  let r := make_row f team_name t in
  let matches (name : option string) :=
    exists n, name = Some n /\ n <> EmptyString /\
              PyStr.lower n = PyStr.lower team_name in
  (matches (Home r) -> TeamSide r = Some "Home" /\ TeamOdds r = price_H t)
  /\ (~ matches (Home r) -> matches (Away r) ->
      TeamSide r = Some "Away" /\ TeamOdds r = price_A t)
  /\ (~ matches (Home r) -> ~ matches (Away r) ->
      TeamSide r = None /\ TeamOdds r = None)
  /\ (Odds_H r, Odds_D r, Odds_A r) = t
  /\ row_consistent r.
Proof.
  intros f team_name t r matches.
  destruct (make_row_fields f team_name t)
    as (EH & ED & EA & _ & _ & _ & _ & _ & _ & EO & ES & ET).
  fold r in EH, ED, EA, EO, ES, ET.
  assert (Hm : forall name, same_team name team_name = true <-> matches name)
    by (intros name; apply same_team_spec).
  split; [| split; [| split; [| split]]].
  - intros Hh. apply Hm in Hh. rewrite ES, ET, Hh. auto.
  - intros Hh Ha. apply Hm in Ha.
    destruct (same_team (Home r) team_name) eqn:E;
      [elim Hh; apply Hm; assumption |].
    rewrite ES, ET, Ha. auto.
  - intros Hh Ha.
    destruct (same_team (Home r) team_name) eqn:E;
      [elim Hh; apply Hm; assumption |].
    destruct (same_team (Away r) team_name) eqn:E';
      [elim Ha; apply Hm; assumption |].
    rewrite ES, ET. auto.
  - rewrite EH, ED, EA. destruct t as [[H D] A]. reflexivity.
  - split; [exact EO |].
    rewrite ES, ET, EH, EA.
    destruct (same_team (Home r) team_name);
      [| destruct (same_team (Away r) team_name)]; auto.
Qed.

Lemma make_row_consistent : forall f team_name t,
  row_consistent (make_row f team_name t).
Proof.
  intros f team_name t.
  destruct (make_row_fields f team_name t)
    as (EH & _ & EA & _ & _ & _ & _ & _ & _ & EO & ES & ET).
  split; [exact EO |]. rewrite ES, ET, EH, EA.
  destruct (same_team _ team_name); [| destruct (same_team _ team_name)]; auto.
Qed.

(** *** Further properties: [build_dataframe] *)

(** Whatever the odds requests do, the loop appends one row per fixture,
    in the order of the fixtures. *)
Lemma build_rows_shape : forall fixtures team_name fetch_odds rows w out w',
  build_rows fixtures team_name fetch_odds rows w = (Ok out, w') ->
  exists ts,
    List.length ts = List.length fixtures /\
    out = (rows ++ rows_of team_name fixtures ts)%list.
Proof.
  induction fixtures as [| f rest IH]; intros team_name fetch_odds rows w out w' E.
  - simpl in E. unfold ret in E. inversion E; subst.
    exists []. split; [reflexivity |]. unfold rows_of. simpl.
    rewrite app_nil_r. reflexivity.
  - simpl in E. unfold bind in E.
    destruct (odds_step f fetch_odds w) as [[r | e] w1]; [| discriminate].
    apply IH in E. destruct E as (ts & Hlen & ->).
    exists (fst r :: ts). split; [simpl; congruence |].
    unfold rows_of. simpl. rewrite <- app_assoc. reflexivity.
Qed.

Lemma date_le_total : forall a b, date_le a b = false -> date_le b a = true.
Proof.
  intros a b. unfold date_le.
  destruct (date_of a) as [x |], (date_of b) as [y |]; try discriminate; try reflexivity.
  intros H. apply Z.leb_gt in H. apply Z.leb_le. lia.
Qed.

Lemma date_le_trans : forall a b c,
  date_le a b = true -> date_le b c = true -> date_le a c = true.
Proof.
  intros a b c. unfold date_le.
  destruct (date_of a) as [x |], (date_of b) as [y |], (date_of c) as [z |];
    try discriminate; try reflexivity.
  intros H1 H2. apply Z.leb_le in H1, H2. apply Z.leb_le. lia.
Qed.

(** The order the sort uses refines the order of the dates, whatever it
    does with equal dates. *)
Lemma sort_le_date : forall df a b, sort_le df a b = true -> date_le a b = true.
Proof.
  intros df a b. unfold sort_le. destruct (date_le a b); [reflexivity | discriminate].
Qed.

Lemma sort_le_total : forall df a b, sort_le df a b = false -> date_le b a = true.
Proof.
  intros df a b. unfold sort_le. destruct (date_le a b) eqn:E.
  - destruct (date_le b a); [reflexivity | discriminate].
  - intros _. apply date_le_total. assumption.
Qed.

Lemma insert_by_sorted_under : forall (A : Type) (le cmp : A -> A -> bool),
  (forall x y, cmp x y = true -> le x y = true) ->
  (forall x y, cmp x y = false -> le y x = true) ->
  (forall x y z, le x y = true -> le y z = true -> le x z = true) ->
  forall x l,
    StronglySorted (fun a b => le a b = true) l ->
    StronglySorted (fun a b => le a b = true) (insert_by cmp x l).
Proof.
  intros A le cmp Hsound Htotal Htrans x l Hs.
  induction Hs as [| y l Hs IH Hy]; simpl.
  - repeat constructor.
  - destruct (cmp x y) eqn:E.
    + constructor; [constructor; assumption |].
      constructor; [apply Hsound; assumption |].
      rewrite Forall_forall in *. intros z Hz.
      apply (Htrans x y z); [apply Hsound; assumption | auto].
    + constructor; [assumption |].
      rewrite Forall_forall in *. intros z Hz.
      apply (Permutation_in _ (insert_by_perm A cmp x l)) in Hz.
      destruct Hz as [<- | Hz]; [apply Htotal; assumption | auto].
Qed.

Lemma sort_by_sorted_under : forall (A : Type) (le cmp : A -> A -> bool),
  (forall x y, cmp x y = true -> le x y = true) ->
  (forall x y, cmp x y = false -> le y x = true) ->
  (forall x y z, le x y = true -> le y z = true -> le x z = true) ->
  forall l, StronglySorted (fun a b => le a b = true) (sort_by cmp l).
Proof.
  intros A le cmp Hsound Htotal Htrans l. induction l as [| x l IH]; simpl.
  - constructor.
  - apply (insert_by_sorted_under A le cmp); assumption.
Qed.

Lemma rows_of_ids : forall team_name fixtures ts,
  List.length ts = List.length fixtures ->
  map FixtureID (rows_of team_name fixtures ts) = map fixture_id_of fixtures.
Proof.
  intros team_name fixtures. unfold rows_of.
  induction fixtures as [| f rest IH]; intros [| t ts] Hlen; simpl in *;
    try discriminate; [reflexivity |].
  rewrite IH by congruence. f_equal.
  destruct (make_row_fields f team_name t) as (_ & _ & _ & E & _). exact E.
Qed.

Lemma rows_of_length : forall team_name fixtures ts,
  List.length ts = List.length fixtures ->
  List.length (rows_of team_name fixtures ts) = List.length fixtures.
Proof.
  intros team_name fixtures ts Hlen. unfold rows_of.
  rewrite length_map, length_combine, Hlen. apply Nat.min_id.
Qed.

Lemma rows_of_consistent : forall team_name fixtures ts r,
  In r (rows_of team_name fixtures ts) -> row_consistent r.
Proof.
  intros team_name fixtures ts r Hin. unfold rows_of in Hin.
  apply in_map_iff in Hin. destruct Hin as ([f t] & <- & _).
  apply make_row_consistent.
Qed.

(** The conversion touches the date cells only. *)
Lemma convert_dates_ids : forall stamp rows,
  map FixtureID (convert_dates stamp rows) = map FixtureID rows.
Proof.
  intros stamp rows. unfold convert_dates. rewrite map_map. reflexivity.
Qed.

Lemma convert_dates_in : forall stamp rows r,
  In r (convert_dates stamp rows) ->
  convertible r = true /\ exists r0, In r0 rows /\ r = set_DateUTC (DateUTC r) r0.
Proof.
  intros stamp rows r Hin. unfold convert_dates in Hin.
  apply in_map_iff in Hin. destruct Hin as (r0 & <- & Hin). split.
  - unfold convertible, converted. simpl.
    destruct (DateUTC r0) as [c |]; [| reflexivity].
    destruct (stamp c); reflexivity.
  - exists r0. split; [assumption | reflexivity].
Qed.

Lemma set_DateUTC_consistent : forall c r,
  row_consistent r -> row_consistent (set_DateUTC c r).
Proof. intros c r H. exact H. Qed.

(** What [sorted_frame] returns when it returns. *)
Lemma sorted_frame_inv : forall rows df,
  sorted_frame rows = Ok df ->
  (rows = [] /\ df = []) \/
  exists stamp,
    rows <> [] /\ to_datetime (map DateUTC rows) = Some stamp /\
    one_kind (convert_dates stamp rows) = true /\
    df = sort_by (sort_le (convert_dates stamp rows)) (convert_dates stamp rows).
Proof.
  intros rows df E. unfold sorted_frame in E.
  destruct rows as [| r0 rows']; [left; split; [reflexivity | congruence] |].
  right.
  destruct (to_datetime (map DateUTC (r0 :: rows'))) as [stamp |]; [| discriminate].
  exists stamp. cbv zeta in E.
  destruct (one_kind (convert_dates stamp (r0 :: rows'))); [| discriminate].
  split; [discriminate | split; [reflexivity | split; [reflexivity | congruence]]].
Qed.

Lemma sorted_frame_spec : forall rows df,
  sorted_frame rows = Ok df ->
  Permutation (map FixtureID df) (map FixtureID rows)
  /\ StronglySorted date_le_prop df
  /\ (forall r, In r df ->
        convertible r = true /\
        exists r0, In r0 rows /\ r = set_DateUTC (DateUTC r) r0).
Proof.
  intros rows df E. apply sorted_frame_inv in E.
  destruct E as [[-> ->] | (stamp & _ & _ & _ & ->)].
  - split; [constructor | split; [constructor | intros r []]].
  - pose proof (sort_by_perm row (sort_le (convert_dates stamp rows))
                  (convert_dates stamp rows)) as Hperm.
    split; [| split].
    + rewrite <- (convert_dates_ids stamp rows). apply Permutation_map. exact Hperm.
    + apply (sort_by_sorted_under row date_le (sort_le (convert_dates stamp rows))).
      * apply sort_le_date.
      * apply sort_le_total.
      * apply date_le_trans.
    + intros r Hin. apply (Permutation_in _ Hperm) in Hin.
      apply (convert_dates_in stamp rows r Hin).
Qed.

Lemma sorted_frame_sorts : forall rows stamp,
  rows <> [] -> to_datetime (map DateUTC rows) = Some stamp ->
  one_kind (convert_dates stamp rows) = true ->
  exists df, sorted_frame rows = Ok df /\ Permutation df (convert_dates stamp rows).
Proof.
  intros rows stamp Hne Hs Hk. unfold sorted_frame.
  destruct rows as [| r0 rows']; [elim Hne; reflexivity |].
  rewrite Hs. cbv zeta. rewrite Hk. eexists. split; [reflexivity |].
  apply sort_by_perm.
Qed.

Lemma sorted_frame_unconvertible : forall rows,
  rows <> [] -> to_datetime (map DateUTC rows) = None ->
  sorted_frame rows = Raise ValueError.
Proof.
  intros rows Hne Hs. unfold sorted_frame.
  destruct rows as [| r0 rows']; [elim Hne; reflexivity |].
  rewrite Hs. reflexivity.
Qed.

Lemma sorted_frame_mixed : forall rows stamp,
  rows <> [] -> to_datetime (map DateUTC rows) = Some stamp ->
  one_kind (convert_dates stamp rows) = false ->
  sorted_frame rows = Raise TypeError.
Proof.
  intros rows stamp Hne Hs Hk. unfold sorted_frame.
  destruct rows as [| r0 rows']; [elim Hne; reflexivity |].
  rewrite Hs. cbv zeta. rewrite Hk. reflexivity.
Qed.

(** X13: whenever [build_dataframe] returns a frame, with or without odds
    and whatever the remote service answered, the frame has exactly one
    row per fixture (the fixture identifiers of the rows are those of the
    fixtures, rearranged), the rows are in ascending order of their
    converted dates with the rows without a date last, every date string
    present was convertible, and every row is consistent: its outcome is
    the one of its goals and the team's price is the price of its side. *)
Theorem build_dataframe_one_row_per_fixture :
  forall fixtures team_name fetch_odds w df w',
    build_dataframe fixtures team_name fetch_odds w = (Ok df, w') ->
    List.length df = List.length fixtures
    /\ Permutation (map FixtureID df) (map fixture_id_of fixtures)
    /\ StronglySorted date_le_prop df
    /\ (forall r, In r df -> convertible r = true /\ row_consistent r).
Proof.
  intros fixtures team_name fetch_odds w df w' E.
  unfold build_dataframe, bind, lift in E.
  destruct (build_rows fixtures team_name fetch_odds [] w) as [[rows | e] w1] eqn:Er;
    [| discriminate].
  apply build_rows_shape in Er. destruct Er as (ts & Hlen & ->).
  cbn [app] in E.
  assert (Ef : sorted_frame (rows_of team_name fixtures ts) = Ok df) by congruence.
  clear E. apply sorted_frame_spec in Ef. destruct Ef as (Hperm & Hsorted & Hrows).
  rewrite (rows_of_ids team_name fixtures ts Hlen) in Hperm.
  split; [| split; [| split]].
  - rewrite <- (length_map FixtureID df), (Permutation_length Hperm).
    apply length_map.
  - exact Hperm.
  - exact Hsorted.
  - intros r Hin. destruct (Hrows r Hin) as (Hc & r0 & Hin0 & Er).
    split; [exact Hc |]. rewrite Er. apply set_DateUTC_consistent.
    apply (rows_of_consistent team_name fixtures ts r0 Hin0).
Qed.

Lemma build_rows_no_odds : forall fixtures team_name rows w,
  build_rows fixtures team_name false rows w
  = (Ok (rows ++ map (fun f => make_row f team_name none3) fixtures)%list, w).
Proof.
  induction fixtures as [| f rest IH]; intros team_name rows w; simpl.
  - rewrite app_nil_r. reflexivity.
  - unfold bind. simpl. rewrite IH, <- app_assoc. reflexivity.
Qed.

Lemma map_not_nil : forall (A B : Type) (g : A -> B) l, l <> [] -> map g l <> [].
Proof. intros A B g [| x l] H; [elim H; reflexivity | discriminate]. Qed.

(** X14: with [fetch_odds] off, [build_dataframe] sends no request, does
    not sleep and logs nothing (the world is left as it was).  Without
    fixtures it returns the empty frame.  Otherwise the date column is
    converted as a whole: when the conversion raises, [ValueError] is
    raised; when it gives naive and aware timestamps together, the sort
    raises [TypeError]; when it gives timestamps of one kind, the frame
    returned has the rows of the fixtures with their dates converted,
    rearranged.  Every row of a frame returned is without odds. *)
Theorem build_dataframe_without_odds : forall fixtures team_name w,
  let rows := map (fun f => make_row f team_name none3) fixtures in
  let result := fst (build_dataframe fixtures team_name false w) in
  snd (build_dataframe fixtures team_name false w) = w
  /\ (fixtures = [] -> result = Ok [])
  /\ (fixtures <> [] -> to_datetime (map DateUTC rows) = None ->
      result = Raise ValueError)
  /\ (forall stamp,
       fixtures <> [] -> to_datetime (map DateUTC rows) = Some stamp ->
       one_kind (convert_dates stamp rows) = false ->
       result = Raise TypeError)
  /\ (forall stamp,
       fixtures <> [] -> to_datetime (map DateUTC rows) = Some stamp ->
       one_kind (convert_dates stamp rows) = true ->
       exists df, result = Ok df /\ Permutation df (convert_dates stamp rows))
  /\ (forall df, result = Ok df ->
       List.length df = List.length fixtures /\
       forall r, In r df ->
         Odds_H r = None /\ Odds_D r = None /\ Odds_A r = None /\ TeamOdds r = None).
Proof.
  intros fixtures team_name w rows result.
  assert (Eb : build_dataframe fixtures team_name false w = (sorted_frame rows, w)).
  { unfold build_dataframe, bind. rewrite build_rows_no_odds. reflexivity. }
  unfold result. rewrite Eb. cbn [fst snd].
  split; [reflexivity | split; [| split; [| split; [| split]]]].
  - intros ->. reflexivity.
  - intros Hne Hs. apply sorted_frame_unconvertible; [| assumption].
    apply map_not_nil. assumption.
  - intros stamp Hne Hs Hk. apply (sorted_frame_mixed rows stamp); try assumption.
    apply map_not_nil. assumption.
  - intros stamp Hne Hs Hk. apply (sorted_frame_sorts rows stamp); try assumption.
    apply map_not_nil. assumption.
  - intros df E. apply sorted_frame_spec in E. destruct E as (Hperm & _ & Hrows).
    split.
    + rewrite <- (length_map FixtureID df), (Permutation_length Hperm).
      unfold rows. rewrite !length_map. reflexivity.
    + intros r Hin. destruct (Hrows r Hin) as (_ & r0 & Hin0 & ->).
      unfold rows in Hin0. apply in_map_iff in Hin0. destruct Hin0 as (f & <- & _).
      destruct (make_row_fields f team_name none3)
        as (EH & ED & EA & _ & _ & _ & _ & _ & _ & _ & _ & ET).
      unfold set_DateUTC. cbn [Odds_H Odds_D Odds_A TeamOdds].
      rewrite EH, ED, EA, ET.
      destruct (same_team _ team_name); [| destruct (same_team _ team_name)];
        repeat split; reflexivity.
Qed.

(** One turn of the loop whose odds request is served at the first
    attempt. *)
Lemma odds_step_success : forall f w key r more,
  get_headers w = Some key -> remote w = Reply r :: more -> served f r ->
  odds_step f true w
  = (Ok (odds_of f r, true),
     push (Slept 250)
       (push (Requested "/odds" (odds_params (fixture_id_of f))) (consume w))).
Proof.
  intros f w key r more Hkey Hrem (Hst & data & t & Hjson & Hpick).
  unfold odds_step, try_except_APIError, get_fixture_odds_1x2, bind.
  fold (fixture_id_of f). fold (date_iso_of f).
  rewrite (api_get_success "/odds" (odds_params (fixture_id_of f)) w key r more data
             Hkey Hrem Hst Hjson).
  unfold lift, odds_of. rewrite Hjson, Hpick. reflexivity.
Qed.

Lemma build_rows_cons : forall f rest team_name fetch_odds rows w,
  build_rows (f :: rest) team_name fetch_odds rows w
  = match odds_step f fetch_odds w with
    | (Ok r, w1) =>
        build_rows rest team_name (snd r)
          (rows ++ [make_row f team_name (fst r)])%list w1
    | (Raise e, w1) => (Raise e, w1)
    end.
Proof. reflexivity. Qed.

Lemma build_rows_with_odds : forall fixtures resps,
  Forall2 served fixtures resps ->
  forall team_name rows w key more,
    get_headers w = Some key ->
    remote w = (map Reply resps ++ more)%list ->
    exists w',
      build_rows fixtures team_name true rows w
      = (Ok (rows ++ map (fun p => make_row (fst p) team_name (odds_of (fst p) (snd p)))
                       (combine fixtures resps))%list, w')
      /\ get_headers w' = Some key
      /\ remote w' = more
      /\ trace w' = (flat_map odds_events (rev fixtures) ++ trace w)%list.
Proof.
  intros fixtures resps Hall.
  induction Hall as [| f r fixtures resps Hserved Hall IH];
    intros team_name rows w key more Hkey Hrem.
  - exists w. simpl. rewrite app_nil_r. auto.
  - rewrite build_rows_cons.
    rewrite (odds_step_success f w key r (map Reply resps ++ more) Hkey Hrem Hserved).
    cbn [fst snd].
    set (w1 := push (Slept 250)
                 (push (Requested "/odds" (odds_params (fixture_id_of f))) (consume w))).
    assert (Hkey1 : get_headers w1 = Some key) by exact Hkey.
    assert (Hrem1 : remote w1 = (map Reply resps ++ more)%list)
      by (unfold w1; simpl; rewrite Hrem; reflexivity).
    destruct (IH team_name (rows ++ [make_row f team_name (odds_of f r)])%list
                w1 key more Hkey1 Hrem1) as (w' & E & Hk' & Hr' & Ht').
    exists w'. split; [| split; [assumption | split; [assumption |]]].
    + rewrite E. simpl. rewrite <- app_assoc. reflexivity.
    + rewrite Ht'. simpl rev. rewrite flat_map_app. simpl flat_map.
      rewrite <- app_assoc. reflexivity.
Qed.

(** X15: with a key configured, when the odds request of every fixture is
    served at the first attempt (the reply is accepted and the selection
    raises nothing on it), [build_dataframe] sends exactly one odds request
    per fixture, in the order of the fixtures, sleeps a quarter of a second
    after each and consumes exactly those replies; the rows it then hands
    to the date conversion carry, each, the triple selected from that
    fixture's own reply.  When the conversion of the date column raises,
    [ValueError] is raised after those requests; when it gives timestamps
    of one kind, the frame returned has those rows with their dates
    converted, rearranged. *)
Theorem build_dataframe_with_odds : forall fixtures resps team_name w key more,
  get_headers w = Some key ->
  remote w = (map Reply resps ++ more)%list ->
  Forall2 served fixtures resps ->
  let rows := map (fun p => make_row (fst p) team_name (odds_of (fst p) (snd p)))
                (combine fixtures resps) in
  let result := fst (build_dataframe fixtures team_name true w) in
  let w' := snd (build_dataframe fixtures team_name true w) in
  remote w' = more
  /\ trace w' = (flat_map odds_events (rev fixtures) ++ trace w)%list
  /\ (fixtures = [] -> result = Ok [])
  /\ (fixtures <> [] -> to_datetime (map DateUTC rows) = None ->
      result = Raise ValueError)
  /\ (forall stamp,
       fixtures <> [] -> to_datetime (map DateUTC rows) = Some stamp ->
       one_kind (convert_dates stamp rows) = true ->
       exists df, result = Ok df /\ Permutation df (convert_dates stamp rows))
  /\ (forall df, result = Ok df ->
       List.length df = List.length fixtures /\
       forall r, In r df ->
         exists f resp,
           In (f, resp) (combine fixtures resps) /\
           FixtureID r = fixture_id_of f /\
           (Odds_H r, Odds_D r, Odds_A r) = odds_of f resp).
Proof.
  intros fixtures resps team_name w key more Hkey Hrem Hall rows result w'.
  destruct (build_rows_with_odds fixtures resps Hall team_name [] w key more Hkey Hrem)
    as (w1 & E & _ & Hr' & Ht').
  cbn [app] in E. fold rows in E.
  assert (Eb : build_dataframe fixtures team_name true w = (sorted_frame rows, w1)).
  { unfold build_dataframe, bind. rewrite E. reflexivity. }
  assert (Hlen : List.length rows = List.length fixtures).
  { unfold rows. rewrite length_map, length_combine.
    rewrite <- (Forall2_length Hall). apply Nat.min_id. }
  assert (Hne : fixtures <> [] -> rows <> []).
  { intros Hf Hr. apply Hf. rewrite Hr in Hlen.
    destruct fixtures; [reflexivity | discriminate]. }
  unfold result, w'. rewrite Eb. cbn [fst snd].
  split; [assumption | split; [assumption | split; [| split; [| split]]]].
  - intros Hf. rewrite Hf in Hlen.
    destruct rows; [reflexivity | discriminate].
  - intros Hf Hs. apply sorted_frame_unconvertible; auto.
  - intros stamp Hf Hs Hk. apply (sorted_frame_sorts rows stamp); auto.
  - intros df Ed. apply sorted_frame_spec in Ed. destruct Ed as (Hperm & _ & Hrows).
    split.
    + rewrite <- (length_map FixtureID df), (Permutation_length Hperm), length_map.
      exact Hlen.
    + intros r Hin. destruct (Hrows r Hin) as (_ & r0 & Hin0 & ->).
      unfold rows in Hin0. apply in_map_iff in Hin0.
      destruct Hin0 as ([f resp] & <- & Hin0).
      exists f, resp. split; [assumption |]. cbn [fst snd].
      destruct (make_row_fields f team_name (odds_of f resp))
        as (EH & ED & EA & EI & _).
      unfold set_DateUTC. cbn [Odds_H Odds_D Odds_A FixtureID].
      rewrite EH, ED, EA, EI.
      destruct (odds_of f resp) as [[H D] A]. split; reflexivity.
Qed.

(** *** Further properties: the summary *)

Lemma summary_counts : forall df out_path team_name date_from date_to,
  has_outcome df = true ->
  let s := sheet_summary (export_excel df out_path team_name date_from date_to) in
  s_Wins s = Some (count_if won df) /\
  s_Draws s = Some (count_if drawn df) /\
  s_Losses s = Some (count_if lost df).
Proof.
  intros df out_path team_name date_from date_to Hd s. unfold s. simpl. rewrite Hd.
  assert (Hw : count_if is_win df + count_if is_win_away df = count_if won df).
  { apply count_if_split. intros x H. unfold is_win, is_win_away in *.
    apply andb_true_iff in H. destruct H as [H _].
    rewrite (cell_is_exclusive _ "H" "A"); [reflexivity | discriminate | assumption]. }
  assert (Hl : count_if is_loss df + count_if is_loss_away df = count_if lost df).
  { apply count_if_split. intros x H. unfold is_loss, is_loss_away in *.
    apply andb_true_iff in H. destruct H as [H _].
    rewrite (cell_is_exclusive _ "A" "H"); [reflexivity | discriminate | assumption]. }
  rewrite Hw, Hl. auto.
Qed.

Lemma won_not_drawn : forall r, won r = true -> drawn r = false.
Proof.
  intros r H. unfold won, drawn in *.
  apply orb_true_iff in H. destruct H as [H | H];
    apply andb_true_iff in H; destruct H as [H _].
  - apply (cell_is_exclusive _ "H" "D"); [discriminate | assumption].
  - apply (cell_is_exclusive _ "A" "D"); [discriminate | assumption].
Qed.

Lemma won_or_drawn_not_lost : forall r, won r || drawn r = true -> lost r = false.
Proof.
  intros r H. unfold won, drawn, lost in *.
  destruct (Outcome r) as [o |], (TeamSide r) as [sd |]; simpl in *;
    try discriminate; try reflexivity.
  - destruct (String.eqb_spec o "H"), (String.eqb_spec o "A"),
             (String.eqb_spec o "D"), (String.eqb_spec sd "Home"),
             (String.eqb_spec sd "Away"); subst; simpl in *;
      try discriminate; try reflexivity.
  - destruct (String.eqb o "H"), (String.eqb o "A"); reflexivity.
Qed.

Lemma filter_all_in : forall (A : Type) (p : A -> bool) l,
  (forall x, In x l -> p x = true) -> filter p l = l.
Proof.
  intros A p l. induction l as [| x l IH]; intros Hp; simpl; [reflexivity |].
  rewrite (Hp x (or_introl eq_refl)), IH; [reflexivity |].
  intros y Hy. apply Hp. right. assumption.
Qed.

Lemma count_if_le : forall (A : Type) (p : A -> bool) l,
  0 <= count_if p l <= Z.of_nat (List.length l).
Proof.
  intros A p l. unfold count_if. split; [lia |].
  apply Nat2Z.inj_le. apply filter_length_le.
Qed.

(** X16: when the summary holds the three counts, they are not negative
    and Wins + Draws + Losses never exceeds Matches: every row is counted
    at most once; the sum equals Matches exactly when every row is a draw
    or a decided match with a known side, so a row without outcome, or a
    won or lost row whose team side is absent, is only in Matches. *)
Theorem summary_counts_bounded : forall df out_path team_name date_from date_to,
  has_outcome df = true ->
  let s := sheet_summary (export_excel df out_path team_name date_from date_to) in
  exists wins draws losses,
    s_Wins s = Some wins /\ s_Draws s = Some draws /\ s_Losses s = Some losses /\
    0 <= wins /\ 0 <= draws /\ 0 <= losses /\
    wins + draws + losses <= s_Matches s /\
    (wins + draws + losses = s_Matches s <->
     forall r, In r df -> decided_with_side r).
Proof.
  intros df out_path team_name date_from date_to Hd s.
  destruct (summary_counts df out_path team_name date_from date_to Hd)
    as (Ew & Ed & El).
  fold s in Ew, Ed, El.
  exists (count_if won df), (count_if drawn df), (count_if lost df).
  assert (Hsum : count_if won df + count_if drawn df + count_if lost df
                 = count_if (fun r => (won r || drawn r) || lost r) df).
  { rewrite (count_if_split row won drawn df won_not_drawn).
    apply (count_if_split row (fun r => won r || drawn r) lost df).
    apply won_or_drawn_not_lost. }
  assert (Hdec : forall r, ((won r || drawn r) || lost r) = true <-> decided_with_side r).
  { intros r. unfold won, drawn, lost, decided_with_side.
    destruct (cell_is (Outcome r) "H"), (cell_is (Outcome r) "A"),
             (cell_is (Outcome r) "D"), (cell_is (TeamSide r) "Home"),
             (cell_is (TeamSide r) "Away"); simpl;
      split; intros H; try reflexivity; try discriminate; auto;
      destruct H as [H | [[H | H] [H' | H']]]; discriminate. }
  repeat (split; [first [assumption | apply count_if_le] |]).
  split.
  - rewrite Hsum. apply count_if_le.
  - rewrite Hsum. unfold s. simpl s_Matches. unfold count_if. split.
    + intros E r Hin. apply Hdec.
      apply Nat2Z.inj in E.
      assert (Hall : forall l : list row,
                 List.length (filter (fun r => (won r || drawn r) || lost r) l)
                 = List.length l ->
                 forall x, In x l -> ((won x || drawn x) || lost x) = true).
      { induction l as [| y l IHl]; intros El' x Hx; [destruct Hx |].
        simpl in El'. destruct ((won y || drawn y) || lost y) eqn:Ey.
        - simpl in El'. destruct Hx as [<- | Hx]; [assumption |].
          apply IHl; [congruence | assumption].
        - pose proof (filter_length_le (fun r => (won r || drawn r) || lost r) l).
          simpl in El'. lia. }
      apply (Hall df E r Hin).
    + intros Hall. f_equal. f_equal. apply filter_all_in.
      intros x Hx. apply Hdec. apply Hall. assumption.
Qed.

(** *** Further properties: [main] *)

Lemma bind_ok_inv : forall (A B : Type) (m : M A) (k : A -> M B) w b w',
  bind m k w = (Ok b, w') ->
  exists a w1, m w = (Ok a, w1) /\ k a w1 = (Ok b, w').
Proof.
  intros A B m k w b w' E. unfold bind in E.
  destruct (m w) as [[a | e] w1]; [| discriminate].
  exists a, w1. auto.
Qed.

Lemma never_APIError_bind : forall (A B : Type) (m : M A) (k : A -> M B),
  never_APIError m -> (forall a, never_APIError (k a)) -> never_APIError (bind m k).
Proof.
  intros A B m k Hm Hk w msg. unfold bind.
  specialize (Hm w msg). destruct (m w) as [[a | e] w1]; simpl in *.
  - apply Hk.
  - intros E. inversion E; subst. apply Hm. reflexivity.
Qed.

Lemma never_APIError_ret : forall (A : Type) (a : A), never_APIError (ret a).
Proof. intros A a w msg. discriminate. Qed.

Lemma never_APIError_emit : forall ev, never_APIError (emit ev).
Proof. intros ev w msg. discriminate. Qed.

Lemma never_APIError_try : forall (A : Type) (body : M A) (handler : string -> M A),
  (forall msg, never_APIError (handler msg)) ->
  never_APIError (try_except_APIError body handler).
Proof.
  intros A body handler Hh w msg. unfold try_except_APIError.
  destruct (body w) as [[a | e] w1]; [discriminate |].
  destruct e; try discriminate. apply Hh.
Qed.

Lemma find_team_id_never_APIError : forall team_name,
  never_APIError (find_team_id team_name).
Proof.
  intros team_name. unfold find_team_id. apply never_APIError_bind.
  - intros w msg. apply api_get_never_APIError.
  - intros data. destruct (get_or (response data) []) as [| first rest].
    + apply never_APIError_ret.
    + destruct (find (exact_match team_name) (first :: rest));
        apply never_APIError_ret.
Qed.

Lemma list_fixtures_never_APIError :
  forall team_id date_from date_to league_name season,
    never_APIError (list_fixtures team_id date_from date_to league_name season).
Proof.
  intros. unfold list_fixtures. apply never_APIError_bind.
  - intros w msg. apply api_get_never_APIError.
  - intros data. apply never_APIError_ret.
Qed.

Lemma odds_step_never_APIError : forall f fetch_odds,
  never_APIError (odds_step f fetch_odds).
Proof.
  intros f fetch_odds. unfold odds_step.
  destruct fetch_odds; [| apply never_APIError_ret].
  apply never_APIError_try. intros msg. unfold odds_handler.
  destruct (String.eqb msg "NO_API_KEY"); [apply never_APIError_ret |].
  apply never_APIError_bind; [apply never_APIError_emit |].
  intros _. apply never_APIError_ret.
Qed.

Lemma build_rows_never_APIError : forall fixtures team_name fetch_odds rows,
  never_APIError (build_rows fixtures team_name fetch_odds rows).
Proof.
  induction fixtures as [| f rest IH]; intros team_name fetch_odds rows.
  - apply never_APIError_ret.
  - simpl. apply never_APIError_bind; [apply odds_step_never_APIError |].
    intros r. apply IH.
Qed.

Lemma sorted_frame_raises : forall rows e,
  sorted_frame rows = Raise e -> e = ValueError \/ e = TypeError.
Proof.
  intros rows e. unfold sorted_frame.
  destruct rows as [| r0 rows']; [discriminate |].
  destruct (to_datetime (map DateUTC (r0 :: rows'))) as [stamp |];
    [| intros E; inversion E; auto].
  cbv zeta. destruct (one_kind (convert_dates stamp (r0 :: rows')));
    [discriminate | intros E; inversion E; auto].
Qed.

Lemma build_dataframe_never_APIError : forall fixtures team_name fetch_odds,
  never_APIError (build_dataframe fixtures team_name fetch_odds).
Proof.
  intros. unfold build_dataframe.
  apply never_APIError_bind; [apply build_rows_never_APIError |].
  intros rows w msg. unfold lift. cbn [fst]. intros E.
  apply sorted_frame_raises in E. destruct E; discriminate.
Qed.

Lemma exn_of_library_not_APIError : forall e msg, exn_of_library e <> APIError msg.
Proof. intros [] msg; discriminate. Qed.

Lemma lift_library_never_APIError : forall (A : Type) (r : library_result A),
  never_APIError (lift_library r).
Proof.
  intros A [a | e] w msg; unfold lift_library; cbn [fst].
  - discriminate.
  - intros E. inversion E as [E']. apply (exn_of_library_not_APIError e msg E').
Qed.

Lemma open_writer_never_APIError : forall out_path,
  never_APIError (open_writer out_path).
Proof.
  intros out_path w msg. unfold open_writer.
  destruct (excel_writer w out_path) as [e |]; cbn [fst].
  - intros E. inversion E as [E']. apply (exn_of_library_not_APIError e msg E').
  - discriminate.
Qed.

Lemma to_excel_never_APIError : forall df, never_APIError (lift (to_excel df)).
Proof.
  intros df w msg. unfold lift, to_excel. cbn [fst].
  destruct (existsb tz_aware df); discriminate.
Qed.

Lemma save_never_APIError : forall df a team, never_APIError (save df a team).
Proof.
  intros. unfold save.
  apply never_APIError_bind; [apply open_writer_never_APIError | intros _].
  apply never_APIError_bind; [apply to_excel_never_APIError | intros _].
  apply never_APIError_bind; [apply never_APIError_emit | intros _].
  apply never_APIError_ret.
Qed.

Lemma main_api_never_APIError : forall a team, never_APIError (main_api a team).
Proof.
  intros a team. unfold main_api.
  apply never_APIError_bind; [apply never_APIError_emit | intros _].
  apply never_APIError_bind; [apply find_team_id_never_APIError | intros [id |]].
  - apply never_APIError_bind; [apply never_APIError_emit | intros _].
    apply never_APIError_bind; [apply never_APIError_emit | intros _].
    apply never_APIError_bind; [apply list_fixtures_never_APIError | intros fixtures].
    apply never_APIError_bind; [apply never_APIError_emit | intros _].
    apply never_APIError_bind; [apply never_APIError_emit | intros _].
    apply never_APIError_bind; [apply build_dataframe_never_APIError | intros df].
    apply save_never_APIError.
  - apply never_APIError_bind; [apply never_APIError_emit | intros _].
    apply never_APIError_ret.
Qed.

Lemma main_sample_never_APIError : forall src a team,
  never_APIError (main_sample src a team).
Proof.
  intros src a team. unfold main_sample.
  apply never_APIError_bind; [apply never_APIError_emit | intros _].
  destruct (sample_file src) as [csv |].
  - apply never_APIError_bind; [apply lift_library_never_APIError | intros df].
    apply never_APIError_bind; [apply lift_library_never_APIError | intros df'].
    apply save_never_APIError.
  - apply never_APIError_bind; [apply never_APIError_emit | intros _].
    apply never_APIError_ret.
Qed.

Lemma never_exit_1_bind : forall (A : Type) (m : M A) (k : A -> M run_end),
  (forall a, never_exit_1 (k a)) -> never_exit_1 (bind m k).
Proof.
  intros A m k Hk w. unfold bind.
  destruct (m w) as [[a | e] w1]; [apply Hk | discriminate].
Qed.

Lemma save_never_exit_1 : forall df a team, never_exit_1 (save df a team).
Proof.
  intros df a team. unfold save.
  do 3 (apply never_exit_1_bind; intros _).
  intros w. discriminate.
Qed.

Lemma main_api_never_exit_1 : forall a team, never_exit_1 (main_api a team).
Proof.
  intros a team. unfold main_api.
  apply never_exit_1_bind. intros _.
  apply never_exit_1_bind. intros [id |].
  - do 2 (apply never_exit_1_bind; intros _).
    apply never_exit_1_bind. intros fixtures.
    do 2 (apply never_exit_1_bind; intros _).
    apply never_exit_1_bind. intros df. apply save_never_exit_1.
  - apply never_exit_1_bind. intros _ w. discriminate.
Qed.

Lemma main_sample_never_exit_1 : forall src a team, never_exit_1 (main_sample src a team).
Proof.
  intros src a team. unfold main_sample.
  apply never_exit_1_bind. intros _.
  destruct (sample_file src) as [csv |].
  - apply never_exit_1_bind. intros df.
    apply never_exit_1_bind. intros df'. apply save_never_exit_1.
  - apply never_exit_1_bind. intros _ w. discriminate.
Qed.

(** [main] is its [try] body: the handler is never entered. *)
Lemma main_is_body : forall src a w,
  main src a w
  = (if notna (get_headers w)
     then main_api a (PyStr.strip (a_team a))
     else main_sample src a (PyStr.strip (a_team a))) w.
Proof.
  intros src a w. unfold main, try_except_APIError.
  set (body := if notna (get_headers w)
               then main_api a (PyStr.strip (a_team a))
               else main_sample src a (PyStr.strip (a_team a))).
  assert (Hb : never_APIError body).
  { unfold body. destruct (notna (get_headers w));
      [apply main_api_never_APIError | apply main_sample_never_APIError]. }
  specialize (Hb w). destruct (body w) as [[v | e] w1]; [reflexivity |].
  destruct e; try reflexivity. elim (Hb msg). reflexivity.
Qed.

Lemma main_with_key : forall src a w key,
  get_headers w = Some key ->
  main src a w = main_api a (PyStr.strip (a_team a)) w.
Proof. intros src a w key Hkey. rewrite main_is_body, Hkey. reflexivity. Qed.

Lemma main_no_key : forall src a w,
  get_headers w = None ->
  main src a w = main_sample src a (PyStr.strip (a_team a)) w.
Proof. intros src a w Hkey. rewrite main_is_body, Hkey. reflexivity. Qed.

(** X17: the [except APIError] clause of [main] is never entered: no run
    ends through its [sys.exit(1)] and no run ends on an [APIError]; with a
    key configured, three answers with a status of 300 or more to the team
    search leave [main] on an uncaught [RetryError]. *)
Theorem main_never_handles_APIError : forall src a w,
  fst (main src a w) <> Ok (Exited 1)
  /\ (forall msg, fst (main src a w) <> Raise (APIError msg))
  /\ (forall key r1 r2 r3 more,
       get_headers w = Some key ->
       remote w = Reply r1 :: Reply r2 :: Reply r3 :: more ->
       300 <= status_code r1 -> 300 <= status_code r2 -> 300 <= status_code r3 ->
       fst (main src a w) = Raise RetryError).
Proof.
  intros src a w. rewrite main_is_body. split; [| split].
  - destruct (notna (get_headers w));
      [apply main_api_never_exit_1 | apply main_sample_never_exit_1].
  - destruct (notna (get_headers w));
      [apply main_api_never_APIError | apply main_sample_never_APIError].
  - intros key r1 r2 r3 more Hkey Hrem H1 H2 H3.
    rewrite <- main_is_body, (main_with_key src a w key Hkey).
    unfold main_api, bind, log, emit, find_team_id, bind.
    rewrite (api_get_three_failures "/teams" _ (push _ w) key r1 r2 r3 more
               Hkey Hrem H1 H2 H3).
    reflexivity.
Qed.

(** X18: with a key configured, when the team search is served at the
    first attempt and returns no candidate, [main] ends through
    [sys.exit(2)] after that single request: it asks for no fixtures and no
    odds, does not sleep and writes no workbook. *)
Theorem main_team_not_found : forall src a w key r more data,
  get_headers w = Some key -> remote w = Reply r :: more ->
  status_code r < 300 -> json r = Some data ->
  get_or (response data) [] = [] ->
  fst (main src a w) = Ok (Exited 2)
  /\ remote (snd (main src a w)) = more
  /\ filter is_request (trace (snd (main src a w)))
     = Requested "/teams" [("search", PyStr.strip (a_team a))]
       :: filter is_request (trace w)
  /\ filter is_sleep (trace (snd (main src a w))) = filter is_sleep (trace w).
Proof.
  intros src a w key r more data Hkey Hrem Hst Hjson Hempty.
  rewrite (main_with_key src a w key Hkey).
  unfold main_api, bind, log, emit, find_team_id, bind.
  rewrite (api_get_success "/teams" _ (push _ w) key r more data Hkey Hrem Hst Hjson).
  rewrite Hempty. simpl. rewrite Hrem. auto.
Qed.

(** What [save] does, case by case. *)
Lemma save_cases : forall df a team w,
  match excel_writer w (a_out a) with
  | Some e => save df a team w = (Raise (exn_of_library e), w)
  | None =>
      if existsb tz_aware df
      then save df a team w = (Raise ValueError, w)
      else save df a team w
           = (Ok (Saved (a_out a)
                    (export_excel df (a_out a) team (a_date_from a) (a_date_to a))),
              push (Logged ("Saved Excel to " ++ a_out a)) w)
  end.
Proof.
  intros df a team w.
  unfold save, bind, open_writer, lift, to_excel, log, emit, ret.
  destruct (excel_writer w (a_out a)) as [e |]; [reflexivity |].
  destruct (existsb tz_aware df); reflexivity.
Qed.

Lemma save_ok_inv : forall df a team w out book w',
  save df a team w = (Ok (Saved out book), w') ->
  out = a_out a
  /\ book = export_excel df (a_out a) team (a_date_from a) (a_date_to a)
  /\ existsb tz_aware df = false
  /\ excel_writer w (a_out a) = None.
Proof.
  intros df a team w out book w' E.
  pose proof (save_cases df a team w) as Hc.
  destruct (excel_writer w (a_out a)) as [e |]; [rewrite Hc in E; discriminate |].
  destruct (existsb tz_aware df); rewrite Hc in E; [discriminate |].
  inversion E. auto.
Qed.

Lemma save_quiet : forall df a team w,
  remote (snd (save df a team w)) = remote w /\
  filter is_request (trace (snd (save df a team w))) = filter is_request (trace w) /\
  filter is_sleep (trace (snd (save df a team w))) = filter is_sleep (trace w) /\
  forall code, fst (save df a team w) <> Ok (Exited code).
Proof.
  intros df a team w. pose proof (save_cases df a team w) as Hc.
  destruct (excel_writer w (a_out a)) as [e |];
    [| destruct (existsb tz_aware df)]; rewrite Hc;
    (split; [reflexivity | split; [reflexivity | split; [reflexivity |]]]);
    intros code; discriminate.
Qed.

(** The fallback branch, case by case. *)
Lemma main_sample_cases : forall src a team w,
  let w0 := push (Logged "No API key found – using sample data (set API_FOOTBALL_KEY in .env for live data).") w in
  main_sample src a team w =
  match sample_file src with
  | None =>
      (Ok (Exited 3), push (Logged ("Sample file not found at " ++ sample_path src)) w0)
  | Some (Fails e) => (Raise (exn_of_library e), w0)
  | Some (Gives csv) =>
      match sample_select src team (a_date_from a) (a_date_to a) csv with
      | Fails e => (Raise (exn_of_library e), w0)
      | Gives df => save df a team w0
      end
  end.
Proof.
  intros src a team w w0. unfold main_sample, bind, log, emit, lift_library, ret.
  destruct (sample_file src) as [[csv | e] |]; try reflexivity.
  destruct (sample_select src team (a_date_from a) (a_date_to a) csv); reflexivity.
Qed.

(** X19: without a key configured [main] never touches the remote service
    (no request, no sleep, no reply consumed); it ends through
    [sys.exit(3)] exactly when the sample file is missing.  When reading
    the file raises, or when selecting its rows raises (the team name is
    read as a regular expression, the bounds as dates), that exception
    leaves [main].  Otherwise the selected rows are written: the exception
    of a writer that does not open leaves [main]; a date with a timezone
    among the rows makes the writing raise [ValueError]; and in the
    remaining case the workbook of the selected rows is saved under the
    output name given. *)
Theorem main_without_key : forall src a w,
  get_headers w = None ->
  let team := PyStr.strip (a_team a) in
  let select := sample_select src team (a_date_from a) (a_date_to a) in
  remote (snd (main src a w)) = remote w
  /\ filter is_request (trace (snd (main src a w))) = filter is_request (trace w)
  /\ filter is_sleep (trace (snd (main src a w))) = filter is_sleep (trace w)
  /\ (fst (main src a w) = Ok (Exited 3) <-> sample_file src = None)
  /\ (forall e, sample_file src = Some (Fails e) ->
       fst (main src a w) = Raise (exn_of_library e))
  /\ (forall csv e,
       sample_file src = Some (Gives csv) -> select csv = Fails e ->
       fst (main src a w) = Raise (exn_of_library e))
  /\ (forall csv df,
       sample_file src = Some (Gives csv) -> select csv = Gives df ->
       (forall e, excel_writer w (a_out a) = Some e ->
          fst (main src a w) = Raise (exn_of_library e))
       /\ (excel_writer w (a_out a) = None -> existsb tz_aware df = true ->
           fst (main src a w) = Raise ValueError)
       /\ (excel_writer w (a_out a) = None -> existsb tz_aware df = false ->
           fst (main src a w)
           = Ok (Saved (a_out a)
                   (export_excel df (a_out a) team (a_date_from a) (a_date_to a))))).
Proof.
  intros src a w Hkey team select. rewrite (main_no_key src a w Hkey).
  fold team. rewrite main_sample_cases. fold select.
  set (w0 := push (Logged "No API key found – using sample data (set API_FOOTBALL_KEY in .env for live data).") w).
  destruct (sample_file src) as [[csv | e0] |].
  - destruct (select csv) as [df | e1] eqn:Es.
    + destruct (save_quiet df a team w0) as (Hr & Hq & Hs & Hx).
      split; [exact Hr | split; [exact Hq | split; [exact Hs |]]].
      split; [split; [intros E; elim (Hx 3 E) | discriminate] |].
      split; [intros e E; discriminate |].
      split; [intros csv' e E1 E2; inversion E1; subst csv'; congruence |].
      intros csv' df' E1 E2. inversion E1; subst csv'.
      assert (df' = df) by congruence. subst df'.
      pose proof (save_cases df a team w0) as Hc.
      change (excel_writer w0 (a_out a)) with (excel_writer w (a_out a)) in Hc.
      split; [| split].
      * intros e E. rewrite E in Hc. rewrite Hc. reflexivity.
      * intros E Ha. rewrite E, Ha in Hc. rewrite Hc. reflexivity.
      * intros E Ha. rewrite E, Ha in Hc. rewrite Hc. reflexivity.
    + split; [reflexivity | split; [reflexivity | split; [reflexivity |]]].
      split; [split; discriminate |].
      split; [intros e E; discriminate |].
      split; [intros csv' e E1 E2; inversion E1; subst csv';
              assert (e = e1) by congruence; subst e; reflexivity |].
      intros csv' df' E1 E2. inversion E1; subst csv'. congruence.
  - split; [reflexivity | split; [reflexivity | split; [reflexivity |]]].
    split; [split; discriminate |].
    split; [intros e E; inversion E; reflexivity |].
    split; [intros csv' e E1 E2; discriminate |].
    intros csv' df' E1 E2. discriminate.
  - split; [reflexivity | split; [reflexivity | split; [reflexivity |]]].
    split; [split; reflexivity |].
    split; [intros e E; discriminate |].
    split; [intros csv' e E1 E2; discriminate |].
    intros csv' df' E1 E2. discriminate.
Qed.

Lemma build_dataframe_sorted_consistent :
  forall fixtures team_name fetch_odds w df w',
    build_dataframe fixtures team_name fetch_odds w = (Ok df, w') ->
    StronglySorted date_le_prop df /\
    forall r, In r df -> convertible r = true /\ row_consistent r.
Proof.
  intros fixtures team_name fetch_odds w df w' E.
  apply bind_ok_inv in E. destruct E as (rows & w1 & Er & E).
  apply build_rows_shape in Er. destruct Er as (ts & _ & ->). cbn [app] in E.
  unfold lift in E.
  assert (Ef : sorted_frame (rows_of team_name fixtures ts) = Ok df) by congruence.
  apply sorted_frame_spec in Ef. destruct Ef as (_ & Hsorted & Hrows).
  split; [exact Hsorted |].
  intros r Hin. destruct (Hrows r Hin) as (Hc & r0 & Hin0 & Er).
  split; [exact Hc |]. rewrite Er. apply set_DateUTC_consistent.
  apply (rows_of_consistent team_name fixtures ts r0 Hin0).
Qed.

(** X20: with a key configured, a workbook that [main] writes is written
    under the output name given; its summary names the team as typed, with
    surrounding whitespace removed, and counts as Matches the rows of the
    data sheet; the rows of the data sheet are in ascending order of their
    dates and each is consistent (outcome of its goals, price of its
    side); the date of each has been converted and none carries a
    timezone, which the writing refuses. *)
Theorem main_saved_workbook : forall src a w key out book,
  get_headers w = Some key ->
  fst (main src a w) = Ok (Saved out book) ->
  out = a_out a
  /\ s_Team (sheet_summary book) = PyStr.strip (a_team a)
  /\ s_Matches (sheet_summary book) = Z.of_nat (List.length (sheet_data book))
  /\ StronglySorted date_le_prop (sheet_data book)
  /\ (forall r, In r (sheet_data book) -> row_consistent r)
  /\ (forall r, In r (sheet_data book) -> convertible r = true /\ tz_aware r = false).
Proof.
  intros src a w key out book Hkey E.
  rewrite (main_with_key src a w key Hkey) in E.
  destruct (main_api a (PyStr.strip (a_team a)) w) as [res w'] eqn:Em.
  simpl in E. subst res. unfold main_api in Em.
  apply bind_ok_inv in Em. destruct Em as (u1 & w1 & _ & Em).
  apply bind_ok_inv in Em. destruct Em as (tid & w2 & _ & Em).
  destruct tid as [id |].
  - apply bind_ok_inv in Em. destruct Em as (u2 & w3 & _ & Em).
    apply bind_ok_inv in Em. destruct Em as (u3 & w4 & _ & Em).
    apply bind_ok_inv in Em. destruct Em as (fixtures & w5 & _ & Em).
    apply bind_ok_inv in Em. destruct Em as (u4 & w6 & _ & Em).
    apply bind_ok_inv in Em. destruct Em as (u5 & w7 & _ & Em).
    apply bind_ok_inv in Em. destruct Em as (df & w8 & Hdf & Em).
    apply save_ok_inv in Em. destruct Em as (-> & -> & Haware & _).
    destruct (build_dataframe_sorted_consistent _ _ _ _ _ _ Hdf) as [Hs Hc].
    cbn [sheet_data sheet_summary export_excel make_summary s_Team s_Matches].
    split; [reflexivity | split; [reflexivity | split; [reflexivity |]]].
    split; [assumption | split].
    + intros r Hin. apply (Hc r Hin).
    + intros r Hin. split; [apply (Hc r Hin) |].
      destruct (tz_aware r) eqn:Et; [| reflexivity].
      assert (Hex : existsb tz_aware df = true)
        by (apply existsb_exists; exists r; split; assumption).
      congruence.
  - apply bind_ok_inv in Em. destruct Em as (u2 & w3 & _ & Em).
    inversion Em.
Qed.


End Script.

(** ** The properties on the sample data *)

Import Samples.

Lemma sample_quotes_a :
  quoted_triple Parsers.decimal_float bet_a = triple_a.
Proof. vm_compute. reflexivity. Defined.

Lemma sample_quotes_b :
  quoted_triple Parsers.decimal_float bet_b = triple_b.
Proof. vm_compute. reflexivity. Defined.

Lemma sample_nonzero_a :
  nonzero (quoted Parsers.decimal_float is_home bet_a) \/
  nonzero (quoted Parsers.decimal_float is_draw bet_a) \/
  nonzero (quoted Parsers.decimal_float is_away bet_a).
Proof.
  left. eexists. split; [vm_compute; reflexivity | intros s H; discriminate].
Defined.

Lemma sample_nonzero_b :
  nonzero (quoted Parsers.decimal_float is_home bet_b) \/
  nonzero (quoted Parsers.decimal_float is_draw bet_b) \/
  nonzero (quoted Parsers.decimal_float is_away bet_b).
Proof.
  left. eexists. split; [vm_compute; reflexivity | intros s H; discriminate].
Defined.

Lemma sample_qualifies_T1 :
  qualifies Parsers.iso_datetime Parsers.decimal_float (Aware kickoff)
    (book_T1, bet_a) T1.
Proof.
  split; [reflexivity | split; [| exact sample_nonzero_a]].
  exists (Aware T1). split; [vm_compute; reflexivity | split; reflexivity].
Defined.

Lemma sample_qualifies_T2 :
  qualifies Parsers.iso_datetime Parsers.decimal_float (Aware kickoff)
    (book_T2, bet_b) T2.
Proof.
  split; [reflexivity | split; [| exact sample_nonzero_b]].
  exists (Aware T2). split; [vm_compute; reflexivity | split; reflexivity].
Defined.

Lemma sample_qualifies_T2_other :
  qualifies Parsers.iso_datetime Parsers.decimal_float (Aware kickoff)
    (book_T2_other, bet_a) T2.
Proof.
  split; [reflexivity | split; [| exact sample_nonzero_a]].
  exists (Aware T2). split; [vm_compute; reflexivity | split; reflexivity].
Defined.

(** Two bookmakers updated the day before and three hours before kickoff:
    the prices of the later one, 1.90, 3.30 and 4.00, are returned, in
    either order of the two. *)
Lemma pick_prematch_returns_latest_witness :
  Parsers.iso_datetime (PyStr.replace_Z kickoff_iso) = Some (Aware kickoff) /\
  pick_prematch_1x2 Parsers.iso_datetime Parsers.decimal_float
    (body [odds_entry [book_T1; book_T2]]) (Some kickoff_iso)
  = Ok (price_of 190 2, price_of 330 2, price_of 400 2) /\
  pick_prematch_1x2 Parsers.iso_datetime Parsers.decimal_float
    (body [odds_entry [book_T2; book_T1]]) (Some kickoff_iso)
  = Ok (price_of 190 2, price_of 330 2, price_of 400 2).
Proof.
  split; [reflexivity |].
  change (price_of 190 2, price_of 330 2, price_of 400 2) with triple_b.
  rewrite <- sample_quotes_b.
  split.
  - apply (proj2 (proj2 (proj2
             (pick_prematch_returns_latest Parsers.iso_datetime Parsers.decimal_float
                (body [odds_entry [book_T1; book_T2]]) kickoff_iso (Aware kickoff)
                eq_refl
                ltac:(intros r [<- | [<- | []]]; vm_compute; reflexivity))))
             (book_T1, bet_a) (book_T2, bet_b) T1 T2).
    + left. reflexivity.
    + exact sample_qualifies_T1.
    + exact sample_qualifies_T2.
    + unfold T1, T2. lia.
  - apply (proj2 (proj2 (proj2
             (pick_prematch_returns_latest Parsers.iso_datetime Parsers.decimal_float
                (body [odds_entry [book_T2; book_T1]]) kickoff_iso (Aware kickoff)
                eq_refl
                ltac:(intros r [<- | [<- | []]]; vm_compute; reflexivity))))
             (book_T1, bet_a) (book_T2, bet_b) T1 T2).
    + right. reflexivity.
    + exact sample_qualifies_T1.
    + exact sample_qualifies_T2.
    + unfold T1, T2. lia.
Defined.

(** A single bookmaker updated one second after kickoff: nothing is
    returned; updated exactly at kickoff: its prices are. *)
Lemma pick_prematch_never_after_kickoff_witness :
  Parsers.iso_datetime (PyStr.replace_Z kickoff_iso) = Some (Aware kickoff) /\
  pick_prematch_1x2 Parsers.iso_datetime Parsers.decimal_float
    (body [odds_entry [book_after]]) (Some kickoff_iso) = Ok none3 /\
  pick_prematch_1x2 Parsers.iso_datetime Parsers.decimal_float
    (body [odds_entry [book_at_kickoff]]) (Some kickoff_iso)
  = Ok (price_of 185 2, price_of 340 2, price_of 420 2).
Proof.
  split; [reflexivity | split].
  - apply (proj1 (proj2 (proj2
             (pick_prematch_never_after_kickoff Parsers.iso_datetime
                Parsers.decimal_float
                (body [odds_entry [book_after]]) kickoff_iso (Aware kickoff) eq_refl
                ltac:(intros r [<- | []]; vm_compute; reflexivity))))).
    intros r [<- | []]. exists (Aware (kickoff + 1)).
    split; vm_compute; reflexivity.
  - change (price_of 185 2, price_of 340 2, price_of 420 2) with triple_a.
    rewrite <- sample_quotes_a.
    apply (proj2 (proj2 (proj2
             (pick_prematch_never_after_kickoff Parsers.iso_datetime
                Parsers.decimal_float
                (body [odds_entry [book_at_kickoff]]) kickoff_iso (Aware kickoff)
                eq_refl
                ltac:(intros r [<- | []]; vm_compute; reflexivity))))
             (book_at_kickoff, bet_a) eq_refl eq_refl).
    + vm_compute. reflexivity.
    + exact sample_nonzero_a.
Defined.

(** Two bookmakers updated at the same instant: the prices of the first,
    1.90, 3.30 and 4.00, are returned, not those of the second. *)
Lemma pick_prematch_tie_first_seen_witness :
  Parsers.iso_datetime (PyStr.replace_Z kickoff_iso) = Some (Aware kickoff) /\
  pick_prematch_1x2 Parsers.iso_datetime Parsers.decimal_float
    (body [odds_entry [book_T2; book_T2_other]]) (Some kickoff_iso)
  = Ok (price_of 190 2, price_of 330 2, price_of 400 2).
Proof.
  split; [reflexivity |].
  change (price_of 190 2, price_of 330 2, price_of 400 2) with triple_b.
  rewrite <- sample_quotes_b.
  apply (proj1 (proj2
           (pick_prematch_tie_first_seen Parsers.iso_datetime Parsers.decimal_float
              (body [odds_entry [book_T2; book_T2_other]]) kickoff_iso (Aware kickoff)
              eq_refl
              ltac:(intros r [<- | [<- | []]]; vm_compute; reflexivity)))
           (book_T2, bet_b) (book_T2_other, bet_a) T2).
  - reflexivity.
  - exact sample_qualifies_T2.
  - exact sample_qualifies_T2_other.
Defined.

(** A bookmaker whose prices are "0", "0.00" and an unparsable string:
    alone it gives nothing, and beside an earlier bookmaker with prices it
    is the earlier one that is returned. *)
Lemma pick_prematch_discards_all_falsy_witness :
  Parsers.iso_datetime (PyStr.replace_Z kickoff_iso) = Some (Aware kickoff) /\
  quoted_triple Parsers.decimal_float bet_zero
  = (Some (S754_zero false), Some (S754_zero false), None) /\
  pick_prematch_1x2 Parsers.iso_datetime Parsers.decimal_float
    (body [odds_entry [book_zero]]) (Some kickoff_iso) = Ok none3 /\
  pick_prematch_1x2 Parsers.iso_datetime Parsers.decimal_float
    (body [odds_entry [book_T1]]) (Some kickoff_iso)
  = pick_prematch_1x2 Parsers.iso_datetime Parsers.decimal_float
      (body [odds_entry [book_zero; book_T1]]) (Some kickoff_iso).
Proof.
  assert (Hz : absent_or_zero (quoted Parsers.decimal_float is_home bet_zero) /\
               absent_or_zero (quoted Parsers.decimal_float is_draw bet_zero) /\
               absent_or_zero (quoted Parsers.decimal_float is_away bet_zero)).
  { split; [right; exists false; vm_compute; reflexivity |].
    split; [right; exists false; vm_compute; reflexivity |].
    left. vm_compute. reflexivity. }
  split; [reflexivity | split; [vm_compute; reflexivity | split]].
  - apply (proj1 (proj2
             (pick_prematch_discards_all_falsy Parsers.iso_datetime
                Parsers.decimal_float
                (body [odds_entry [book_zero]]) kickoff_iso (Aware kickoff) eq_refl
                ltac:(intros r [<- | []]; vm_compute; reflexivity)))).
    intros r [<- | []]. exact Hz.
  - apply (proj1
             (pick_prematch_discards_all_falsy Parsers.iso_datetime
                Parsers.decimal_float
                (body [odds_entry [book_zero; book_T1]]) kickoff_iso (Aware kickoff)
                eq_refl
                ltac:(intros r [<- | [<- | []]]; vm_compute; reflexivity))
             [] (book_zero, bet_zero) [(book_T1, bet_a)]
             (body [odds_entry [book_T1]])).
    + reflexivity.
    + exact Hz.
    + reflexivity.
Defined.

(** "Home" then " HOME ": the second price is the Home price. *)
Lemma extract_prices_last_label_wins_witness :
  get_or (bet_values bet_repeated) []
  = ([pair "Home" "1.50"; pair "Over 2.5" "1.70"] ++ pair " HOME " "2.10"
     :: [pair "X" "3.00"; pair "2" "5.00"; pair "Both" "1.95"])%list /\
  price_H (extract_prices Parsers.decimal_float bet_repeated)
  = Parsers.decimal_float "2.10".
Proof.
  split; [reflexivity |].
  apply (proj1
           (extract_prices_last_label_wins Parsers.decimal_float bet_repeated
              [pair "Home" "1.50"; pair "Over 2.5" "1.70"] (pair " HOME " "2.10")
              [pair "X" "3.00"; pair "2" "5.00"; pair "Both" "1.95"] eq_refl)).
  - reflexivity.
  - intros v [<- | [<- | [<- | []]]]; reflexivity.
Defined.

(** Without a key, one call makes three attempts and ends on [RetryError]. *)
Lemma api_get_retries_every_APIError_witness :
  get_headers world_no_key = None /\
  api_get "/odds" [("type", "prematch")] world_no_key
  = (Raise RetryError, push (Slept 2000) (push (Slept 1000) world_no_key)).
Proof.
  split; [reflexivity |].
  apply (proj1 (api_get_retries_every_APIError "/odds" [("type", "prematch")] world_no_key)).
  reflexivity.
Defined.

(** Odds requests answered by HTTP 500: the run ends on [RetryError]. *)
Lemma build_dataframe_aborts_on_odds_failure_witness :
  get_headers world_500 = Some "secret" /\
  fst (build_dataframe Parsers.iso_datetime Parsers.decimal_float
         Parsers.column_datetime ties_keep_order
         [fixture_entry 11 "2024-08-10T15:00:00+00:00" "Premier League"]
         "Arsenal" true world_500)
  = Raise RetryError.
Proof.
  split; [reflexivity |].
  apply (proj1 (proj2
           (build_dataframe_aborts_on_odds_failure Parsers.iso_datetime
              Parsers.decimal_float Parsers.column_datetime ties_keep_order
              (fixture_entry 11 "2024-08-10T15:00:00+00:00" "Premier League") []
              "Arsenal" world_500))
         "secret" _ _ _ [] eq_refl eq_refl); simpl; lia.
Defined.


(** Where the conditions of the resolution stop: a candidate named
    "Arsenal" that carries no identifier makes the resolver return absent
    on a response that is not empty. *)
Lemma find_team_id_without_identifier :
  fst (find_team_id "Arsenal" (world_with (Some "secret") [ok_reply nameless_id_search]))
  = Ok None /\
  ~ find_team_id_as_stated "Arsenal" nameless_id_search None.
Proof.
  split; [reflexivity |].
  intros (_ & _ & [H _]). specialize (H eq_refl). discriminate.
Qed.

(** And an empty query: a candidate whose name is empty equals it, yet the
    test of the loop wants a name that is not empty, and the first
    candidate is returned. *)
Lemma find_team_id_empty_query :
  name_matches EmptyString (team_entry (Some 2) EmptyString) /\
  exact_match EmptyString (team_entry (Some 2) EmptyString) = false /\
  fst (find_team_id EmptyString
         (world_with (Some "secret") [ok_reply empty_name_search]))
  = Ok (Some 1).
Proof.
  split; [exists EmptyString; split; reflexivity | split; reflexivity].
Qed.


(** Two home wins, an away loss and a draw. *)
Lemma summary_sheet_counts_witness :
  Permutation season_rows
    [result_row "H" "Home"; result_row "H" "Home"; result_row "H" "Away";
     result_row "D" "Away"] /\
  let s := sheet_summary (export_excel season_rows "odds_history.xlsx" "Arsenal"
                            "2024-08-01" "2025-06-30") in
  s_Matches s = 4 /\ s_Wins s = Some 2 /\ s_Draws s = Some 1 /\ s_Losses s = Some 1.
Proof.
  assert (Hperm : Permutation season_rows
            [result_row "H" "Home"; result_row "H" "Home"; result_row "H" "Away";
             result_row "D" "Away"]).
  { unfold season_rows. apply perm_skip.
    apply perm_trans with [result_row "H" "Away"; result_row "H" "Home";
                           result_row "D" "Away"].
    - apply perm_skip. apply perm_swap.
    - apply perm_swap. }
  split; [exact Hperm |].
  apply (proj2 (proj2 (proj2 (proj2 (proj2 (proj2
           (summary_sheet_counts season_rows "odds_history.xlsx" "Arsenal"
              "2024-08-01" "2025-06-30"))))))
         (result_row "H" "Home") (result_row "H" "Home") (result_row "H" "Away")
         (result_row "D" "Away")); try reflexivity.
  exact Hperm.
Defined.

(** ** The further properties on the sample data *)

(** Three fixtures of 10, 1 and 20 August come out in date order. *)
Lemma list_fixtures_sorted_witness :
  api_get "/fixtures" (fixtures_params 42 "2024-08-01" "2025-06-30" None)
    (world_with (Some "secret") [ok_reply fixtures_found])
  = (Ok (body fixtures_found),
     push (Requested "/fixtures" (fixtures_params 42 "2024-08-01" "2025-06-30" None))
       (consume (world_with (Some "secret") [ok_reply fixtures_found]))) /\
  exists kept,
    fst (list_fixtures 42 "2024-08-01" "2025-06-30" None None
           (world_with (Some "secret") [ok_reply fixtures_found])) = Ok kept /\
    StronglySorted date_key_le kept /\ Permutation kept fixtures_found.
Proof.
  split; [reflexivity |].
  destruct (list_fixtures_sorted 42 "2024-08-01" "2025-06-30" None None
              (world_with (Some "secret") [ok_reply fixtures_found])
              (body fixtures_found) _ eq_refl)
    as (kept & E & Hs & Hp).
  exists kept. rewrite E. split; [reflexivity | split; [exact Hs |]].
  apply Hp. left. reflexivity.
Defined.

(** Fixtures 31 and 33 share a date: they stay in that order. *)
Lemma list_fixtures_stable_witness :
  api_get "/fixtures" (fixtures_params 42 "2024-08-01" "2025-06-30" None)
    (world_with (Some "secret") [ok_reply fixtures_same_day])
  = (Ok (body fixtures_same_day),
     push (Requested "/fixtures" (fixtures_params 42 "2024-08-01" "2025-06-30" None))
       (consume (world_with (Some "secret") [ok_reply fixtures_same_day]))) /\
  exists kept,
    fst (list_fixtures 42 "2024-08-01" "2025-06-30" None None
           (world_with (Some "secret") [ok_reply fixtures_same_day])) = Ok kept /\
    filter (fun x => String.eqb (date_key x) "2024-08-10T15:00:00+00:00") kept
    = [fixture_entry 31 "2024-08-10T15:00:00+00:00" "Cup";
       fixture_entry 33 "2024-08-10T15:00:00+00:00" "Cup"].
Proof.
  split; [reflexivity |].
  destruct (list_fixtures_stable 42 "2024-08-01" "2025-06-30" None None
              (world_with (Some "secret") [ok_reply fixtures_same_day])
              (body fixtures_same_day) _ eq_refl)
    as (kept & E & Hst).
  exists kept. rewrite E. split; [reflexivity |].
  rewrite Hst. reflexivity.
Defined.

(** 2-0 is a home win. *)
Lemma outcome_from_score_spec_witness :
  outcome_from_score (Some 2) (Some 0) = Some "H" /\
  outcome_from_score (Some 2) None = None.
Proof.
  split.
  - apply (proj2 (proj1 (proj2 (outcome_from_score_spec (Some 2) (Some 0))
                           2 0 eq_refl eq_refl))).
    lia.
  - apply (proj1 (outcome_from_score_spec (Some 2) None)). right. reflexivity.
Defined.

(** An empty API_FOOTBALL_KEY gives way to APISPORTS_KEY. *)
Lemma get_headers_spec_witness :
  get_headers {| env_API_FOOTBALL_KEY := Some EmptyString;
                 env_APISPORTS_KEY := Some "other"; remote := [];
                 excel_writer := fun _ => None; trace := [] |}
  = Some "other".
Proof.
  apply (proj1 (proj2 (proj2 (get_headers_spec
           {| env_API_FOOTBALL_KEY := Some EmptyString;
              env_APISPORTS_KEY := Some "other"; remote := [];
              excel_writer := fun _ => None; trace := [] |})))).
  - right. reflexivity.
  - reflexivity.
  - discriminate.
Defined.

(** A rate limit, then the answer: one sleep of a second, two requests. *)
Lemma api_get_recovers_witness :
  get_headers (world_with (Some "secret") [error_reply 429; ok_reply arsenal_search])
  = Some "secret" /\
  fst (api_get "/teams" [("search", "Arsenal")]
         (world_with (Some "secret") [error_reply 429; ok_reply arsenal_search]))
  = Ok (body arsenal_search) /\
  trace (snd (api_get "/teams" [("search", "Arsenal")]
                (world_with (Some "secret") [error_reply 429; ok_reply arsenal_search])))
  = [Requested "/teams" [("search", "Arsenal")]; Slept 1000;
     Requested "/teams" [("search", "Arsenal")]].
Proof.
  split; [reflexivity |].
  destruct (proj1 (proj2
              (api_get_recovers "/teams" [("search", "Arsenal")]
                 (world_with (Some "secret") [error_reply 429; ok_reply arsenal_search])
                 "secret"
                 {| status_code := 200; text := EmptyString;
                    json := Some (body arsenal_search) |}
                 (body arsenal_search) [] eq_refl ltac:(simpl; lia) eq_refl))
              {| status_code := 429; text := "Internal Server Error"; json := None |}
              eq_refl ltac:(simpl; lia))
    as (E & _ & Ht).
  split; [exact E | exact Ht].
Defined.

(** A network failure is raised at once. *)
Lemma api_get_no_retry_on_other_errors_witness :
  get_headers (world_with (Some "secret") [NetworkFailure]) = Some "secret" /\
  api_get "/odds" [("type", "prematch")] (world_with (Some "secret") [NetworkFailure])
  = (Raise RequestException,
     push (Requested "/odds" [("type", "prematch")])
       (consume (world_with (Some "secret") [NetworkFailure]))).
Proof.
  split; [reflexivity |].
  apply (proj1 (api_get_no_retry_on_other_errors "/odds" [("type", "prematch")]
                  (world_with (Some "secret") [NetworkFailure]) "secret" eq_refl)
           []).
  reflexivity.
Defined.

(** An empty response with an unparsable kickoff raises nothing; a
    non-empty one does; and an update without offset against a kickoff
    with one raises [TypeError]. *)
Lemma pick_prematch_kickoff_errors_witness :
  pick_prematch_1x2 Parsers.iso_datetime Parsers.decimal_float (body []) (Some "soon")
  = Ok none3 /\
  pick_prematch_1x2 Parsers.iso_datetime Parsers.decimal_float
    (body [odds_entry [book_T1]]) (Some "soon")
  = Raise ValueError /\
  Parsers.iso_datetime (PyStr.replace_Z "2024-08-10T12:00:00") = Some (Naive 1723291200) /\
  pick_prematch_1x2 Parsers.iso_datetime Parsers.decimal_float
    (body [odds_entry [book_T1; book_naive]]) (Some kickoff_iso)
  = Raise TypeError.
Proof.
  split; [| split; [| split; [vm_compute; reflexivity |]]].
  - apply (proj1 (pick_prematch_kickoff_errors Parsers.iso_datetime Parsers.decimal_float
                    (body []) (Some "soon"))).
    reflexivity.
  - apply (proj1 (proj2 (proj2 (pick_prematch_kickoff_errors Parsers.iso_datetime
                                  Parsers.decimal_float
                                  (body [odds_entry [book_T1]]) (Some "soon"))
                          ltac:(discriminate)))
             "soon" eq_refl).
    reflexivity.
  - apply (proj2 (proj2 (proj2 (proj2 (pick_prematch_kickoff_errors Parsers.iso_datetime
                                         Parsers.decimal_float
                                         (body [odds_entry [book_T1; book_naive]])
                                         (Some kickoff_iso))
                                 ltac:(discriminate)))
                    kickoff_iso (Aware kickoff) eq_refl eq_refl)).
    exists (book_naive, bet_b). split; [right; left; reflexivity |].
    vm_compute. reflexivity.
Defined.

(** The triple selected from two bookmakers carries a nonzero price. *)
Lemma pick_prematch_result_truthy_witness :
  pick_prematch_1x2 Parsers.iso_datetime Parsers.decimal_float
    (body [odds_entry [book_T1; book_T2]]) (Some kickoff_iso)
  = Ok triple_b /\
  (triple_b = none3 \/
   nonzero (price_H triple_b) \/ nonzero (price_D triple_b) \/
   nonzero (price_A triple_b)).
Proof.
  assert (E : pick_prematch_1x2 Parsers.iso_datetime Parsers.decimal_float
                (body [odds_entry [book_T1; book_T2]]) (Some kickoff_iso)
              = Ok triple_b)
    by (vm_compute; reflexivity).
  split; [exact E |].
  apply (pick_prematch_result_truthy Parsers.iso_datetime Parsers.decimal_float
           (body [odds_entry [book_T1; book_T2]]) (Some kickoff_iso) _ E).
Defined.

(** The two bookmakers listed in the other order: the same triple. *)
Lemma pick_prematch_order_independent_witness :
  Parsers.iso_datetime (PyStr.replace_Z kickoff_iso) = Some (Aware kickoff) /\
  pick_prematch_1x2 Parsers.iso_datetime Parsers.decimal_float
    (body [odds_entry [book_T1; book_T2]]) (Some kickoff_iso)
  = pick_prematch_1x2 Parsers.iso_datetime Parsers.decimal_float
      (body [odds_entry [book_T2; book_T1]]) (Some kickoff_iso).
Proof.
  split; [reflexivity |].
  apply (pick_prematch_order_independent Parsers.iso_datetime Parsers.decimal_float
           (body [odds_entry [book_T1; book_T2]]) (body [odds_entry [book_T2; book_T1]])
           kickoff_iso (Aware kickoff) eq_refl).
  - apply perm_swap.
  - intros r1 r2 dt [<- | [<- | []]] [<- | [<- | []]]
      (_ & (u1 & Hu1 & _ & Hi1) & _) (_ & (u2 & Hu2 & _ & Hi2) & _);
      try reflexivity;
      vm_compute in Hu1, Hu2; inversion Hu1; inversion Hu2; subst u1 u2;
      simpl in Hi1, Hi2; congruence.
Defined.

(** A bookmaker without update string can be left out. *)
Lemma pick_prematch_ignores_unusable_witness :
  Parsers.iso_datetime (PyStr.replace_Z kickoff_iso) = Some (Aware kickoff) /\
  pick_prematch_1x2 Parsers.iso_datetime Parsers.decimal_float
    (body [odds_entry [book_T1]]) (Some kickoff_iso)
  = pick_prematch_1x2 Parsers.iso_datetime Parsers.decimal_float
      (body [odds_entry [book_T1; book_no_update]]) (Some kickoff_iso).
Proof.
  split; [reflexivity |].
  apply (proj1 (pick_prematch_ignores_unusable Parsers.iso_datetime Parsers.decimal_float
                  (body [odds_entry [book_T1; book_no_update]]) kickoff_iso
                  (Aware kickoff) eq_refl)
           [(book_T1, bet_a)] (book_no_update, bet_b) []).
  - reflexivity.
  - right. left. reflexivity.
  - reflexivity.
Defined.

(** "home" and " HOME " are the same label. *)
Lemma set_price_label_normalised_witness :
  all_space " " = true /\ PyStr.lower "home" = PyStr.lower "HOME" /\
  set_price Parsers.decimal_float none3 (pair " HOME " "2.10")
  = set_price Parsers.decimal_float none3 (pair "home" "2.10").
Proof.
  split; [reflexivity | split; [reflexivity |]].
  apply (proj2 (set_price_label_normalised Parsers.decimal_float none3
                  (pair "home" "2.10") (pair " HOME " "2.10")
                  "home" "HOME" " " " " eq_refl eq_refl eq_refl eq_refl eq_refl eq_refl)).
Defined.

(** The subject team typed in lower case, playing at home. *)
Lemma make_row_team_side_witness :
  TeamSide (make_row fixture_late "arsenal" triple_a) = Some "Home" /\
  TeamOdds (make_row fixture_late "arsenal" triple_a) = price_H triple_a.
Proof.
  apply (proj1 (make_row_team_side fixture_late "arsenal" triple_a)).
  exists "Arsenal". split; [reflexivity | split; [discriminate | reflexivity]].
Defined.

(** Two fixtures without odds, the later listed first: two rows, the
    earlier first. *)
Lemma build_dataframe_one_row_per_fixture_witness :
  exists df,
    build_dataframe Parsers.iso_datetime Parsers.decimal_float
      Parsers.column_datetime ties_keep_order
      season_fixtures "Arsenal" false world_no_key = (Ok df, world_no_key) /\
    map FixtureID df = [Some 22; Some 21] /\
    List.length df = 2%nat /\
    Permutation (map FixtureID df) [Some 21; Some 22] /\
    StronglySorted date_le_prop df.
Proof.
  eexists. split; [vm_compute; reflexivity |].
  split; [reflexivity |].
  destruct (build_dataframe_one_row_per_fixture Parsers.iso_datetime
              Parsers.decimal_float Parsers.column_datetime ties_keep_order
              season_fixtures "Arsenal" false world_no_key _ world_no_key eq_refl)
    as (Hlen & Hperm & Hs & _).
  split; [exact Hlen | split; [exact Hperm | exact Hs]].
Defined.

(** Without odds nothing is requested and every price is absent. *)
Lemma build_dataframe_without_odds_witness :
  snd (build_dataframe Parsers.iso_datetime Parsers.decimal_float
         Parsers.column_datetime ties_keep_order
         season_fixtures "Arsenal" false world_run) = world_run /\
  exists df,
    fst (build_dataframe Parsers.iso_datetime Parsers.decimal_float
           Parsers.column_datetime ties_keep_order
           season_fixtures "Arsenal" false world_run) = Ok df /\
    map FixtureID df = [Some 22; Some 21] /\
    forall r, In r df -> Odds_H r = None.
Proof.
  destruct (build_dataframe_without_odds Parsers.iso_datetime Parsers.decimal_float
              Parsers.column_datetime ties_keep_order season_fixtures "Arsenal"
              world_run)
    as (Hw & _ & _ & _ & _ & Hnone).
  split; [exact Hw |].
  eexists. split; [vm_compute; reflexivity |].
  split; [reflexivity |].
  intros r Hin.
  apply (proj2 (Hnone _ ltac:(vm_compute; reflexivity)) r Hin).
Defined.

(** Two fixtures, two odds replies served at once. *)
Lemma build_dataframe_with_odds_witness :
  get_headers (world_with (Some "secret")
                 [Reply (odds_response [book_T1; book_T2]);
                  Reply (odds_response [book_T1])]) = Some "secret" /\
  Forall2 (served Parsers.iso_datetime Parsers.decimal_float) season_fixtures
    [odds_response [book_T1; book_T2]; odds_response [book_T1]] /\
  exists df w',
    build_dataframe Parsers.iso_datetime Parsers.decimal_float
      Parsers.column_datetime ties_keep_order
      season_fixtures "Arsenal" true
      (world_with (Some "secret")
         [Reply (odds_response [book_T1; book_T2]); Reply (odds_response [book_T1])])
    = (Ok df, w') /\
    map FixtureID df = [Some 22; Some 21] /\
    map Odds_H df = [None; price_of 190 2] /\
    remote w' = [] /\
    trace w' = [Slept 250; Requested "/odds" [("fixture", "22"); ("type", "prematch")];
                Slept 250; Requested "/odds" [("fixture", "21"); ("type", "prematch")]].
Proof.
  assert (Hserved : Forall2 (served Parsers.iso_datetime Parsers.decimal_float)
                      season_fixtures
                      [odds_response [book_T1; book_T2]; odds_response [book_T1]]).
  { repeat constructor; try (simpl; lia);
      eexists; eexists; (split; [reflexivity | vm_compute; reflexivity]). }
  split; [reflexivity | split; [exact Hserved |]].
  destruct (build_dataframe_with_odds Parsers.iso_datetime Parsers.decimal_float
              Parsers.column_datetime ties_keep_order season_fixtures
              [odds_response [book_T1; book_T2]; odds_response [book_T1]]
              "Arsenal"
              (world_with (Some "secret")
                 [Reply (odds_response [book_T1; book_T2]);
                  Reply (odds_response [book_T1])])
              "secret" [] eq_refl eq_refl Hserved)
    as (Hr & Ht & _).
  eexists. eexists. split; [vm_compute; reflexivity |].
  split; [reflexivity | split; [reflexivity | split; [exact Hr | exact Ht]]].
Defined.

(** Two home wins, an away loss and a draw: 2 + 1 + 1 = 4. *)
Lemma summary_counts_bounded_witness :
  has_outcome season_rows = true /\
  exists wins draws losses,
    s_Wins (sheet_summary (export_excel season_rows "odds_history.xlsx" "Arsenal"
                             "2024-08-01" "2025-06-30")) = Some wins /\
    s_Draws (sheet_summary (export_excel season_rows "odds_history.xlsx" "Arsenal"
                              "2024-08-01" "2025-06-30")) = Some draws /\
    s_Losses (sheet_summary (export_excel season_rows "odds_history.xlsx" "Arsenal"
                               "2024-08-01" "2025-06-30")) = Some losses /\
    wins + draws + losses <= 4.
Proof.
  split; [reflexivity |].
  destruct (summary_counts_bounded season_rows "odds_history.xlsx" "Arsenal"
              "2024-08-01" "2025-06-30" eq_refl)
    as (wins & draws & losses & Ew & Ed & El & _ & _ & _ & Hle & _).
  exists wins, draws, losses. split; [exact Ew | split; [exact Ed | split; [exact El |]]].
  exact Hle.
Defined.

(** Every request answered by HTTP 500: an uncaught [RetryError]. *)
Lemma main_never_handles_APIError_witness :
  get_headers world_500 = Some "secret" /\
  fst (main Parsers.iso_datetime Parsers.decimal_float
         Parsers.column_datetime ties_keep_order
         csv_source run_args world_500) = Raise RetryError.
Proof.
  split; [reflexivity |].
  apply (proj2 (proj2 (main_never_handles_APIError Parsers.iso_datetime
                         Parsers.decimal_float Parsers.column_datetime ties_keep_order
                         csv_source run_args world_500))
           "secret" _ _ _ [] eq_refl eq_refl); simpl; lia.
Defined.

(** A search without candidate: exit code 2 after one request. *)
Lemma main_team_not_found_witness :
  get_headers (world_with (Some "secret") [ok_reply []; ok_reply season_fixtures])
  = Some "secret" /\
  fst (main Parsers.iso_datetime Parsers.decimal_float
         Parsers.column_datetime ties_keep_order
         csv_source run_args
         (world_with (Some "secret") [ok_reply []; ok_reply season_fixtures]))
  = Ok (Exited 2) /\
  remote (snd (main Parsers.iso_datetime Parsers.decimal_float
                 Parsers.column_datetime ties_keep_order
                 csv_source run_args
                 (world_with (Some "secret") [ok_reply []; ok_reply season_fixtures])))
  = [ok_reply season_fixtures].
Proof.
  split; [reflexivity |].
  destruct (main_team_not_found Parsers.iso_datetime Parsers.decimal_float
              Parsers.column_datetime ties_keep_order csv_source run_args
              (world_with (Some "secret") [ok_reply []; ok_reply season_fixtures])
              "secret"
              {| status_code := 200; text := EmptyString; json := Some (body []) |}
              [ok_reply season_fixtures] (body [])
              eq_refl eq_refl ltac:(simpl; lia) eq_refl eq_refl)
    as (E & Hr & _).
  split; [exact E | exact Hr].
Defined.

(** No key: without sample file, exit code 3 and the remote untouched;
    with the sample file, the workbook of its four rows is saved; with a
    team name that is no regular expression, the selection raises. *)
Lemma main_without_key_witness :
  get_headers (world_with None [ok_reply arsenal_search]) = None /\
  fst (main Parsers.iso_datetime Parsers.decimal_float
         Parsers.column_datetime ties_keep_order
         no_csv_source run_args (world_with None [ok_reply arsenal_search]))
  = Ok (Exited 3) /\
  remote (snd (main Parsers.iso_datetime Parsers.decimal_float
                 Parsers.column_datetime ties_keep_order
                 no_csv_source run_args (world_with None [ok_reply arsenal_search])))
  = [ok_reply arsenal_search] /\
  fst (main Parsers.iso_datetime Parsers.decimal_float
         Parsers.column_datetime ties_keep_order
         csv_source run_args (world_with None [ok_reply arsenal_search]))
  = Ok (Saved "odds_history.xlsx"
          (export_excel season_rows "odds_history.xlsx" "Arsenal"
             "2024-08-01" "2025-06-30")) /\
  fst (main Parsers.iso_datetime Parsers.decimal_float
         Parsers.column_datetime ties_keep_order
         csv_source run_args_pattern (world_with None [ok_reply arsenal_search]))
  = Raise ReError.
Proof.
  split; [reflexivity |].
  destruct (main_without_key Parsers.iso_datetime Parsers.decimal_float
              Parsers.column_datetime ties_keep_order no_csv_source run_args
              (world_with None [ok_reply arsenal_search]) eq_refl)
    as (Hr & _ & _ & He & _).
  destruct (main_without_key Parsers.iso_datetime Parsers.decimal_float
              Parsers.column_datetime ties_keep_order csv_source run_args
              (world_with None [ok_reply arsenal_search]) eq_refl)
    as (_ & _ & _ & _ & _ & _ & Hsave).
  destruct (main_without_key Parsers.iso_datetime Parsers.decimal_float
              Parsers.column_datetime ties_keep_order csv_source run_args_pattern
              (world_with None [ok_reply arsenal_search]) eq_refl)
    as (_ & _ & _ & _ & _ & Hsel & _).
  split; [apply He; reflexivity | split; [exact Hr | split]].
  - apply (proj2 (proj2 (Hsave season_rows season_rows eq_refl eq_refl)));
      reflexivity.
  - apply (Hsel season_rows LibReError); reflexivity.
Defined.

(** A whole run on dates without offset: the workbook written has its two
    rows in date order, with the prices selected for each. *)
Lemma main_saved_workbook_witness :
  get_headers world_run_naive = Some "secret" /\
  exists book,
    fst (main Parsers.iso_datetime Parsers.decimal_float
           Parsers.column_datetime ties_keep_order
           csv_source run_args world_run_naive)
    = Ok (Saved "odds_history.xlsx" book) /\
    map FixtureID (sheet_data book) = [Some 22; Some 21] /\
    map Odds_H (sheet_data book) = [price_of 185 2; price_of 190 2] /\
    s_Team (sheet_summary book) = "Arsenal" /\
    s_Matches (sheet_summary book) = Z.of_nat (List.length (sheet_data book)) /\
    StronglySorted date_le_prop (sheet_data book) /\
    forall r, In r (sheet_data book) -> tz_aware r = false.
Proof.
  split; [reflexivity |].
  eexists.
  assert (E : fst (main Parsers.iso_datetime Parsers.decimal_float
                     Parsers.column_datetime ties_keep_order
                     csv_source run_args world_run_naive)
              = Ok (Saved "odds_history.xlsx" _))
    by (vm_compute; reflexivity).
  split; [exact E |].
  destruct (main_saved_workbook Parsers.iso_datetime Parsers.decimal_float
              Parsers.column_datetime ties_keep_order csv_source run_args
              world_run_naive "secret" _ _ eq_refl E)
    as (_ & Ht & Hm & Hs & _ & Hz).
  split; [reflexivity | split; [reflexivity |]].
  split; [exact Ht | split; [exact Hm | split; [exact Hs |]]].
  intros r Hin. apply (Hz r Hin).
Defined.

